(** * express-serverless: request security, authorization and product CRUD

    A shallow embedding of the Express API of the repository
    (the files under src/api): the search-term and numeric sanitizers, the origin
    (CORS) middleware, the per-identifier rate limiter, the admin gate and
    the product controllers, followed by the properties proved about them.

    Conventions of the embedding:
    - a JavaScript string is the list of its UTF-16 code units;
    - a JavaScript number that may carry a fraction (prices, ids produced
      by [parseInt]) is an IEEE-754 binary64 value, [spec_float] with
      precision 53 and maximal exponent 1024; request counters and
      millisecond clocks, which only ever hold integers far below 2^53,
      are in [Z];
    - a request body and a query parameter are what the parsers of the
      framework made of the request, whatever the TypeScript interfaces
      they are cast to declare: a field of the body is a JSON value of any
      type or missing, the search parameter a value of any type;
    - the hosted database and identity service is an oracle with a state of
      its own; every call to it is recorded in a call log, so that a
      sentence such as: the delete call is never issued, is a statement
      about that log. *)

From Stdlib Require Import ZArith NArith QArith List Bool Ascii String Lia.
From Stdlib Require Import Floats.SpecFloat DecimalN.
From stdpp Require Import base option list gmap.

Import ListNotations.
Local Open Scope Z_scope.
Local Open Scope bool_scope.

(* ===================================================================== *)
(** * Part I: the embedding                                               *)
(* ===================================================================== *)

(** ** JavaScript strings *)

Module JsString.

Local Open Scope N_scope.

(** One UTF-16 code unit. *)
Definition char16 := N.

Definition t := list char16.

(** The code units of an ASCII literal. *)
Definition js (s : string) : t := List.map N_of_ascii (list_ascii_of_string s).

Definition in_range (lo hi c : char16) : bool := N.leb lo c && N.leb c hi.

Definition is_upper (c : char16) : bool := in_range 65 90 c.
Definition is_lower (c : char16) : bool := in_range 97 122 c.
Definition is_digit (c : char16) : bool := in_range 48 57 c.
Definition is_alpha (c : char16) : bool := is_upper c || is_lower c.

(** The regular-expression class [\w] without the [u] flag: [A-Za-z0-9_]. *)
Definition is_word (c : char16) : bool :=
  is_upper c || is_lower c || is_digit c || N.eqb c 95.

(** Canonicalisation of a code unit under the [i] flag without [u]: only
    the ASCII letters are folded onto the ASCII capitals (a code unit of
    128 or more never folds to one below 128). *)
Definition to_upper (c : char16) : char16 := if is_lower c then c - 32 else c.
Definition to_lower (c : char16) : char16 := if is_upper c then c + 32 else c.

(** WhiteSpace and LineTerminator of ECMAScript: what [trim] removes. *)
Definition is_space (c : char16) : bool :=
  in_range 9 13 c || N.eqb c 32 || N.eqb c 160 || N.eqb c 5760
  || in_range 8192 8202 c || N.eqb c 8232 || N.eqb c 8233
  || N.eqb c 8239 || N.eqb c 8287 || N.eqb c 12288 || N.eqb c 65279.

Fixpoint trimStart (s : t) : t :=
  match s with
  | c :: s' => if is_space c then trimStart s' else s
  | [] => []
  end.

Definition trimEnd (s : t) : t := rev (trimStart (rev s)).

Definition trim (s : t) : t := trimEnd (trimStart s).

(** [s.replace(/[...]/g, '')] for a character class given by [p]. *)
Definition remove_chars (p : char16 -> bool) (s : t) : t :=
  List.filter (fun c => negb (p c)) s.

(** [s.replace(/ab/g, '')] for a two-unit literal [ab]: matches are found
    left to right and do not overlap. *)
Fixpoint remove_pair (a b : char16) (s : t) : t :=
  match s with
  | x :: tl =>
      match tl with
      | y :: rest =>
          if N.eqb x a && N.eqb y b then remove_pair a b rest
          else x :: remove_pair a b tl
      | [] => s
      end
  | [] => []
  end.

(** [s.startsWith(p)], returning what follows the prefix. *)
Fixpoint strip_prefix (p s : t) : option t :=
  match p, s with
  | [], _ => Some s
  | a :: p', c :: s' => if N.eqb a c then strip_prefix p' s' else None
  | _ :: _, [] => None
  end.

Definition eqb (a b : t) : bool := bool_decide (a = b).

(** Truthiness of a string: only the empty string is falsy. *)
Definition truthy (s : t) : bool := match s with [] => false | _ => true end.

(** Truthiness of [string | undefined]. *)
Definition truthy_opt (s : option t) : bool :=
  match s with Some s => truthy s | None => false end.

End JsString.

Abbreviation js := JsString.js.

(** ** JavaScript numbers *)

Module JsNumber.

(** IEEE-754 binary64. *)
Definition prec : Z := 53.
Definition emax : Z := 1024.

Definition t := spec_float.

Definition NaN : t := S754_nan.
Definition zero : t := S754_zero false.

(** The Number value of a mathematical integer (round to nearest, ties
    to even); an integer literal of the source is [of_Z] of its value. *)
Definition of_Z (n : Z) : t := binary_normalize prec emax n 0 false.

Definition mul : t -> t -> t := SFmul prec emax.
Definition div : t -> t -> t := SFdiv prec emax.
Definition opp : t -> t := SFopp.

(** The relational operators; every comparison with NaN is false. *)
Definition ltb : t -> t -> bool := SFltb.
Definition leb : t -> t -> bool := SFleb.
Definition gtb (x y : t) : bool := SFltb y x.

Definition isNaN (x : t) : bool :=
  match x with S754_nan => true | _ => false end.

Definition isFinite (x : t) : bool :=
  match x with S754_nan | S754_infinity _ => false | _ => true end.

(** Truthiness of a number: zero of either sign and NaN are falsy. *)
Definition truthy (x : t) : bool :=
  match x with S754_zero _ | S754_nan => false | _ => true end.

(** [Math.round]: the integer nearest to [x], the larger one on a tie;
    an argument in [-0.5, 0) gives negative zero, and integers, zeros,
    infinities and NaN are returned as they are. *)
Definition Math_round (x : t) : t :=
  match x with
  | S754_finite s m e =>
      if 0 <=? e then x
      else
        let sm := if s then Z.neg m else Z.pos m in
        (* floor (sm * 2^e + 1/2) = floor ((2 sm + 2^-e) / 2^(1-e)) *)
        let n := Z.shiftr (2 * sm + Z.shiftl 1 (- e)) (1 - e) in
        binary_normalize prec emax n 0 s
  | _ => x
  end.

(** The exact value of a finite number, as a rational. *)
Definition to_Q (x : t) : option Q :=
  match x with
  | S754_zero _ => Some 0%Q
  | S754_finite s m e =>
      let sm := if s then Z.neg m else Z.pos m in
      Some (if 0 <=? e then inject_Z (sm * 2 ^ e) else Qmake sm (Z.to_pos (2 ^ (- e))))
  | _ => None
  end.

(** A well-formed binary64 value: mantissa and exponent in canonical
    form. Every number a JavaScript program handles is one. *)
Definition valid (x : t) : Prop := valid_binary prec emax x = true.

(** Strictly greater than zero: a positive finite value or +Infinity. *)
Definition strictly_positive (x : t) : Prop :=
  (exists q, to_Q x = Some q /\ (0 < q)%Q) \/ x = S754_infinity false.

(** Zero (of either sign) or negative: a finite value that is at most
    zero, or -Infinity. *)
Definition zero_or_negative (x : t) : Prop :=
  (exists q, to_Q x = Some q /\ (q <= 0)%Q) \/ x = S754_infinity true.

(** The double nearest to the decimal [n / 10^k], as a numeric literal
    with [k] fractional digits denotes it. *)
Definition decimal (n : Z) (k : Z) : t :=
  match n with
  | Z0 => zero
  | Z.pos m =>
      let '(q, e, l) := SFdiv_core_binary prec emax (Z.pos m) 0 (10 ^ k) 0 in
      binary_round_aux prec emax false q e l
  | Z.neg m =>
      let '(q, e, l) := SFdiv_core_binary prec emax (Z.pos m) 0 (10 ^ k) 0 in
      binary_round_aux prec emax true q e l
  end.

End JsNumber.

(** ** Search-term sanitiser and the product list query
    (api/services/supabase.service.ts) *)

Module SearchTerm.

Import JsString.
Local Open Scope N_scope.

(** The alternatives of [sqlKeywords], in the order of the pattern. *)
Definition keywords : list JsString.t :=
  [ js "SELECT"; js "INSERT"; js "UPDATE"; js "DELETE"; js "DROP";
    js "UNION"; js "ALTER"; js "CREATE"; js "EXEC"; js "EXECUTE" ].

(** The class of the first [replace]: semicolon, single quote, double
    quote and backslash. *)
Definition is_dangerous (c : char16) : bool :=
  N.eqb c 59 || N.eqb c 39 || N.eqb c 34 || N.eqb c 92.

(** The chain of [replace] calls and the final [trim] that produce the
    local constant [cleaned]. *)
Definition cleaned (term : JsString.t) : JsString.t :=
  trim
    (remove_pair 42 47               (* star slash: comment end *)
      (remove_pair 47 42             (* slash star: comment start *)
        (remove_pair 45 45           (* two dashes: line comment *)
          (remove_chars is_dangerous term)))).

(** *** The matcher for [/\b(SELECT|...|EXECUTE)\b/i]

    The matcher walks the subject left to right; [prev] is the code unit
    before the current position, if any. *)

Definition is_word_opt (c : option char16) : bool :=
  match c with Some c => is_word c | None => false end.

(** The assertion [\b] between two neighbouring positions. *)
Definition word_boundary (before after : option char16) : bool :=
  xorb (is_word_opt before) (is_word_opt after).

(** Match the literal [kw] case-insensitively at the head of [s]; on
    success return the last code unit consumed and the remaining input. *)
Fixpoint match_literal_ci (kw s : JsString.t) (last : option char16)
  : option (option char16 * JsString.t) :=
  match kw with
  | [] => Some (last, s)
  | k :: kw' =>
      match s with
      | c :: s' => if N.eqb (to_upper c) k then match_literal_ci kw' s' (Some c) else None
      | [] => None
      end
  end.

Definition match_keyword_at (prev : option char16) (s : JsString.t) (kw : JsString.t) : bool :=
  word_boundary prev (head s) &&
  match match_literal_ci kw s prev with
  | Some (last, rest) => word_boundary last (head rest)
  | None => false
  end.

Fixpoint test_from (prev : option char16) (s : JsString.t) : bool :=
  existsb (match_keyword_at prev s) keywords ||
  match s with
  | c :: s' => test_from (Some c) s'
  | [] => false
  end.

(** [sqlKeywords.test(s)] *)
Definition sqlKeywords_test (s : JsString.t) : bool := test_from None s.

Definition sanitizeSearchTerm (term : JsString.t) : option JsString.t :=
  let cleaned := cleaned term in
  if sqlKeywords_test cleaned then None
  else if (0 <? N.of_nat (length cleaned)) then Some cleaned else None.

(** *** Containing a SQL reserved keyword as a whole word

    A declarative reading, independent of the matcher: the string splits
    as [pre ++ w ++ suf], where [w] is one of the keywords up to the case
    of ASCII letters, [pre] does not end and [suf] does not start with a
    word character. *)
Definition ends_outside_word (pre : JsString.t) : Prop :=
  is_word_opt (last pre) = false.

Definition starts_outside_word (suf : JsString.t) : Prop :=
  is_word_opt (head suf) = false.

Definition contains_keyword_word (s : JsString.t) : Prop :=
  exists pre w suf,
    s = pre ++ w ++ suf /\
    List.In (List.map to_upper w) keywords /\
    ends_outside_word pre /\ starts_outside_word suf.

End SearchTerm.

(** ** Untyped JavaScript values *)

Module JsValue.

(** The values an [any]-typed parameter can hold. An object is kept
    through the one thing the embedded code can observe of it, the string
    its [ToString] conversion yields. *)
Inductive t :=
| VUndefined
| VNull
| VBool (b : bool)
| VNumber (x : JsNumber.t)
| VString (s : JsString.t)
| VObject (toString : JsString.t).

(** ToBoolean. *)
Definition truthy (v : t) : bool :=
  match v with
  | VUndefined | VNull => false
  | VBool b => b
  | VNumber x => JsNumber.truthy x
  | VString s => JsString.truthy s
  | VObject _ => true
  end.

(** [a || b] *)
Definition or (a b : t) : t := if truthy a then a else b.

(** [v === s] for a string literal [s]. *)
Definition strict_eq_string (v : t) (s : JsString.t) : bool :=
  match v with
  | VString s' => JsString.eqb s' s
  | _ => false
  end.

End JsValue.

(** ** Input sanitisers (api/utils/validation.utils.ts) *)

Module ValidationUtils.

Import JsString JsValue.
Local Open Scope N_scope.

(** [s.replace(re, '')] for a global pattern: [match_len s] is the
    length of the match of the pattern at the head of [s], if there is
    one; matches are removed left to right and do not overlap. [skip] is
    the number of code units of the current match still to be dropped. *)
Fixpoint remove_matches (match_len : JsString.t -> option nat) (skip : nat)
    (s : JsString.t) : JsString.t :=
  match s with
  | [] => []
  | c :: s' =>
      match skip with
      | S k => remove_matches match_len k s'
      | O =>
          match match_len s with
          | Some (S k) => remove_matches match_len k s'
          | _ => c :: remove_matches match_len O s'
          end
      end
  end.

(** The pattern [javascript:] under the [i] flag. *)
Definition match_javascript (s : JsString.t) : option nat :=
  match SearchTerm.match_literal_ci (js "JAVASCRIPT:") s None with
  | Some _ => Some 11%nat
  | None => None
  end.

Fixpoint word_run (s : JsString.t) : nat :=
  match s with
  | c :: s' => if is_word c then S (word_run s') else O
  | [] => O
  end.

(** The pattern [on\w+=] under the [i] flag: [\w+] is greedy, and since
    the equals sign is not a word character, backtracking into the run
    cannot produce a match that the longest run does not. *)
Definition match_event_handler (s : JsString.t) : option nat :=
  match s with
  | o :: n :: rest =>
      if N.eqb (to_upper o) 79 && N.eqb (to_upper n) 78 then
        let k := word_run rest in
        match k, nth_error rest k with
        | S _, Some e => if N.eqb e 61 then Some (2 + k + 1)%nat else None
        | _, _ => None
        end
      else None
  | _ => None
  end.

Definition is_angle (c : char16) : bool := N.eqb c 60 || N.eqb c 62.

Definition sanitizeHtml (input : JsValue.t) : JsString.t :=
  match input with
  | VString s =>
      if negb (JsString.truthy s) then []
      else
        trim
          (remove_matches match_event_handler O
            (remove_matches match_javascript O
              (remove_chars is_angle s)))
  | _ => []
  end.

Section SanitizeNumber.

(** [parseFloat] applied to a string: the Number value of the longest
    prefix, after leading white space, that is a decimal literal, NaN
    when there is none. The decimal-to-binary conversion belongs to the
    platform and is a parameter here. *)
Variable parseFloat_string : JsString.t -> JsNumber.t.

(** [parseFloat(input)] first converts [input] to a string. The string
    of a number reads back as the same number, except that negative
    zero prints as 0. *)
Definition parseFloat (input : JsValue.t) : JsNumber.t :=
  match input with
  | VNumber (S754_zero _) => JsNumber.zero
  | VNumber x => x
  | VString s => parseFloat_string s
  | VObject str => parseFloat_string str
  | VBool _ | VNull | VUndefined => JsNumber.NaN
  end.

Definition is_empty_input (input : JsValue.t) : bool :=
  match input with
  | VNull | VUndefined => true
  | VString [] => true
  | _ => false
  end.

Definition sanitizeNumber (input : JsValue.t) : option JsNumber.t :=
  if is_empty_input input then None
  else
    let num := parseFloat input in
    if JsNumber.isNaN num || negb (JsNumber.isFinite num) then None
    else if JsNumber.gtb num (JsNumber.of_Z 999999999)
            || JsNumber.ltb num (JsNumber.of_Z (-999999999)) then None
    else Some (JsNumber.div (JsNumber.Math_round (JsNumber.mul num (JsNumber.of_Z 100)))
                            (JsNumber.of_Z 100)).

End SanitizeNumber.

End ValidationUtils.

(** ** Requests, responses and the outcome of a middleware *)

Module Http.

(** A thrown exception. *)
Inductive Exception :=
| TypeError (message : string).

(** The part of an Express request the security middleware reads. *)
Record Request := {
  method : JsString.t;
  ip : option JsString.t;            (* req.ip *)
  origin : option JsString.t;        (* req.get('Origin') *)
  referer : option JsString.t;       (* req.get('Referer') *)
  host : option JsString.t           (* req.get('Host') *)
}.

Definition Headers := list (string * JsString.t).

(** The [message] of a JSON body: a literal, the [message] of an error
    object, or the template literal built around a product id. *)
Inductive Message :=
| Text (s : string)
| FromError (m : JsString.t)
| ProductDoesNotExist (id : JsNumber.t).

(** JSON bodies of the shape [{ error, message }]. *)
Record ErrorBody := { error : string; message : Message }.

(** What a middleware did with a request: it answered (and the chain
    stops), it called [next()], or it threw. The headers are those it
    assigned to the response before that, in order. *)
Inductive Outcome :=
| Responded (status : Z) (headers : Headers) (body : option ErrorBody)
| Next (headers : Headers)
| Threw (e : Exception).

End Http.

(** ** Origin validation (api/middleware/security.middleware.ts) *)

Module Cors.

Import JsString Http.
Local Open Scope N_scope.

(** The two environment variables read by [getAllowedOrigins]. *)
Record Env := {
  VERCEL_URL : option JsString.t;
  CUSTOM_DOMAIN : option JsString.t
}.

Definition getAllowedOrigins (env : Env) : list JsString.t :=
  let origins := [js "http://localhost:3000"; js "http://127.0.0.1:3000"] in
  let origins :=
    match VERCEL_URL env with
    | Some v => if truthy v then origins ++ [js "https://" ++ v] else origins
    | None => origins
    end in
  match CUSTOM_DOMAIN env with
  | Some d => if truthy d then origins ++ [js "https://" ++ d] else origins
  | None => origins
  end.

(** [allowedOrigins.includes(origin)] *)
Definition includes (l : list JsString.t) (x : JsString.t) : bool :=
  existsb (JsString.eqb x) l.

Section URL.

(** *** [new URL(referer).host]

    The constructor runs the URL parser of the platform without a base
    URL. Its first steps are embedded: control characters and spaces
    are stripped from both ends, tabs and newlines are removed, and a
    scheme (a letter, then letters, digits, plus, minus or dot, then a
    colon) must follow; an input without one is not a URL and the
    constructor throws. The parser of what comes after the scheme
    (authority, host, port) is a parameter: it returns the serialised
    host, or nothing when it fails. *)
Variable URL_host_after_scheme : JsString.t -> JsString.t -> option JsString.t.

Definition is_c0_or_space (c : char16) : bool := N.leb c 32.
Definition is_tab_or_newline (c : char16) : bool :=
  N.eqb c 9 || N.eqb c 10 || N.eqb c 13.

Fixpoint strip_leading (p : char16 -> bool) (s : JsString.t) : JsString.t :=
  match s with
  | c :: s' => if p c then strip_leading p s' else s
  | [] => []
  end.

Definition URL_preprocess (input : JsString.t) : JsString.t :=
  remove_chars is_tab_or_newline
    (rev (strip_leading is_c0_or_space (rev (strip_leading is_c0_or_space input)))).

Definition is_scheme_char (c : char16) : bool :=
  is_alpha c || is_digit c || N.eqb c 43 || N.eqb c 45 || N.eqb c 46.

(** The scheme state: collect scheme characters up to the colon. *)
Fixpoint scan_scheme (acc s : JsString.t) : option (JsString.t * JsString.t) :=
  match s with
  | c :: s' =>
      if N.eqb c 58 then Some (rev acc, s')
      else if is_scheme_char c then scan_scheme (to_lower c :: acc) s'
      else None
  | [] => None
  end.

(** The scheme start state. *)
Definition split_scheme (s : JsString.t) : option (JsString.t * JsString.t) :=
  match s with
  | c :: s' => if is_alpha c then scan_scheme [to_lower c] s' else None
  | [] => None
  end.

(** The host of [new URL(input)], or the exception it throws. *)
Definition new_URL_host (input : JsString.t) : Exception + JsString.t :=
  match split_scheme (URL_preprocess input) with
  | Some (scheme, rest) =>
      match URL_host_after_scheme scheme rest with
      | Some h => inr h
      | None => inl (TypeError "Invalid URL")
      end
  | None => inl (TypeError "Invalid URL")
  end.

Definition isFromSameDomain (referer : option JsString.t) (req : Request)
  : Exception + bool :=
  if negb (truthy_opt referer) then inr false
  else
    match new_URL_host (default [] referer) with
    | inl e => inl e
    | inr refererHost =>
        let requestHost := host req in
        inr (bool_decide (Some refererHost = requestHost))
    end.

Definition forbidden_body : ErrorBody :=
  {| error := "Forbidden: Invalid origin";
     message := Text "Requests are only allowed from the official frontend" |}.

(** The three headers assigned once the origin is accepted. *)
Definition cors_headers : Headers :=
  [ ("Access-Control-Allow-Credentials"%string, js "true");
    ("Access-Control-Allow-Methods"%string, js "GET, POST, PUT, DELETE, OPTIONS");
    ("Access-Control-Allow-Headers"%string,
      js "Origin, X-Requested-With, Content-Type, Accept, Authorization, X-Frontend-Token") ].

(** The tail of [enhancedCors], after the origin has been accepted and
    [Access-Control-Allow-Origin] has been given the value [allow]. *)
Definition after_origin_check (allow : JsString.t) (req : Request) : Outcome :=
  let headers := ("Access-Control-Allow-Origin"%string, allow) :: cors_headers in
  if JsString.eqb (method req) (js "OPTIONS") then Responded 200 headers None
  else Next headers.

Definition enhancedCors (env : Env) (req : Request) : Outcome :=
  let origin := origin req in
  let referer := referer req in
  let allowedOrigins := getAllowedOrigins env in
  if truthy_opt origin && includes allowedOrigins (default [] origin) then
    after_origin_check (default [] origin) req
  else if negb (truthy_opt origin) then
    match isFromSameDomain referer req with
    | inl e => Threw e
    | inr true => after_origin_check (js "*") req
    | inr false => Responded 403 [] (Some forbidden_body)
    end
  else Responded 403 [] (Some forbidden_body).

End URL.

End Cors.

(** ** Rate limiting (api/middleware/security.middleware.ts) *)

Module RateLimit.

Import JsString Http.

(** A value of the map [requestCounts]. *)
Record Entry := { count : Z; resetTime : Z }.

(** The module-level map [requestCounts]. *)
Abbreviation Store := (gmap JsString.t Entry).

Definition too_many_body : ErrorBody :=
  {| error := "Too many requests";
     message := Text "Rate limit exceeded. Please try again later." |}.

(** [req.ip || req.get('Origin') || 'unknown'] *)
Definition identifier (req : Request) : JsString.t :=
  if truthy_opt (ip req) then default [] (ip req)
  else if truthy_opt (origin req) then default [] (origin req)
  else js "unknown".

(** One run of the middleware returned by
    [rateLimitByOrigin(maxRequests, windowMs)], for a request arriving
    when the clock reads [now]: the outcome and the store afterwards. The
    middleware assigns no header. *)
Definition rateLimitByOrigin (maxRequests windowMs : Z)
    (req : Request) (now : Z) (requestCounts : Store) : Outcome * Store :=
  let identifier := identifier req in
  match requestCounts !! identifier with
  | None =>
      (Next [], <[identifier := {| count := 1; resetTime := now + windowMs |}]> requestCounts)
  | Some current =>
      if now >? resetTime current then
        (Next [], <[identifier := {| count := 1; resetTime := now + windowMs |}]> requestCounts)
      else if count current >=? maxRequests then
        (Responded 429 [] (Some too_many_body), requestCounts)
      else
        (Next [],
         <[identifier := {| count := count current + 1; resetTime := resetTime current |}]>
           requestCounts)
  end.

(** The limiter mounted on the API router (api/routes/index.ts). *)
Definition api_rateLimit : Request -> Z -> Store -> Outcome * Store :=
  rateLimitByOrigin 100 (15 * 60 * 1000).

(** A sequence of requests, each with its arrival time, served in order
    by one limiter: the outcomes in order and the final store. *)
Fixpoint serve (maxRequests windowMs : Z) (reqs : list (Request * Z))
    (requestCounts : Store) : list Outcome * Store :=
  match reqs with
  | [] => ([], requestCounts)
  | (req, now) :: reqs' =>
      let '(o, requestCounts') := rateLimitByOrigin maxRequests windowMs req now requestCounts in
      let '(os, final) := serve maxRequests windowMs reqs' requestCounts' in
      (o :: os, final)
  end.

(** How many of the requests come from [id]. *)
Definition requests_of (id : JsString.t) (reqs : list (Request * Z)) : Z :=
  Z.of_nat (length (List.filter (fun '(req, _) => JsString.eqb (identifier req) id) reqs)).

End RateLimit.

(** ** [parseInt] *)

Module JsGlobal.

Import JsString.
Local Open Scope N_scope.

Fixpoint digits (s : JsString.t) : list Z :=
  match s with
  | c :: s' => if is_digit c then Z.of_N (c - 48) :: digits s' else []
  | [] => []
  end.

Definition decimal_value (ds : list Z) : Z :=
  fold_left (fun acc d => 10 * acc + d)%Z ds 0%Z.

(** [parseInt(s, 10)]: leading white space is skipped, a sign is read,
    and the longest run of decimal digits that follows is the value; with
    no digit the result is NaN. The integer is converted to the nearest
    Number (for more than twenty digits an engine may approximate the
    digits beyond the twentieth; the embedding converts exactly). *)
Definition parseInt10 (s : JsString.t) : JsNumber.t :=
  let s := trimStart s in
  let '(negative, s) :=
    match s with
    | 45 :: s' => (true, s')
    | 43 :: s' => (false, s')
    | _ => (false, s)
    end in
  match digits s with
  | [] => JsNumber.NaN
  | ds =>
      let n := decimal_value ds in
      binary_normalize JsNumber.prec JsNumber.emax (if negative then (- n)%Z else n) 0 negative
  end.

End JsGlobal.

(** ** Values of a parsed JSON body *)

Module Json.

(** What reading a property of [req.body] yields. The body is what the
    JSON parser made of the request, and nothing checks it against the
    interface it is cast to: a field can be missing or hold a value of any
    JSON type. An array or object is kept through the one thing the
    embedded code can observe of it, its conversion to a primitive value:
    the string that conversion yields (the elements joined by commas for an
    array, [[object Object]] for an object), or nothing when the conversion
    throws (an object with a member named [toString] hides the inherited
    method, and a member is never callable). *)
Inductive t :=
| JUndefined                              (* the field is missing *)
| JNull
| JBool (b : bool)
| JNumber (x : JsNumber.t)
| JString (s : JsString.t)
| JObject (primitive : option JsString.t).

(** ToBoolean, as [!v] applies it. *)
Definition truthy (v : t) : bool :=
  match v with
  | JUndefined | JNull => false
  | JBool b => b
  | JNumber x => JsNumber.truthy x
  | JString s => JsString.truthy s
  | JObject _ => true
  end.

Section Platform.

(** The conversion of a string to a Number (StringToNumber of the
    platform): the value of a numeric literal between optional white
    space, zero for an empty or blank string, NaN otherwise. *)
Variable StringToNumber : JsString.t -> JsNumber.t.

(** ToNumber; nothing when the conversion to a primitive throws. *)
Definition ToNumber (v : t) : option JsNumber.t :=
  match v with
  | JUndefined => Some JsNumber.NaN
  | JNull => Some JsNumber.zero
  | JBool true => Some (JsNumber.of_Z 1)
  | JBool false => Some JsNumber.zero
  | JNumber x => Some x
  | JString s => Some (StringToNumber s)
  | JObject (Some s) => Some (StringToNumber s)
  | JObject None => None
  end.

(** [v <= 0]: the operand is converted to a Number and compared; a
    comparison with NaN is false. Nothing when the conversion throws. *)
Definition le_zero (v : t) : option bool :=
  match ToNumber v with
  | Some n => Some (JsNumber.leb n JsNumber.zero)
  | None => None
  end.

End Platform.

End Json.

(** ** The hosted backend (database and identity service) *)

Module Supabase.

(** An error object; the code only reads its [message]. *)
Record JsError := { error_message : option JsString.t }.

Record Metadata := { role : JsValue.t }.

(** The [User] of the identity service, with the fields the API reads. *)
Record User := {
  user_id : JsString.t;
  email : option JsString.t;
  user_metadata : option Metadata;
  app_metadata : option Metadata
}.

(** [CreateProductData] (api/types/index.ts), as a value of that type is
    at run time. The interface gives the fields the types string and
    number, but a request body is cast to it unchecked
    ([const productData: CreateProductData = req.body]): every field is a
    JSON value of any type, or missing, which is how
    [Partial<CreateProductData>] reads as well. *)
Record CreateProductData := {
  category_id : Json.t;
  product_category : Json.t;      (* 'product-category' *)
  title : Json.t;
  subtitle : Json.t;
  author : Json.t;
  description : Json.t;
  product_code_or_isbn : Json.t;  (* 'product-code-or-isbn' *)
  price : Json.t;
  base_price : Json.t;
  currency_id : Json.t;
  available_quantity : Json.t
}.

(** A stored row: [Product]. *)
Record Product := {
  id : option JsNumber.t;
  fields : CreateProductData;
  created_at : option JsString.t;
  updated_at : option JsString.t
}.

(** The client a call goes through. *)
Inductive Client :=
| Anonymous                                        (* getSupabaseClient() *)
| Authenticated (accessToken : option JsString.t). (* getAuthenticatedClient(accessToken) *)

(** The query built by [getProducts]. *)
Record Query := {
  from : string;
  select : string;
  limit : Z;
  order : string;
  ascending : bool;
  or : option JsString.t
}.

(** What a call to the backend comes back with: a [{ data, error }]
    result, or an exception (for instance raised while building the
    client when the configuration is missing). *)
Inductive Answer (D : Type) :=
| Returned (data : D) (error : option JsError)
| Raised (e : JsError).
Arguments Returned {D} data error.
Arguments Raised {D} e.

(** The calls the API issues. *)
Inductive Call :=
| CallGetUser (c : Client)
| CallSelect (c : Client) (q : Query)
| CallSelectById (c : Client) (id : JsNumber.t)
| CallInsert (c : Client) (rows : list CreateProductData)
| CallUpdate (c : Client) (id : JsNumber.t) (patch : CreateProductData)
| CallDelete (c : Client) (id : JsNumber.t).

(** The backend as an oracle over its own state [B]. *)
Record Oracle (B : Type) := {
  getUser : Client -> B -> Answer (option User) * B;
  run_select : Client -> Query -> B -> Answer (option (list Product)) * B;
  run_select_by_id : Client -> JsNumber.t -> B -> Answer (option Product) * B;
  run_insert : Client -> list CreateProductData -> B -> Answer (option (list Product)) * B;
  run_update : Client -> JsNumber.t -> CreateProductData -> B -> Answer (option (list Product)) * B;
  run_delete : Client -> JsNumber.t -> B -> Answer unit * B
}.
Arguments getUser {B} _ _ _.
Arguments run_select {B} _ _ _ _.
Arguments run_select_by_id {B} _ _ _ _.
Arguments run_insert {B} _ _ _ _.
Arguments run_update {B} _ _ _ _ _.
Arguments run_delete {B} _ _ _ _.

(** The world a request handler runs in: the state of the backend and
    the log of the calls issued so far, oldest first. *)
Record World (B : Type) := { backend_state : B; calls : list Call }.
Arguments backend_state {B} _.
Arguments calls {B} _.

(** Asynchronous computations: state passing over the world. *)
Definition Async (B A : Type) : Type := World B -> A * World B.

Definition ret {B A} (a : A) : Async B A := fun w => (a, w).

Definition bind {B A A'} (m : Async B A) (k : A -> Async B A') : Async B A' :=
  fun w => let '(a, w') := m w in k a w'.

(** Issue a call: log it and let the backend answer. *)
Definition issue {B D} (c : Call) (run : B -> Answer D * B) : Async B (Answer D) :=
  fun w =>
    let '(a, b') := run (backend_state w) in
    (a, {| backend_state := b'; calls := calls w ++ [c] |}).

(** Run a handler against a backend in state [b], from an empty log:
    its result and the calls it issued, in order. *)
Definition run {B A} (m : Async B A) (b : B) : A * list Call :=
  let '(a, w) := m {| backend_state := b; calls := [] |} in (a, calls w).

End Supabase.

Notation "'await' x := m 'in' k" := (Supabase.bind m (fun x => k))
  (at level 10, x pattern, m at level 100, k at level 200).

(** ** The data client wrapper (api/services/supabase.service.ts) *)

Module supabaseService.

Import Supabase.

(** A [{ data, error }] result. *)
Record Result (D : Type) := { data : D; error : option JsError }.
Arguments data {D} _.
Arguments error {D} _.

(** [try { const result = await call; return { data: result.data,
    error: result.error } } catch (error) { return { data: null, error } }] *)
Definition settle {D} (null : D) (a : Answer D) : Result D :=
  match a with
  | Returned d e => {| data := d; error := e |}
  | Raised e => {| data := null; error := Some e |}
  end.

(** [accessToken ? getAuthenticatedClient(accessToken) : getSupabaseClient()] *)
Definition client_for (accessToken : option JsString.t) : Client :=
  if JsString.truthy_opt accessToken then Authenticated accessToken else Anonymous.

(** The query every product listing starts from. *)
Definition base_query : Query :=
  {| from := "products"; select := "*"; limit := 100;
     order := "created_at"; ascending := false; or := None |}.

(** The filter string handed to [query.or]. *)
Definition or_filter (sanitizedTerm : JsString.t) : JsString.t :=
  js "title.ilike.%" ++ sanitizedTerm ++ js "%,author.ilike.%" ++ sanitizedTerm ++ js "%".

(** The query [getProducts] builds before awaiting it. *)
Definition products_query (searchTerm : option JsString.t) : Query :=
  let query := base_query in
  if JsString.truthy_opt searchTerm then
    match SearchTerm.sanitizeSearchTerm (default [] searchTerm) with
    | Some sanitizedTerm =>
        if JsString.truthy sanitizedTerm then
          {| from := from query; select := select query; limit := limit query;
             order := order query; ascending := ascending query;
             or := Some (or_filter sanitizedTerm) |}
        else query
    | None => query
    end
  else query.

(** The exception of calling [term.replace] on a value that has no such
    method (the message is the engine's own; V8's is shown). *)
Definition not_a_function : JsError :=
  {| error_message := Some (js "term.replace is not a function") |}.

(** The first argument of [getProducts] as the function uses it. The
    type of the parameter is [string | undefined], but the controller
    passes [req.query.search] on unchecked, and the query parser makes an
    array of a repeated key and an object of a bracketed one. A falsy
    value fails the test [if (searchTerm)] and no term is sanitised; a
    string is the term; on any other value [sanitizeSearchTerm] throws at
    its first [replace]. *)
Definition search_term (searchTerm : JsValue.t) : JsError + option JsString.t :=
  match searchTerm with
  | JsValue.VString s => inr (Some s)
  | other => if JsValue.truthy other then inl not_a_function else inr None
  end.

Section WithBackend.

Context {B : Type} (backend : Oracle B).

Definition verifyToken (accessToken : JsString.t) : Async B (Result (option User)) :=
  let client := Authenticated (Some accessToken) in
  await a := issue (CallGetUser client) (getUser backend client) in
  ret (settle None a).

(** [getProducts(searchTerm, accessToken)]. The query is built first and
    awaited last; when [sanitizeSearchTerm] throws in between, no call has
    been issued and the [catch] clause returns the error. *)
Definition getProducts (searchTerm : JsValue.t) (accessToken : option JsString.t)
  : Async B (Result (option (list Product))) :=
  let client := client_for accessToken in
  match search_term searchTerm with
  | inl error => ret {| data := None; error := Some error |}
  | inr term =>
      let query := products_query term in
      await a := issue (CallSelect client query) (run_select backend client query) in
      ret (settle None a)
  end.

Definition createProduct (productData : CreateProductData) (accessToken : option JsString.t)
  : Async B (Result (option (list Product))) :=
  let client := Authenticated accessToken in
  await a := issue (CallInsert client [productData]) (run_insert backend client [productData]) in
  ret (settle None a).

Definition getProductById (id : JsNumber.t) (accessToken : option JsString.t)
  : Async B (Result (option Product)) :=
  let client := client_for accessToken in
  await a := issue (CallSelectById client id) (run_select_by_id backend client id) in
  ret (settle None a).

Definition updateProduct (id : JsNumber.t) (productData : CreateProductData)
    (accessToken : option JsString.t) : Async B (Result (option (list Product))) :=
  let client := Authenticated accessToken in
  await a := issue (CallUpdate client id productData) (run_update backend client id productData) in
  ret (settle None a).

Definition deleteProduct (id : JsNumber.t) (accessToken : option JsString.t)
  : Async B (Result unit) :=
  let client := Authenticated accessToken in
  await a := issue (CallDelete client id) (run_delete backend client id) in
  ret (settle tt a).

End WithBackend.

End supabaseService.

(** ** Requests with an authentication context, and responses *)

Module Api.

Import Supabase Http.

(** [AuthenticatedRequest], with the parts of the request the handlers
    read. *)
Record AuthenticatedRequest := {
  authorization : option JsString.t;     (* req.headers.authorization *)
  params_id : JsString.t;                (* req.params.id *)
  body : option CreateProductData;       (* req.body; None when undefined *)
  user : option User;                    (* req.user *)
  accessToken : option JsString.t        (* req.accessToken *)
}.

(** The JSON sent back. *)
Inductive Body :=
| ErrorJson (e : ErrorBody)                          (* { error, message } *)
| DataJson (data : option Product) (message : Message) (* { data, message } *)
| MessageJson (message : Message).                   (* { message } *)

Record Response := { status : Z; json : Body }.

Definition respond (status : Z) (error : string) (message : Message) : Response :=
  {| status := status; json := ErrorJson {| error := error; message := message |} |}.

(** [error.message || fallback] *)
Definition message_or (e : JsError) (fallback : string) : Message :=
  match error_message e with
  | Some m => if JsString.truthy m then FromError m else Text fallback
  | None => Text fallback
  end.

(** A middleware either answers or calls [next()] with the request as
    it has left it. *)
Definition Step := (Response + AuthenticatedRequest)%type.

End Api.

(** ** Authorization middleware (api/middleware/auth.middleware.ts) *)

Module AuthMiddleware.

Import Supabase Http Api.

(** [req.user.user_metadata?.role] *)
Definition role_of (m : option Metadata) : JsValue.t :=
  match m with
  | Some m => role m
  | None => JsValue.VUndefined
  end.

(** [req.user.user_metadata?.role || req.user.app_metadata?.role] *)
Definition userRole (user : User) : JsValue.t :=
  JsValue.or (role_of (user_metadata user)) (role_of (app_metadata user)).

Definition requireAdmin (req : AuthenticatedRequest) : Step :=
  match user req with
  | None => inl (respond 401 "Unauthorized" (Text "Authentication required"))
  | Some user =>
      let userRole := userRole user in
      if negb (JsValue.strict_eq_string userRole (js "admin")) then
        inl (respond 403 "Forbidden" (Text "Admin access required"))
      else inr req
  end.

Section WithBackend.

Context {B : Type} (backend : Oracle B).

Definition requireAuth (req : AuthenticatedRequest) : Async B Step :=
  match authorization req with
  | None =>
      ret (inl (respond 401 "Unauthorized" (Text "Missing or invalid authorization header")))
  | Some authHeader =>
      match JsString.strip_prefix (js "Bearer ") authHeader with
      | None =>
          ret (inl (respond 401 "Unauthorized" (Text "Missing or invalid authorization header")))
      | Some accessToken =>
          await r := supabaseService.verifyToken backend accessToken in
          match supabaseService.error r, supabaseService.data r with
          | None, Some user =>
              ret (inr {| authorization := authorization req;
                          params_id := params_id req;
                          body := body req;
                          user := Some user;
                          accessToken := Some accessToken |})
          | _, _ =>
              ret (inl (respond 401 "Unauthorized" (Text "Invalid or expired token")))
          end
      end
  end.

End WithBackend.

End AuthMiddleware.

(** ** Product controllers (api/controllers/product.controller.ts) *)

Module productController.

Import Supabase Http Api.

(** [isNaN(id) || id <= 0] *)
Definition invalid_id (id : JsNumber.t) : bool :=
  JsNumber.isNaN id || JsNumber.leb id JsNumber.zero.

Definition invalid_id_response : Response :=
  respond 400 "Invalid product ID" (Text "Product ID must be a positive number").

Definition invalid_price_response : Response :=
  respond 400 "Invalid price" (Text "Price must be greater than 0").

Definition not_found_response (id : JsNumber.t) : Response :=
  respond 404 "Product not found" (ProductDoesNotExist id).

(** The [catch] clause of a controller. *)
Definition unexpected (message : string) : Response :=
  respond 500 "Internal server error" (Text message).

(** [data?.[0]] *)
Definition first_row (data : option (list Product)) : option Product :=
  match data with
  | Some (p :: _) => Some p
  | _ => None
  end.

Section WithBackend.

(** The string-to-number conversion of the platform, which the
    comparisons of a price with zero apply to a price that is a string. *)
Variable StringToNumber : JsString.t -> JsNumber.t.

Context {B : Type} (backend : Oracle B).

Definition createProduct (req : AuthenticatedRequest) : Async B Response :=
  match body req with
  | None =>
      (* reading a property of undefined throws inside the try block *)
      ret (unexpected "An unexpected error occurred while creating the product")
  | Some productData =>
      if negb (Json.truthy (title productData))
         || negb (Json.truthy (author productData))
         || negb (Json.truthy (price productData))
      then
        ret (respond 400 "Missing required fields" (Text "Title, author, and price are required"))
      else
        match Json.le_zero StringToNumber (price productData) with
        | None =>
            (* the comparison throws inside the try block *)
            ret (unexpected "An unexpected error occurred while creating the product")
        | Some true => ret invalid_price_response
        | Some false =>
            await r := supabaseService.createProduct backend productData (accessToken req) in
            match supabaseService.error r with
            | Some error =>
                ret (respond 500 "Failed to create product"
                       (message_or error "Internal server error"))
            | None =>
                ret {| status := 201;
                       json := DataJson (first_row (supabaseService.data r))
                                 (Text "Product created successfully") |}
            end
        end
  end.

(** [productData.price !== undefined && productData.price <= 0]; nothing
    when the comparison throws. *)
Definition price_given_and_not_positive (productData : CreateProductData) : option bool :=
  match price productData with
  | Json.JUndefined => Some false
  | given => Json.le_zero StringToNumber given
  end.

Definition updateProduct (req : AuthenticatedRequest) : Async B Response :=
  let id := JsGlobal.parseInt10 (params_id req) in
  if invalid_id id then ret invalid_id_response
  else
    match body req with
    | None =>
        ret (unexpected "An unexpected error occurred while updating the product")
    | Some productData =>
        match price_given_and_not_positive productData with
        | None =>
            (* the comparison throws inside the try block *)
            ret (unexpected "An unexpected error occurred while updating the product")
        | Some true => ret invalid_price_response
        | Some false =>
            await existing := supabaseService.getProductById backend id (accessToken req) in
            match supabaseService.data existing with
            | None => ret (not_found_response id)
            | Some _ =>
                await r :=
                  supabaseService.updateProduct backend id productData (accessToken req) in
                match supabaseService.error r with
                | Some error =>
                    ret (respond 500 "Failed to update product"
                           (message_or error "Internal server error"))
                | None =>
                    ret {| status := 200;
                           json := DataJson (first_row (supabaseService.data r))
                                     (Text "Product updated successfully") |}
                end
            end
        end
    end.

Definition deleteProduct (req : AuthenticatedRequest) : Async B Response :=
  let id := JsGlobal.parseInt10 (params_id req) in
  if invalid_id id then ret invalid_id_response
  else
    await existing := supabaseService.getProductById backend id (accessToken req) in
    match supabaseService.data existing with
    | None => ret (not_found_response id)
    | Some _ =>
        await r := supabaseService.deleteProduct backend id (accessToken req) in
        match supabaseService.error r with
        | Some error =>
            ret (respond 500 "Failed to delete product"
                   (message_or error "Internal server error"))
        | None =>
            ret {| status := 200; json := MessageJson (Text "Product deleted successfully") |}
        end
    end.

End WithBackend.

End productController.

(** ** Product routes (api/routes/products.routes.ts) *)

Module ProductRoutes.

Import Supabase Api.

Section WithBackend.

Variable StringToNumber : JsString.t -> JsNumber.t.

Context {B : Type} (backend : Oracle B).

(** [router.verb(path, m1, m2, handler)]: the middleware run in order;
    the first one that answers ends the request. *)
Definition guarded (m1 : AuthenticatedRequest -> Async B Step)
    (m2 : AuthenticatedRequest -> Step)
    (handler : AuthenticatedRequest -> Async B Response)
    (req : AuthenticatedRequest) : Async B Response :=
  await s1 := m1 req in
  match s1 with
  | inl response => ret response
  | inr req1 =>
      match m2 req1 with
      | inl response => ret response
      | inr req2 => handler req2
      end
  end.

(** [router.post('/', requireAuth, requireAdmin, productController.createProduct)] *)
Definition post_products : AuthenticatedRequest -> Async B Response :=
  guarded (AuthMiddleware.requireAuth backend) AuthMiddleware.requireAdmin
          (productController.createProduct StringToNumber backend).

(** [router.put('/:id', requireAuth, requireAdmin, productController.updateProduct)] *)
Definition put_product : AuthenticatedRequest -> Async B Response :=
  guarded (AuthMiddleware.requireAuth backend) AuthMiddleware.requireAdmin
          (productController.updateProduct StringToNumber backend).

(** [router.delete('/:id', requireAuth, requireAdmin, productController.deleteProduct)] *)
Definition delete_product : AuthenticatedRequest -> Async B Response :=
  guarded (AuthMiddleware.requireAuth backend) AuthMiddleware.requireAdmin
          (productController.deleteProduct backend).

End WithBackend.

End ProductRoutes.

(** ** Vocabulary of the statements about the origin check *)

Module CorsSpec.

Import JsString Http Cors.
Local Open Scope N_scope.

Section URL.

Variable URL_host_after_scheme : JsString.t -> JsString.t -> option JsString.t.

(** The request passes the origin check, and [allow] is the value given
    to [Access-Control-Allow-Origin]. *)
Inductive origin_accepted (env : Env) (req : Request) : JsString.t -> Prop :=
| accepted_listed o :
    origin req = Some o ->
    List.In o (getAllowedOrigins env) ->
    origin_accepted env req o
| accepted_same_domain r h :
    truthy_opt (origin req) = false ->
    referer req = Some r -> r <> [] ->
    new_URL_host URL_host_after_scheme r = inr h ->
    host req = Some h ->
    origin_accepted env req (js "*").

(** The request carries no recognised Origin, and its Referer is
    missing or names a host other than the request's Host. *)
Inductive origin_rejected (env : Env) (req : Request) : Prop :=
| rejected_unlisted o :
    origin req = Some o -> o <> [] ->
    ~ List.In o (getAllowedOrigins env) ->
    origin_rejected env req
| rejected_no_referer :
    truthy_opt (origin req) = false ->
    truthy_opt (referer req) = false ->
    origin_rejected env req
| rejected_other_host r h :
    truthy_opt (origin req) = false ->
    referer req = Some r -> r <> [] ->
    new_URL_host URL_host_after_scheme r = inr h ->
    host req <> Some h ->
    origin_rejected env req.

(** The Referer is present and is not a parseable URL. *)
Definition referer_unparseable (req : Request) : Prop :=
  exists r e, referer req = Some r /\ r <> [] /\
              new_URL_host URL_host_after_scheme r = inl e.

End URL.

Fixpoint authority_of (s : JsString.t) : JsString.t :=
  match s with
  | c :: s' => if N.eqb c 47 || N.eqb c 63 || N.eqb c 35 then [] else c :: authority_of s'
  | [] => []
  end.

(** A parser for what follows the scheme of a plain [http] or [https]
    URL of the form [//authority/...], where the authority is a lower-case
    host name with an optional non-default port: the host is the
    authority. It stands in for the platform parser where an example has
    to be run; no general statement depends on it. *)
Definition plain_http_host (scheme rest : JsString.t) : option JsString.t :=
  if JsString.eqb scheme (js "http") || JsString.eqb scheme (js "https") then
    match rest with
    | 47 :: 47 :: r =>
        let authority := authority_of r in
        if truthy authority then Some authority else None
    | _ => None
    end
  else None.

End CorsSpec.

(** ** Vocabulary of the statements about the sanitisers *)

Module SanitizerSpec.

Import JsString.

(** The alternatives of the keyword pattern are non-empty runs of ASCII
    capitals. *)
Definition keyword_shaped (kw : JsString.t) : Prop :=
  kw <> [] /\ Forall (fun k => is_upper k = true) kw.

(** The code unit before the position reached after reading [pre], when
    [prev] was the code unit before [pre]. *)
Definition before (prev : option char16) (pre : JsString.t) : option char16 :=
  match last pre with Some c => Some c | None => prev end.

(** The bound of the numeric sanitiser. *)
Definition limit : Z := 999999999.

(** Rounding to two decimal places as the sanitiser computes it:
    [Math.round(num * 100) / 100] in binary64 arithmetic. *)
Definition round_to_2_decimals (num : JsNumber.t) : JsNumber.t :=
  JsNumber.div (JsNumber.Math_round (JsNumber.mul num (JsNumber.of_Z 100)))
               (JsNumber.of_Z 100).

End SanitizerSpec.

(** ** Vocabulary of the statements about the rate limiter *)

Module RateLimitSpec.

Import RateLimit.

(** The entry that opens a window at time [now]. *)
Definition fresh_entry (windowMs now : Z) : Entry :=
  {| count := 1; resetTime := now + windowMs |}.

(** The answer to a request over the limit. *)
Definition rejected : Http.Outcome :=
  Http.Responded 429 [] (Some too_many_body).

(** No entry of the store counts more than the maximum. *)
Definition within_limit (maxRequests : Z) (m : gmap JsString.t Entry) : Prop :=
  map_Forall (fun _ e => count e <= maxRequests) m.

(** The identifier has no window open at time [now]: it has no entry,
    or the reset time of its entry has passed. *)
Definition no_open_window (m : gmap JsString.t Entry) (id : JsString.t) (now : Z) : Prop :=
  match m !! id with
  | Some e => resetTime e < now
  | None => True
  end.

End RateLimitSpec.

(** ** Vocabulary of the statements about the controllers *)

Module ControllerSpec.

Import Supabase Api.

Section WithBackend.

Context {B : Type} (backend : Oracle B).

(** The row the existence check of [updateProduct] and [deleteProduct]
    finds for the request, with the backend in state [b]. *)
Definition existing_row (req : AuthenticatedRequest) (b : B) : option Product :=
  supabaseService.data
    (supabaseService.settle None
       (run_select_by_id backend (supabaseService.client_for (accessToken req))
          (JsGlobal.parseInt10 (params_id req)) b).1).

End WithBackend.

(** The two tests of [createProduct] taken together: whether the body
    passes both, or nothing when the comparison of the price throws. *)
Definition acceptable (StringToNumber : JsString.t -> JsNumber.t)
    (productData : CreateProductData) : option bool :=
  if Json.truthy (title productData) && Json.truthy (author productData)
     && Json.truthy (price productData)
  then
    match Json.le_zero StringToNumber (price productData) with
    | Some le => Some (negb le)
    | None => None
    end
  else Some false.

(** Title and author are strings that are not empty and the price is a
    number strictly greater than zero. *)
Definition well_formed (productData : CreateProductData) : Prop :=
  exists t a p,
    title productData = Json.JString t /\ t <> [] /\
    author productData = Json.JString a /\ a <> [] /\
    price productData = Json.JNumber p /\ JsNumber.strictly_positive p.

End ControllerSpec.

(** ** An in-memory backend and sample data, for running examples *)

Module Sample.

Import Supabase Http Api.

(** Rows, sessions (access token to user) and the next id to hand out. *)
Record State := {
  rows : list Product;
  sessions : list (JsString.t * User);
  next_id : Z
}.

Definition failure {D} (null : D) (message : string) : Answer D :=
  Returned null (Some {| error_message := Some (js message) |}).

Definition session_user (c : Client) (st : State) : Answer (option User) :=
  match c with
  | Authenticated (Some token) =>
      match List.find (fun '(t, _) => JsString.eqb t token) (sessions st) with
      | Some (_, u) => Returned (Some u) None
      | None => failure None "invalid JWT"
      end
  | _ => failure None "Auth session missing!"
  end.

Definition has_id (i : JsNumber.t) (p : Product) : bool :=
  from_option (fun j => SFeqb j i) false (id p).

Fixpoint number_rows (n : Z) (new : list CreateProductData) : list Product :=
  match new with
  | d :: new' =>
      {| id := Some (JsNumber.of_Z n); fields := d; created_at := None; updated_at := None |}
      :: number_rows (n + 1) new'
  | [] => []
  end.

Definition backend : Oracle State :=
  {| getUser := fun c st => (session_user c st, st);
     run_select := fun _ _ st => (Returned (Some (rows st)) None, st);
     run_select_by_id := fun _ i st =>
       (match List.find (has_id i) (rows st) with
        | Some p => Returned (Some p) None
        | None => failure None "JSON object requested, multiple (or no) rows returned"
        end, st);
     run_insert := fun _ new st =>
       let created := number_rows (next_id st) new in
       (Returned (Some created) None,
        {| rows := rows st ++ created; sessions := sessions st;
           next_id := next_id st + Z.of_nat (length new) |});
     run_update := fun _ i patch st =>
       let updated :=
         List.map (fun p => if has_id i p
                            then {| id := id p; fields := patch;
                                    created_at := created_at p; updated_at := updated_at p |}
                            else p) (rows st) in
       (Returned (Some (List.filter (has_id i) updated)) None,
        {| rows := updated; sessions := sessions st; next_id := next_id st |});
     run_delete := fun _ i st =>
       (Returned tt None,
        {| rows := List.filter (fun p => negb (has_id i p)) (rows st);
           sessions := sessions st; next_id := next_id st |}) |}.

Definition account (name : string) (r : string) : User :=
  {| user_id := js name; email := None;
     user_metadata := Some {| role := JsValue.VString (js r) |};
     app_metadata := None |}.

(** A product as a client may submit it: the description carries an
    event-handler attribute and the price has three decimals. *)
Definition book : CreateProductData :=
  {| category_id := Json.JString (js "books");
     product_category := Json.JString (js "Books");
     title := Json.JString (js "Dune");
     subtitle := Json.JUndefined;
     author := Json.JString (js "Frank Herbert");
     description := Json.JString (js "<img src=x onerror=alert(1)>");
     product_code_or_isbn := Json.JUndefined;
     price := Json.JNumber (JsNumber.decimal 10005 3);
     base_price := Json.JUndefined;
     currency_id := Json.JString (js "USD");
     available_quantity := Json.JNumber (JsNumber.of_Z 1) |}.

(** The same body with another value in the field [price]. *)
Definition with_price (p : Json.t) (d : CreateProductData) : CreateProductData :=
  {| category_id := category_id d; product_category := product_category d;
     title := title d; subtitle := subtitle d; author := author d;
     description := description d; product_code_or_isbn := product_code_or_isbn d;
     price := p; base_price := base_price d; currency_id := currency_id d;
     available_quantity := available_quantity d |}.

(** A conversion of strings to numbers that stands in for the platform's
    where an example has to be run. It is right for a string that is empty
    or white space (zero), for a run of decimal digits (its value) and for
    a string that is no numeric literal at all, such as [abc] (NaN); the
    other numeric literals (signs, fractions, exponents, other radices) do
    not occur in the examples, and no general statement depends on it. *)
Definition StringToNumber (s : JsString.t) : JsNumber.t :=
  match JsString.trim s with
  | [] => JsNumber.zero
  | t => if forallb JsString.is_digit t
         then JsNumber.of_Z (JsGlobal.decimal_value (JsGlobal.digits t))
         else JsNumber.NaN
  end.

(** One stored row (id 1) and two sessions. *)
Definition store : State :=
  {| rows := number_rows 1 [book];
     sessions := [ (js "admin-token", account "ada" "admin");
                   (js "user-token", account "bob" "user") ];
     next_id := 2 |}.

Definition request (auth : option string) (id_param : string)
    (payload : option CreateProductData) : AuthenticatedRequest :=
  {| authorization := option_map js auth; params_id := js id_param;
     body := payload; user := None; accessToken := None |}.

(** A request as the controllers see it once [requireAuth] has run. *)
Definition authenticated (token : string) (u : User) (id_param : string)
    (payload : option CreateProductData) : AuthenticatedRequest :=
  {| authorization := Some (js "Bearer " ++ js token); params_id := js id_param;
     body := payload; user := Some u; accessToken := Some (js token) |}.

Definition no_env : Cors.Env := {| Cors.VERCEL_URL := None; Cors.CUSTOM_DOMAIN := None |}.

Definition browser (m : string) (o r h : option string) : Request :=
  {| method := js m; ip := Some (js "203.0.113.7");
     origin := option_map js o; referer := option_map js r; host := option_map js h |}.

(** A plain request from the client at address [addr]. *)
Definition visitor (addr : string) : Request :=
  {| method := js "GET"; ip := Some (js addr); origin := None; referer := None;
     host := Some (js "localhost:3000") |}.

(** Four requests in one window of a second: three from one address and,
    in between, one from another. *)
Definition burst : list (Request * Z) :=
  [ (visitor "203.0.113.7", 0); (visitor "203.0.113.7", 10);
    (visitor "198.51.100.2", 20); (visitor "203.0.113.7", 1000) ].

(** A preflight request from an origin that is not on the allow-list. *)
Definition preflight_foreign : Request :=
  browser "OPTIONS" (Some "https://evil.example"%string) None (Some "localhost:3000"%string).

(** A preflight request without Origin, from a page of the same host. *)
Definition preflight_same_domain : Request :=
  browser "OPTIONS" None (Some "http://localhost:3000/index.html"%string)
    (Some "localhost:3000"%string).

(** A request without Origin whose Referer is not a URL. *)
Definition referer_not_a_url : Request :=
  browser "GET" None (Some "not a url"%string) (Some "example.com"%string).

End Sample.

(** ** The optional authentication middleware
    (api/middleware/auth.middleware.ts) *)

Module OptionalAuth.

Import Supabase Http Api.

Section WithBackend.

Context {B : Type} (backend : Oracle B).

(** The request as [optionalAuth] hands it to [next()]. The verification
    call does not throw (the service catches), so the [catch] clause of the
    middleware, which calls [next()] as well, is never entered. *)
Definition optionalAuth (req : AuthenticatedRequest) : Async B AuthenticatedRequest :=
  match authorization req with
  | None => ret req
  | Some authHeader =>
      match JsString.strip_prefix (js "Bearer ") authHeader with
      | None => ret req
      | Some accessToken =>
          await r := supabaseService.verifyToken backend accessToken in
          match supabaseService.error r, supabaseService.data r with
          | None, Some user =>
              ret {| authorization := authorization req;
                     params_id := params_id req;
                     body := body req;
                     user := Some user;
                     accessToken := Some accessToken |}
          | _, _ => ret req
          end
      end
  end.

End WithBackend.

End OptionalAuth.

(** ** The read controllers (api/controllers/product.controller.ts) *)

Module productReadController.

Import Supabase Http Api.

(** The [message] of a product listing: the literal for an empty list, or
    the template literal around [data?.length], which is undefined when the
    backend returned no data. *)
Inductive ListMessage :=
| NoProductsFound
| FoundProducts (length : option nat).

(** The JSON sent back by the listing. *)
Inductive ListBody :=
| ListErrorJson (e : ErrorBody)
| ListJson (data : list Product) (message : ListMessage).

Record ListResponse := { list_status : Z; list_json : ListBody }.

(** [data?.length === 0 ? 'No products found' : `Found ${data?.length} products`] *)
Definition list_message (data : option (list Product)) : ListMessage :=
  match data with
  | Some [] => NoProductsFound
  | Some l => FoundProducts (Some (length l))
  | None => FoundProducts None
  end.

Section WithBackend.

Context {B : Type} (backend : Oracle B).

(** [search] is [req.query.search], cast and not checked: undefined
    when the key is missing, a string, or the array or object the query
    parser makes of a repeated or bracketed key. *)
Definition getProducts (search : JsValue.t) (req : AuthenticatedRequest)
  : Async B ListResponse :=
  await r := supabaseService.getProducts backend search (accessToken req) in
  match supabaseService.error r with
  | Some error =>
      ret {| list_status := 500;
             list_json := ListErrorJson
               {| Http.error := "Failed to fetch products";
                  message := message_or error "Internal server error" |} |}
  | None =>
      ret {| list_status := 200;
             list_json := ListJson (default [] (supabaseService.data r))
                                   (list_message (supabaseService.data r)) |}
  end.

Definition getProductById (req : AuthenticatedRequest) : Async B Response :=
  let id := JsGlobal.parseInt10 (params_id req) in
  if productController.invalid_id id then ret productController.invalid_id_response
  else
    await r := supabaseService.getProductById backend id (accessToken req) in
    match supabaseService.error r with
    | Some error =>
        ret (respond 500 "Failed to fetch product" (message_or error "Internal server error"))
    | None =>
        match supabaseService.data r with
        | None => ret (productController.not_found_response id)
        | Some data =>
            ret {| status := 200;
                   json := DataJson (Some data) (Text "Product retrieved successfully") |}
        end
    end.

End WithBackend.

End productReadController.

(** ** The public product routes (api/routes/products.routes.ts) *)

Module ProductReadRoutes.

Import Supabase Api.

Section WithBackend.

Context {B : Type} (backend : Oracle B).

(** [router.get('/', optionalAuth, productController.getProducts)] *)
Definition get_products (search : JsValue.t) (req : AuthenticatedRequest)
  : Async B productReadController.ListResponse :=
  await req1 := OptionalAuth.optionalAuth backend req in
  productReadController.getProducts backend search req1.

(** [router.get('/:id', optionalAuth, productController.getProductById)] *)
Definition get_product (req : AuthenticatedRequest) : Async B Response :=
  await req1 := OptionalAuth.optionalAuth backend req in
  productReadController.getProductById backend req1.

End WithBackend.

End ProductReadRoutes.

(** ** The role shown to the user (api/routes/auth.routes.ts,
    public/js/components/ProductForm.js) *)

Module RoleDisplay.

Import Supabase.

(** [user.user_metadata?.role || user.app_metadata?.role || 'user'], the
    [role] of GET /auth/user and the [userRole] of the form and header
    components. *)
Definition displayed_role (user : User) : JsValue.t :=
  JsValue.or
    (JsValue.or (AuthMiddleware.role_of (user_metadata user))
                (AuthMiddleware.role_of (app_metadata user)))
    (JsValue.VString (js "user")).

(** [const isAdmin = userRole === 'admin'] *)
Definition isAdmin (user : User) : bool :=
  JsValue.strict_eq_string (displayed_role user) (js "admin").

End RoleDisplay.

(** ** The admin set-up route (api/routes/admin-setup.routes.ts) *)

Module AdminSetup.

Import Supabase Http Api.

(** [userInfo] of the answer. *)
Record UserInfo := {
  info_id : JsString.t;
  info_email : option JsString.t;
  currentRole : JsValue.t
}.

Inductive SetupBody :=
| SetupError (e : ErrorBody)
| SetupInstructions (message : string) (instructions : list JsString.t) (userInfo : UserInfo).

Record SetupResponse := { setup_status : Z; setup_json : SetupBody }.

(** The local constant [allowedEmails]: its two entries are commented
    out. *)
Definition allowedEmails : list JsString.t := [].

(** The statement shown as the third instruction; code unit 34 is the
    double quote. *)
Definition sql_statement (id : JsString.t) : JsString.t :=
  js "UPDATE auth.users SET raw_user_meta_data = jsonb_set(COALESCE(raw_user_meta_data, '{}'::jsonb), '{role}', '"
  ++ [34%N] ++ js "admin" ++ [34%N] ++ js "'::jsonb) WHERE id = '" ++ id ++ js "';".

(** Code unit 8594 is the arrow of the first instruction. *)
Definition instructions_for (id : JsString.t) : list JsString.t :=
  [ js "1. Go to your Supabase Dashboard " ++ [8594%N] ++ js " SQL Editor";
    js "2. Run this SQL:";
    sql_statement id;
    js "3. Refresh your app page";
    js "4. You should now have admin access" ].

Definition setup_error (status : Z) (e m : string) : SetupResponse :=
  {| setup_status := status; setup_json := SetupError {| error := e; message := Text m |} |}.

Section WithBackend.

Context {B : Type} (backend : Oracle B).

(** POST /setup-admin *)
Definition setup_admin (req : AuthenticatedRequest) : Async B SetupResponse :=
  match authorization req with
  | None => ret (setup_error 401 "Unauthorized" "Bearer token required")
  | Some authHeader =>
      match JsString.strip_prefix (js "Bearer ") authHeader with
      | None => ret (setup_error 401 "Unauthorized" "Bearer token required")
      | Some accessToken =>
          await r := supabaseService.verifyToken backend accessToken in
          match supabaseService.error r, supabaseService.data r with
          | None, Some user =>
              if (0 <? Z.of_nat (length allowedEmails))
                 && negb (Cors.includes allowedEmails (default [] (email user)))
              then ret (setup_error 403 "Forbidden" "Not authorized to become admin")
              else
                ret {| setup_status := 200;
                       setup_json :=
                         SetupInstructions "Admin setup instructions"
                           (instructions_for (user_id user))
                           {| info_id := user_id user;
                              info_email := email user;
                              currentRole := RoleDisplay.displayed_role user |} |}
          | _, _ => ret (setup_error 401 "Unauthorized" "Invalid token")
          end
      end
  end.

End WithBackend.

End AdminSetup.

(** ** The other sanitisers of api/utils/validation.utils.ts *)

Module Sanitizers.

Import JsString JsValue.
Local Open Scope N_scope.

Section Platform.

(** The conversions of the platform that the sanitisers call: the
    string of a number, [parseFloat] and [parseInt] (without a radix)
    on strings. *)
Variable Number_toString : JsNumber.t -> JsString.t.
Variable parseFloat_string : JsString.t -> JsNumber.t.
Variable parseInt_string : JsString.t -> JsNumber.t.

(** [String(input)] *)
Definition String_of (input : JsValue.t) : JsString.t :=
  match input with
  | VUndefined => js "undefined"
  | VNull => js "null"
  | VBool true => js "true"
  | VBool false => js "false"
  | VNumber x => Number_toString x
  | VString s => s
  | VObject str => str
  end.

(** The class of the [replace] of [sanitizeString]: the angle brackets,
    the single and the double quote. *)
Definition is_angle_or_quote (c : char16) : bool :=
  N.eqb c 60 || N.eqb c 62 || N.eqb c 39 || N.eqb c 34.

(** [substring(0, maxLength)] for a length that is a natural number. *)
Definition sanitizeString (input : JsValue.t) (maxLength : nat) : JsString.t :=
  if negb (JsValue.truthy input) then []
  else firstn maxLength (trim (remove_chars is_angle_or_quote (String_of input))).

(** The default value of the parameter [maxLength]. *)
Definition sanitizeString_default (input : JsValue.t) : JsString.t :=
  sanitizeString input 1000.

(** [parseInt(input)]: the argument is converted to a string first. *)
Definition parseInt (input : JsValue.t) : JsNumber.t := parseInt_string (String_of input).

Definition sanitizeInteger (input : JsValue.t) : option JsNumber.t :=
  if ValidationUtils.is_empty_input input then None
  else
    let num := parseInt input in
    if JsNumber.isNaN num || negb (JsNumber.isFinite num) then None
    else if JsNumber.gtb num (JsNumber.of_Z 999999999)
            || JsNumber.ltb num (JsNumber.of_Z 0) then None
    else Some num.




End Platform.

(** The string [sanitizeHtml] works on: the input when it is a string. *)
Definition html_source (input : JsValue.t) : JsString.t :=
  match input with
  | VString s => s
  | _ => []
  end.

(** A string without white space at either end. *)
Definition trimmed (s : JsString.t) : Prop :=
  from_option is_space false (head s) = false
  /\ from_option is_space false (last s) = false.

End Sanitizers.

(** ** The frontend token (api/middleware/security.middleware.ts,
    api/controllers/health.controller.ts) *)

Module FrontendToken.

Import JsString Http.
Local Open Scope N_scope.

(** The decimal digits of a natural number, as [String] prints an
    integer below 10^21. *)
Fixpoint uint_chars (u : Decimal.uint) : JsString.t :=
  match u with
  | Decimal.Nil => []
  | Decimal.D0 u => 48 :: uint_chars u
  | Decimal.D1 u => 49 :: uint_chars u
  | Decimal.D2 u => 50 :: uint_chars u
  | Decimal.D3 u => 51 :: uint_chars u
  | Decimal.D4 u => 52 :: uint_chars u
  | Decimal.D5 u => 53 :: uint_chars u
  | Decimal.D6 u => 54 :: uint_chars u
  | Decimal.D7 u => 55 :: uint_chars u
  | Decimal.D8 u => 56 :: uint_chars u
  | Decimal.D9 u => 57 :: uint_chars u
  end.

(** The string of an integer, as a template literal interpolates it. *)
Definition integer_toString (n : Z) : JsString.t :=
  match n with
  | Z.neg p => 45 :: uint_chars (Pos.to_uint p)
  | _ => uint_chars (N.to_uint (Z.to_N n))
  end.

(** A request as the two token middlewares see it: the header
    X-Frontend-Token and the property [isVerifiedFrontend], which is
    undefined until it is set. *)
Record FrontendRequest := {
  x_frontend_token : option JsString.t;
  isVerifiedFrontend : option bool
}.

(** The body of [getToken]'s answer. *)
Record TokenResponse := {
  token : JsString.t;
  expires_in : Z;
  token_type : string
}.

Definition frontend_only_body : ErrorBody :=
  {| error := "Forbidden: Frontend access only";
     message :=
       Text "This endpoint only accepts requests from the official frontend application" |}.

Section Crypto.

(** [crypto.createHmac('sha256', key).update(message).digest('hex')], and
    the module constant [API_SECRET]. *)
Variable hmac_sha256_hex : JsString.t -> JsString.t -> JsString.t.
Variable API_SECRET : JsString.t.

(** The message signed in the five-minute window that contains [now]. *)
Definition window_message (now : Z) : JsString.t :=
  let timestamp := (now / (1000 * 60 * 5))%Z in
  js "frontend-" ++ integer_toString timestamp.

(** [generateFrontendToken()] when the clock reads [now]. *)
Definition generateFrontendToken (now : Z) : JsString.t :=
  firstn 16 (hmac_sha256_hex API_SECRET (window_message now)).

Definition getFrontendToken (now : Z) : JsString.t := generateFrontendToken now.

(** The request as [verifyFrontendToken] hands it to [next()], which it
    always calls. *)
Definition verifyFrontendToken (req : FrontendRequest) (now : Z) : FrontendRequest :=
  let frontendToken := x_frontend_token req in
  let expectedToken := generateFrontendToken now in
  if bool_decide (frontendToken = Some expectedToken)
  then {| x_frontend_token := x_frontend_token req; isVerifiedFrontend := Some true |}
  else req.

Definition frontendOnlyAccess (req : FrontendRequest) : Outcome :=
  if negb (default false (isVerifiedFrontend req))
  then Responded 403 [] (Some frontend_only_body)
  else Next [].

(** GET /health/token *)
Definition getToken (now : Z) : TokenResponse :=
  {| token := getFrontendToken now; expires_in := 3600; token_type := "Bearer" |}.

(** A request that presents [t] and has not been verified yet. *)
Definition presenting (t : JsString.t) : FrontendRequest :=
  {| x_frontend_token := Some t; isVerifiedFrontend := None |}.

End Crypto.

End FrontendToken.

(** ** The validators of api/utils/validation.utils.ts *)

Module Validators.

Import JsString.
Local Open Scope N_scope.

(** The class of the pattern of [isValidEmail]: any code unit that is
    neither white space nor the at sign (code unit 64). *)
Definition is_plain (c : char16) : bool := negb (is_space c) && negb (N.eqb c 64).

(** The longest run of the class at the head of [s]. *)
Fixpoint plain_run (s : JsString.t) : nat :=
  match s with
  | c :: s' => if is_plain c then S (plain_run s') else O
  | [] => O
  end.

(** Some dot (code unit 46) of [s] has a code unit after it, and one
    before it when [seen] is false. *)
Fixpoint has_inner_dot (seen : bool) (s : JsString.t) : bool :=
  match s with
  | c :: s' =>
      match s' with
      | _ :: _ => (seen && N.eqb c 46) || has_inner_dot true s'
      | [] => false
      end
  | [] => false
  end.

(** [emailRegex.test(email)] for the anchored pattern: a run of the
    class, an at sign, a run of the class, a dot, a run of the class. The
    first run has to be the longest one, because what follows it must be an
    at sign, which is not of the class; what follows the at sign must be
    of the class up to the end, the dot being of the class. *)
Definition isValidEmail (email : JsString.t) : bool :=
  let k := plain_run email in
  match k, skipn k email with
  | S _, c :: domain =>
      N.eqb c 64 && forallb is_plain domain && has_inner_dot false domain
  | _, _ => false
  end.

(** The pattern read as a description of the strings it matches: a local
    part, an at sign, and a domain that splits around a dot, each part
    non-empty and of the class. *)
Definition email_shaped (s : JsString.t) : Prop :=
  exists a b c : JsString.t,
    s = a ++ 64 :: b ++ 46 :: c
    /\ a <> [] /\ b <> [] /\ c <> []
    /\ Forall (fun x : char16 => is_plain x = true) (a ++ b ++ c).

Section URLs.

(** The parser of what follows the scheme of a URL, as in [Cors]. *)
Variable URL_host_after_scheme : JsString.t -> JsString.t -> option JsString.t.

(** [isValidUrl]: whether [new URL(url)] returns or throws. *)
Definition isValidUrl (url : JsString.t) : bool :=
  match Cors.new_URL_host URL_host_after_scheme url with
  | inl _ => false
  | inr _ => true
  end.

End URLs.

End Validators.

(** ** Vocabulary of the statements about routes and call logs *)

Module RouteSpec.

Import Supabase Api.

(** The calls that change the products table. *)
Definition is_write (c : Call) : bool :=
  match c with
  | CallInsert _ _ | CallUpdate _ _ _ | CallDelete _ _ => true
  | _ => false
  end.

(** The client a call goes through. *)
Definition client_of (c : Call) : Client :=
  match c with
  | CallGetUser c | CallSelect c _ | CallSelectById c _
  | CallInsert c _ | CallUpdate c _ _ | CallDelete c _ => c
  end.

(** A computation that only ever appends to the call log and does not
    read it: run from any log, it does what it does from the empty log. *)
Definition framed {B A : Type} (m : Async B A) : Prop :=
  forall w : World B,
    m w = ((m {| backend_state := backend_state w; calls := [] |}).1,
           {| backend_state :=
                backend_state (m {| backend_state := backend_state w; calls := [] |}).2;
              calls :=
                calls w ++ calls (m {| backend_state := backend_state w; calls := [] |}).2 |}).

(** The identity service resolves [token] to the user [u] in state [b]. *)
Definition verified {B : Type} (backend : Oracle B) (token : JsString.t) (u : User) (b : B)
  : Prop :=
  exists b', getUser backend (Authenticated (Some token)) b = (Returned (Some u) None, b').

(** The request once [token] has been verified for [u]. *)
Definition attach (req : AuthenticatedRequest) (token : JsString.t) (u : User)
  : AuthenticatedRequest :=
  {| authorization := authorization req; params_id := params_id req; body := body req;
     user := Some u; accessToken := Some token |}.

(** The request with another [:id] parameter. *)
Definition with_id (req : AuthenticatedRequest) (id : JsString.t) : AuthenticatedRequest :=
  {| authorization := authorization req; params_id := id; body := body req;
     user := user req; accessToken := accessToken req |}.

End RouteSpec.

(** ** Vocabulary of the statements about one client of the limiter *)

Module ClientView.

Import RateLimit.

(** The request comes from the identifier [id]. *)
Definition from_client (id : JsString.t) (r : Http.Request * Z) : bool :=
  JsString.eqb (identifier r.1) id.

(** Of the outcomes [os] of the requests [reqs], those of the requests
    of [id], in order. *)
Definition outcomes_of (id : JsString.t) (reqs : list (Http.Request * Z))
    (os : list Http.Outcome) : list Http.Outcome :=
  List.map snd (List.filter (fun p : (Http.Request * Z) * Http.Outcome => from_client id p.1)
                  (List.combine reqs os)).

End ClientView.

(* ===================================================================== *)
(** * Part II: properties                                                 *)
(* ===================================================================== *)

(** ** The search-term sanitiser *)

Section SearchTermProofs.

Import JsString SearchTerm SanitizerSpec supabaseService.

(** A code unit that folds onto an ASCII capital is a word character. *)
Lemma to_upper_upper_is_word c k :
  to_upper c = k -> is_upper k = true -> is_word c = true.
Proof.
  unfold to_upper, is_word. intros <-.
  destruct (is_lower c) eqn:Hl; intros Hu.
  - rewrite orb_true_r. reflexivity.
  - rewrite Hu. reflexivity.
Qed.

Lemma keywords_shaped : Forall keyword_shaped keywords.
Proof.
  unfold keywords. repeat constructor; try discriminate.
Qed.

Lemma keyword_in_shaped kw : List.In kw keywords -> keyword_shaped kw.
Proof.
  intros H. pose proof keywords_shaped as Hsh. rewrite Forall_forall in Hsh.
  apply Hsh, list_elem_of_In, H.
Qed.

(** [match_literal_ci] succeeds exactly on the inputs that start with a
    spelling of the literal. *)
Lemma match_literal_ci_Some kw : forall s last0 l rest,
  match_literal_ci kw s last0 = Some (l, rest) <->
  exists w, s = w ++ rest /\ List.map to_upper w = kw /\
            l = match last w with Some c => Some c | None => last0 end.
Proof.
  induction kw as [|k kw IH]; intros s last0 l rest; simpl.
  - split.
    + intros [= <- <-]. exists []. auto.
    + intros (w & -> & Hw & ->). destruct w; [reflexivity | discriminate].
  - destruct s as [|c s].
    + split; [discriminate|].
      intros (w & Hs & Hw & _). destruct w; discriminate.
    + destruct (N.eqb_spec (to_upper c) k) as [Hk|Hk].
      * rewrite IH. split.
        -- intros (w & -> & Hw & ->). exists (c :: w). repeat split.
           ++ simpl. congruence.
           ++ rewrite last_cons. destruct (last w); reflexivity.
        -- intros (w & Hs & Hw & ->). destruct w as [|c' w]; [discriminate|].
           simpl in Hs, Hw. injection Hs as <- ->. injection Hw as _ Hw.
           exists w. repeat split; [assumption|].
           rewrite last_cons. destruct (last w); reflexivity.
      * split; [discriminate|].
        intros (w & Hs & Hw & _). destruct w as [|c' w]; [discriminate|].
        simpl in Hs, Hw. injection Hs as <- _. injection Hw as Hc _. contradiction.
Qed.

Lemma spelled_words w kw :
  List.map to_upper w = kw -> Forall (fun k => is_upper k = true) kw ->
  Forall (fun c => is_word c = true) w.
Proof.
  intros <-. induction w as [|c w IH]; simpl; intros H; constructor.
  - inversion H; subst. eapply to_upper_upper_is_word; eauto.
  - inversion H; subst. auto.
Qed.

Lemma match_keyword_at_true prev s kw :
  keyword_shaped kw ->
  match_keyword_at prev s kw = true <->
  is_word_opt prev = false /\
  exists w suf, s = w ++ suf /\ List.map to_upper w = kw /\ is_word_opt (head suf) = false.
Proof.
  intros [Hne Hup]. unfold match_keyword_at. split.
  - intros H. apply andb_true_iff in H as [Hb H].
    destruct (match_literal_ci kw s prev) as [[l rest]|] eqn:Hm; [|discriminate].
    apply match_literal_ci_Some in Hm as (w & -> & Hw & ->).
    pose proof (spelled_words _ _ Hw Hup) as Hall.
    destruct w as [|c w]; [simpl in Hw; congruence|].
    assert (Hlast : exists c', last (c :: w) = Some c' /\ is_word c' = true).
    { destruct (last (c :: w)) as [c'|] eqn:Hl.
      - exists c'. split; [reflexivity|].
        apply last_Some_elem_of in Hl. rewrite Forall_forall in Hall.
        apply Hall. assumption.
      - apply last_None in Hl. discriminate. }
    destruct Hlast as (c' & Hl & Hc'). rewrite Hl in H.
    simpl in Hb. inversion Hall; subst.
    unfold word_boundary in *. simpl in *.
    rewrite H2 in Hb. rewrite Hc' in H.
    split.
    + destruct (is_word_opt prev); [discriminate | reflexivity].
    + exists (c :: w), rest. repeat split.
      destruct (is_word_opt (head rest)); [discriminate | reflexivity].
  - intros (Hp & w & suf & -> & Hw & Hs).
    pose proof (spelled_words _ _ Hw Hup) as Hall.
    destruct w as [|c w]; [simpl in Hw; congruence|].
    inversion Hall; subst.
    assert (Hm : match_literal_ci (List.map to_upper (c :: w)) ((c :: w) ++ suf) prev
                 = Some (match last (c :: w) with Some c0 => Some c0 | None => prev end, suf)).
    { apply match_literal_ci_Some. exists (c :: w). auto. }
    rewrite Hm.
    destruct (last (c :: w)) as [c'|] eqn:Hl.
    + apply last_Some_elem_of in Hl. rewrite Forall_forall in Hall.
      apply Hall in Hl.
      unfold word_boundary. simpl. rewrite Hp, H1, Hl, Hs. reflexivity.
    + apply last_None in Hl. discriminate.
Qed.

Lemma before_cons prev c pre : before prev (c :: pre) = before (Some c) pre.
Proof.
  unfold before. rewrite last_cons. destruct (last pre); reflexivity.
Qed.

Lemma test_from_true s : forall prev,
  test_from prev s = true <->
  exists pre w suf,
    s = pre ++ w ++ suf /\ List.In (List.map to_upper w) keywords /\
    is_word_opt (before prev pre) = false /\ is_word_opt (head suf) = false.
Proof.
  induction s as [|c s IH]; intros prev.
  - cbn [test_from]. rewrite orb_false_r. split.
    + intros H. apply existsb_exists in H as (kw & Hin & H).
      apply (match_keyword_at_true _ _ _ (keyword_in_shaped _ Hin)) in H
        as (Hp & w & suf & Hs & Hw & Hsuf).
      exists [], w, suf. subst kw. repeat split; try assumption.
    + intros (pre & w & suf & Hs & Hin & Hp & Hsuf).
      destruct pre; [|discriminate]. simpl in Hs.
      apply existsb_exists. exists (List.map to_upper w). split; [assumption|].
      apply match_keyword_at_true; [apply keyword_in_shaped, Hin|].
      split; [assumption|]. exists w, suf. repeat split; assumption.
  - cbn [test_from]. rewrite orb_true_iff, IH. split.
    + intros [H | (pre & w & suf & Hs & Hin & Hp & Hsuf)].
      * apply existsb_exists in H as (kw & Hin & H).
        apply (match_keyword_at_true _ _ _ (keyword_in_shaped _ Hin)) in H
          as (Hp & w & suf & Hs & Hw & Hsuf).
        exists [], w, suf. subst kw. repeat split; assumption.
      * exists (c :: pre), w, suf. rewrite before_cons. subst s.
        repeat split; assumption.
    + intros (pre & w & suf & Hs & Hin & Hp & Hsuf).
      destruct pre as [|c' pre].
      * left. apply existsb_exists. exists (List.map to_upper w). split; [assumption|].
        apply match_keyword_at_true; [apply keyword_in_shaped, Hin|].
        split; [assumption|]. exists w, suf. repeat split; assumption.
      * right. simpl in Hs. injection Hs as <- ->. rewrite before_cons in Hp.
        exists pre, w, suf. repeat split; assumption.
Qed.

(** The matcher decides the declarative reading. *)
Lemma sqlKeywords_test_spec s :
  sqlKeywords_test s = true <-> contains_keyword_word s.
Proof.
  unfold sqlKeywords_test, contains_keyword_word. rewrite test_from_true.
  unfold before, ends_outside_word, starts_outside_word.
  split; intros (pre & w & suf & Hs & Hin & Hp & Hsuf); exists pre, w, suf;
    destruct (last pre); auto.
Qed.

End SearchTermProofs.

(** Claim C1, as stated, fails: a search term can contain a keyword as a
    whole word and still get through, because the sanitiser looks for
    keywords only after it has removed quotes, semicolons, backslashes and
    comment markers, and the removal can glue the keyword to a neighbour.
    The term [update's] contains UPDATE as a whole word; it is cleaned to
    [updates], which does not, and the listing is filtered by it. *)
Lemma sanitizeSearchTerm_keyword_glued :
  SearchTerm.contains_keyword_word (js "update's") /\
  SearchTerm.sanitizeSearchTerm (js "update's") = Some (js "updates") /\
  Supabase.or (supabaseService.products_query (Some (js "update's")))
  = Some (js "title.ilike.%updates%,author.ilike.%updates%").
Proof.
  split; [|split; reflexivity].
  exists [], (js "update"), (js "'s"). repeat split.
  vm_compute. tauto.
Qed.

(** Claim C1, amended: for every search term whose cleaned form (the term
    after the removal of semicolons, quotes, backslashes and the comment
    markers, trimmed) contains a SQL reserved keyword as a whole word, in
    any letter case, [sanitizeSearchTerm] returns null and [getProducts]
    issues the same unfiltered query as a listing without a search term,
    with the same result. *)
Theorem sanitizeSearchTerm_rejects_keyword (term : JsString.t) :
  SearchTerm.contains_keyword_word (SearchTerm.cleaned term) ->
  SearchTerm.sanitizeSearchTerm term = None /\
  supabaseService.products_query (Some term) = supabaseService.base_query /\
  forall (B : Type) (backend : Supabase.Oracle B) (accessToken : option JsString.t),
    supabaseService.getProducts backend (JsValue.VString term) accessToken
    = supabaseService.getProducts backend JsValue.VUndefined accessToken.
Proof.
  intros H. apply sqlKeywords_test_spec in H.
  assert (Hs : SearchTerm.sanitizeSearchTerm term = None).
  { unfold SearchTerm.sanitizeSearchTerm. rewrite H. reflexivity. }
  assert (Hq : supabaseService.products_query (Some term) = supabaseService.base_query).
  { unfold supabaseService.products_query.
    destruct (JsString.truthy_opt (Some term)); [|reflexivity].
    simpl. rewrite Hs. reflexivity. }
  split; [exact Hs|]. split; [exact Hq|].
  intros B backend accessToken. unfold supabaseService.getProducts.
  cbn [supabaseService.search_term JsValue.truthy]. rewrite Hq. reflexivity.
Qed.

Lemma sanitizeSearchTerm_rejects_keyword_witness :
  SearchTerm.sanitizeSearchTerm (js "x'; DROP TABLE products; --") = None /\
  supabaseService.products_query (Some (js "x'; DROP TABLE products; --"))
  = supabaseService.base_query.
Proof.
  assert (H : SearchTerm.contains_keyword_word
                (SearchTerm.cleaned (js "x'; DROP TABLE products; --"))).
  { exists (js "x "), (js "DROP"), (js " TABLE products"). repeat split.
    vm_compute. tauto. }
  destruct (sanitizeSearchTerm_rejects_keyword _ H) as (Hs & Hq & _).
  split; assumption.
Defined.

(** ** The origin check *)

Section CorsProofs.

Import JsString Http Cors CorsSpec.

Variable parser : JsString.t -> JsString.t -> option JsString.t.

Lemma includes_In l x : includes l x = true <-> List.In x l.
Proof.
  unfold includes. rewrite existsb_exists. unfold JsString.eqb. split.
  - intros (y & Hy & He). apply bool_decide_eq_true in He. subst. assumption.
  - intros H. exists x. split; [assumption | apply bool_decide_eq_true; reflexivity].
Qed.

Lemma truthy_nonempty s : truthy s = true <-> s <> [].
Proof. destruct s; simpl; split; congruence. Qed.

Lemma truthy_opt_false_default o : truthy_opt o = false -> truthy (default [] o) = false.
Proof. destruct o; simpl; auto. Qed.

(** An accepted request runs the tail of the middleware. *)
Lemma enhancedCors_accepted env req allow :
  origin_accepted parser env req allow ->
  enhancedCors parser env req = after_origin_check allow req.
Proof.
  intros [o Ho Hin | r h Ho Hr Hne Hp Hh]; unfold enhancedCors.
  - rewrite Ho. simpl.
    assert (truthy o = true) as ->.
    { destruct o; [|reflexivity]. exfalso. revert Hin. unfold getAllowedOrigins.
      destruct (VERCEL_URL env) as [[|]|], (CUSTOM_DOMAIN env) as [[|]|]; simpl;
        intuition discriminate. }
    apply includes_In in Hin. rewrite Hin. reflexivity.
  - rewrite Ho. simpl. unfold isFromSameDomain. rewrite Hr. simpl.
    apply truthy_nonempty in Hne. rewrite Hne. simpl. rewrite Hp, Hh.
    rewrite bool_decide_eq_true_2 by reflexivity. reflexivity.
Qed.

(** A rejected request is answered 403, whatever its method. *)
Lemma enhancedCors_rejected env req :
  origin_rejected parser env req ->
  enhancedCors parser env req = Responded 403 [] (Some forbidden_body).
Proof.
  intros [o Ho Hne Hin | Ho Hr | r h Ho Hr Hne Hp Hh]; unfold enhancedCors.
  - rewrite Ho. simpl. apply truthy_nonempty in Hne. rewrite Hne. simpl.
    destruct (includes _ o) eqn:Hi; [apply includes_In in Hi; contradiction | reflexivity].
  - rewrite Ho. simpl. unfold isFromSameDomain. rewrite Hr. reflexivity.
  - rewrite Ho. simpl. unfold isFromSameDomain. rewrite Hr. simpl.
    apply truthy_nonempty in Hne. rewrite Hne. simpl. rewrite Hp.
    rewrite bool_decide_eq_false_2 by congruence. reflexivity.
Qed.

Lemma enhancedCors_unparseable env req :
  truthy_opt (origin req) = false ->
  referer_unparseable parser req ->
  exists e, enhancedCors parser env req = Threw e.
Proof.
  intros Ho (r & e & Hr & Hne & Hp). exists e. unfold enhancedCors.
  rewrite Ho. simpl. unfold isFromSameDomain. rewrite Hr. simpl.
  apply truthy_nonempty in Hne. rewrite Hne. simpl. rewrite Hp. reflexivity.
Qed.

End CorsProofs.

(** Claim C2, as stated, fails: the rejection comes before the test for
    the OPTIONS method, so a preflight request from an origin that is not on
    the allow-list is answered 403, with no CORS header assigned. *)
Lemma enhancedCors_preflight_foreign_origin :
  Http.method Sample.preflight_foreign = js "OPTIONS" /\
  Cors.enhancedCors CorsSpec.plain_http_host Sample.no_env Sample.preflight_foreign
  = Http.Responded 403 [] (Some Cors.forbidden_body).
Proof. split; reflexivity. Qed.

(** Claim C2, amended: an OPTIONS request that passes the origin check
    (its Origin is on the allow-list, or it has no Origin and the host of
    its Referer is the request's Host) is answered 200 once the four CORS
    headers are assigned, and [next] is not called; an OPTIONS request whose
    Origin is not on the allow-list, or that has no Origin and either no
    Referer or a Referer naming another host, is answered 403 like a request
    of any other method. *)
Theorem enhancedCors_preflight
    (parser : JsString.t -> JsString.t -> option JsString.t)
    (env : Cors.Env) (req : Http.Request) :
  Http.method req = js "OPTIONS" ->
  (forall allow, CorsSpec.origin_accepted parser env req allow ->
     Cors.enhancedCors parser env req
     = Http.Responded 200
         (("Access-Control-Allow-Origin"%string, allow) :: Cors.cors_headers) None) /\
  (CorsSpec.origin_rejected parser env req ->
     Cors.enhancedCors parser env req = Http.Responded 403 [] (Some Cors.forbidden_body)).
Proof.
  intros Hm. split.
  - intros allow Ha. rewrite (enhancedCors_accepted _ _ _ _ Ha).
    unfold Cors.after_origin_check. rewrite Hm. reflexivity.
  - apply enhancedCors_rejected.
Qed.

Lemma enhancedCors_preflight_witness :
  Cors.enhancedCors CorsSpec.plain_http_host Sample.no_env Sample.preflight_same_domain
  = Http.Responded 200
      (("Access-Control-Allow-Origin"%string, js "*") :: Cors.cors_headers) None.
Proof.
  refine (proj1 (enhancedCors_preflight CorsSpec.plain_http_host Sample.no_env
                   Sample.preflight_same_domain eq_refl) _ _).
  apply (CorsSpec.accepted_same_domain _ _ _
           (js "http://localhost:3000/index.html") (js "localhost:3000"));
    [reflexivity | reflexivity | discriminate | reflexivity | reflexivity].
Defined.

(** Claim C4: the claim asks for 403 on every request without a recognised
    Origin whose Referer does not name the request's Host, a Referer that is
    not a URL included. On such a Referer [isFromSameDomain] does not return:
    the URL constructor throws, [enhancedCors] answers nothing, and the
    exception is left to the error handling of the framework. Here: a GET
    without Origin, with Referer [not a url]. *)
Theorem enhancedCors_unparseable_referer_throws
    (parser : JsString.t -> JsString.t -> option JsString.t) (env : Cors.Env) :
  Cors.enhancedCors parser env Sample.referer_not_a_url
  = Http.Threw (Http.TypeError "Invalid URL").
Proof. reflexivity. Qed.

(** What holds of claim C4: whatever the method, a request without a
    recognised Origin whose Referer is missing, or parses and names another
    host, is answered 403; and a request without Origin whose Referer does
    not parse is answered by an exception. *)
Lemma enhancedCors_unrecognised
    (parser : JsString.t -> JsString.t -> option JsString.t)
    (env : Cors.Env) (req : Http.Request) :
  (CorsSpec.origin_rejected parser env req ->
     Cors.enhancedCors parser env req = Http.Responded 403 [] (Some Cors.forbidden_body)) /\
  (JsString.truthy_opt (Http.origin req) = false ->
     CorsSpec.referer_unparseable parser req ->
     exists e, Cors.enhancedCors parser env req = Http.Threw e).
Proof.
  split; [apply enhancedCors_rejected | apply enhancedCors_unparseable].
Qed.

(** ** The rate limiter *)

Section RateLimitProofs.

Import JsString Http RateLimit RateLimitSpec.

Variables maxRequests windowMs : Z.

Abbreviation step := (rateLimitByOrigin maxRequests windowMs).

(** The three branches of the middleware. *)
Lemma step_fresh (req : Request) (now : Z) (m : gmap JsString.t Entry) :
  no_open_window m (identifier req) now ->
  step req now m = (Next [], <[identifier req := fresh_entry windowMs now]> m).
Proof.
  unfold rateLimitByOrigin, no_open_window.
  destruct (m !! identifier req) as [e|]; [|reflexivity].
  intros H. apply Z.gtb_lt in H. rewrite H. reflexivity.
Qed.

Lemma step_full (req : Request) (now : Z) (m : gmap JsString.t Entry) (e : Entry) :
  m !! identifier req = Some e -> now <= resetTime e -> maxRequests <= count e ->
  step req now m = (rejected, m).
Proof.
  intros He Hn Hc. unfold rateLimitByOrigin. rewrite He.
  destruct (Z.gtb_spec now (resetTime e)); [lia|].
  destruct (Z.geb_spec (count e) maxRequests); [reflexivity | lia].
Qed.

Lemma step_counted (req : Request) (now : Z) (m : gmap JsString.t Entry) (e : Entry) :
  m !! identifier req = Some e -> now <= resetTime e -> count e < maxRequests ->
  step req now m
  = (Next [], <[identifier req := {| count := count e + 1; resetTime := resetTime e |}]> m).
Proof.
  intros He Hn Hc. unfold rateLimitByOrigin. rewrite He.
  destruct (Z.gtb_spec now (resetTime e)); [lia|].
  destruct (Z.geb_spec (count e) maxRequests); [lia | reflexivity].
Qed.

(** A request is either passed on or refused with the store untouched. *)
Lemma step_cases (req : Request) (now : Z) (m : gmap JsString.t Entry) :
  (step req now m).1 = Next [] \/ step req now m = (rejected, m).
Proof.
  unfold rateLimitByOrigin. destruct (m !! identifier req) as [e|]; [|left; reflexivity].
  destruct (now >? resetTime e); [left; reflexivity|].
  destruct (count e >=? maxRequests); [right | left]; reflexivity.
Qed.

(** Requests of other identifiers leave an entry alone. *)
Lemma step_other (req : Request) (now : Z) (m : gmap JsString.t Entry) (id : JsString.t) :
  identifier req <> id -> (step req now m).2 !! id = m !! id.
Proof.
  intros Hne. unfold rateLimitByOrigin. destruct (m !! identifier req) as [e|]; simpl.
  - destruct (now >? resetTime e); simpl; [apply lookup_insert_ne; assumption|].
    destruct (count e >=? maxRequests); simpl; [reflexivity|].
    apply lookup_insert_ne; assumption.
  - apply lookup_insert_ne; assumption.
Qed.

Lemma serve_cons (req : Request) (now : Z) (reqs : list (Request * Z)) (m : gmap JsString.t Entry) :
  serve maxRequests windowMs ((req, now) :: reqs) m
  = ((step req now m).1 :: (serve maxRequests windowMs reqs (step req now m).2).1,
     (serve maxRequests windowMs reqs (step req now m).2).2).
Proof.
  simpl. destruct (rateLimitByOrigin _ _ req now m) as [o m']. simpl.
  destruct (serve _ _ reqs m') as [os final]. reflexivity.
Qed.

Lemma requests_of_nonneg (id : JsString.t) (reqs : list (Request * Z)) : 0 <= requests_of id reqs.
Proof. unfold requests_of. lia. Qed.

Lemma requests_of_cons (id : JsString.t) (req : Request) (now : Z) (reqs : list (Request * Z)) :
  requests_of id ((req, now) :: reqs)
  = (if JsString.eqb (identifier req) id then 1 else 0) + requests_of id reqs.
Proof.
  unfold requests_of. simpl. destruct (JsString.eqb (identifier req) id); simpl length; lia.
Qed.

Lemma eqb_eq (a b : JsString.t) : JsString.eqb a b = true <-> a = b.
Proof. unfold JsString.eqb. apply bool_decide_eq_true. Qed.

(** Inside a window: with [c] requests counted so far, a request of the
    identifier is passed on exactly when fewer than [maxRequests] have been
    counted by the time it arrives. *)
Lemma serve_in_window (id : JsString.t) (R : Z) (reqs : list (Request * Z)) : forall (m : gmap JsString.t Entry) (c : Z),
  m !! id = Some {| count := c; resetTime := R |} ->
  Forall (fun '(req, now) => identifier req = id -> now <= R) reqs ->
  forall (i : nat) (req : Request) (now : Z), reqs !! i = Some (req, now) -> identifier req = id ->
    (serve maxRequests windowMs reqs m).1 !! i
    = Some (if c + requests_of id (take i reqs) <? maxRequests then Next [] else rejected).
Proof.
  induction reqs as [|[req0 now0] reqs IH]; intros m c Hm Hall i req now Hi Hid.
  - discriminate.
  - rewrite serve_cons. apply Forall_cons in Hall as [Hin Hall'].
    destruct i as [|i]; simpl in Hi.
    + injection Hi as Hr Hn. rewrite Hr, Hn in *. clear Hr Hn. simpl.
      change (requests_of id []) with 0. rewrite Z.add_0_r.
      specialize (Hin Hid). rewrite <- Hid in Hm.
      destruct (Z.ltb_spec c maxRequests).
      * erewrite step_counted; eauto.
      * erewrite step_full; eauto.
    + cbn [take]. rewrite requests_of_cons. simpl.
      destruct (decide (identifier req0 = id)) as [He|Hne].
      * rewrite (proj2 (eqb_eq _ _) He). specialize (Hin He).
        pose proof Hm as Hm0. rewrite <- He in Hm0.
        destruct (Z.ltb_spec c maxRequests).
        -- erewrite step_counted; eauto. simpl.
           erewrite (IH _ (c + 1)); eauto.
           ++ replace (c + 1 + requests_of id (take i reqs))
                with (c + (1 + requests_of id (take i reqs))) by lia.
              reflexivity.
           ++ rewrite He. apply lookup_insert_eq.
        -- erewrite step_full; eauto. simpl.
           erewrite (IH _ c); eauto.
           pose proof (requests_of_nonneg id (take i reqs)).
           destruct (Z.ltb_spec (c + requests_of id (take i reqs)) maxRequests);
             [lia|].
           destruct (Z.ltb_spec (c + (1 + requests_of id (take i reqs))) maxRequests);
             [lia|]. reflexivity.
      * assert (JsString.eqb (identifier req0) id = false) as ->.
        { destruct (JsString.eqb (identifier req0) id) eqn:E; [|reflexivity].
          apply eqb_eq in E. contradiction. }
        rewrite Z.add_0_l. eapply IH; eauto.
        rewrite step_other by assumption. assumption.
Qed.

(** No entry ever counts more than the maximum. *)
Lemma step_within_limit (req : Request) (now : Z) (m : gmap JsString.t Entry) :
  1 <= maxRequests -> within_limit maxRequests m -> within_limit maxRequests (step req now m).2.
Proof.
  intros HN Hm. unfold within_limit in *. unfold rateLimitByOrigin.
  destruct (m !! identifier req) as [e|] eqn:He; simpl.
  - destruct (now >? resetTime e); simpl.
    + apply map_Forall_insert_2; [simpl; lia | assumption].
    + destruct (Z.geb_spec (count e) maxRequests); simpl; [assumption|].
      apply map_Forall_insert_2; [simpl; lia | assumption].
  - apply map_Forall_insert_2; [simpl; lia | assumption].
Qed.

Lemma serve_within_limit (reqs : list (Request * Z)) : forall (m : gmap JsString.t Entry),
  1 <= maxRequests -> within_limit maxRequests m ->
  within_limit maxRequests (serve maxRequests windowMs reqs m).2.
Proof.
  induction reqs as [|[req now] reqs IH]; intros m HN Hm; [assumption|].
  rewrite serve_cons. simpl. apply IH; [assumption|].
  apply step_within_limit; assumption.
Qed.

End RateLimitProofs.

(** Claim C3: with a limit of [maxRequests] (at least one) per window of
    [windowMs], take any identifier and any run of requests, of this and of
    other identifiers, whose first request finds no open window for the
    identifier and opens one at [t1], the later requests of the identifier
    arriving no later than the reset time [t1 + windowMs]. Then a request of
    the identifier is passed to the next handler when fewer than
    [maxRequests] requests of the identifier came before it in the run, and
    is answered 429 otherwise: the first [maxRequests] pass, the next one
    and those after it are refused. A request that arrives after the reset
    time of the entry of its identifier is passed on and starts a window
    with count 1. The router mounts the limiter with 100 requests per 15
    minutes. *)
Theorem rateLimit_window (maxRequests windowMs : Z) (id : JsString.t)
    (m : gmap JsString.t RateLimit.Entry) (req1 : Http.Request) (t1 : Z)
    (rest : list (Http.Request * Z)) :
  1 <= maxRequests ->
  RateLimit.identifier req1 = id ->
  RateLimitSpec.no_open_window m id t1 ->
  Forall (fun '(req, now) => RateLimit.identifier req = id -> now <= t1 + windowMs) rest ->
  (forall (i : nat) (req : Http.Request) (now : Z),
     ((req1, t1) :: rest) !! i = Some (req, now) -> RateLimit.identifier req = id ->
     (RateLimit.serve maxRequests windowMs ((req1, t1) :: rest) m).1 !! i
     = Some (if RateLimit.requests_of id (take i ((req1, t1) :: rest)) <? maxRequests
             then Http.Next [] else Http.Responded 429 [] (Some RateLimit.too_many_body))) /\
  (forall (m' : gmap JsString.t RateLimit.Entry) (req : Http.Request) (now : Z)
          (e : RateLimit.Entry),
     m' !! RateLimit.identifier req = Some e -> RateLimit.resetTime e < now ->
     RateLimit.rateLimitByOrigin maxRequests windowMs req now m'
     = (Http.Next [],
        <[RateLimit.identifier req :=
            {| RateLimit.count := 1; RateLimit.resetTime := now + windowMs |}]> m')) /\
  RateLimit.api_rateLimit = RateLimit.rateLimitByOrigin 100 900000.
Proof.
  intros HN Hid Hfresh Hall. split; [|split].
  - intros i req now Hi Hreq. rewrite serve_cons.
    subst id. rewrite step_fresh by assumption.
    destruct i as [|i]; simpl in Hi.
    + simpl. change (RateLimit.requests_of (RateLimit.identifier req1) []) with 0.
      destruct (Z.ltb_spec 0 maxRequests); [reflexivity | lia].
    + cbn [take]. rewrite requests_of_cons.
      rewrite (proj2 (eqb_eq _ _) eq_refl). simpl.
      eapply (serve_in_window _ _ _ (t1 + windowMs)); eauto.
      apply lookup_insert_eq.
  - intros m' req now e He Hlt. apply step_fresh.
    unfold RateLimitSpec.no_open_window. rewrite He. assumption.
  - reflexivity.
Qed.

(** Claim C10: with a limit of [maxRequests] (at least one), after any
    sequence of requests served from the empty store no entry counts more
    than [maxRequests]; a request that finds its entry at [maxRequests]
    inside the window is answered 429 and leaves the store as it was; and
    every request is either passed on or answered 429 with the store
    unchanged, so that a count only grows on a request that is passed on. *)
Theorem requestCounts_within_limit (maxRequests windowMs : Z)
    (reqs : list (Http.Request * Z)) :
  1 <= maxRequests ->
  (forall (id : JsString.t) (e : RateLimit.Entry),
     (RateLimit.serve maxRequests windowMs reqs ∅).2 !! id = Some e ->
     RateLimit.count e <= maxRequests) /\
  (forall (m : gmap JsString.t RateLimit.Entry) (req : Http.Request) (now : Z)
          (e : RateLimit.Entry),
     m !! RateLimit.identifier req = Some e -> now <= RateLimit.resetTime e ->
     RateLimit.count e = maxRequests ->
     RateLimit.rateLimitByOrigin maxRequests windowMs req now m
     = (Http.Responded 429 [] (Some RateLimit.too_many_body), m)) /\
  (forall (m : gmap JsString.t RateLimit.Entry) (req : Http.Request) (now : Z),
     (RateLimit.rateLimitByOrigin maxRequests windowMs req now m).1 = Http.Next [] \/
     RateLimit.rateLimitByOrigin maxRequests windowMs req now m
     = (Http.Responded 429 [] (Some RateLimit.too_many_body), m)).
Proof.
  intros HN. split; [|split].
  - intros id e He.
    pose proof (serve_within_limit maxRequests windowMs reqs ∅ HN) as H.
    unfold RateLimitSpec.within_limit in H. eapply (H (map_Forall_empty _) id e He).
  - intros m req now e He Hn Hc. eapply step_full; eauto. lia.
  - intros. apply step_cases.
Qed.

Lemma rateLimit_window_witness :
  (RateLimit.serve 2 1000 Sample.burst ∅).1 !! 1%nat = Some (Http.Next []) /\
  (RateLimit.serve 2 1000 Sample.burst ∅).1 !! 3%nat
  = Some (Http.Responded 429 [] (Some RateLimit.too_many_body)).
Proof.
  assert (H1 : (1 <= 2)%Z) by lia.
  assert (H2 : RateLimitSpec.no_open_window ∅ (js "203.0.113.7") 0).
  { unfold RateLimitSpec.no_open_window. rewrite lookup_empty. exact I. }
  assert (H3 : Forall (fun '(req, now) =>
                         RateLimit.identifier req = js "203.0.113.7" -> now <= 0 + 1000)
                      (tail Sample.burst)).
  { repeat constructor; intros; lia. }
  pose proof (proj1 (rateLimit_window 2 1000 (js "203.0.113.7") ∅
                       (Sample.visitor "203.0.113.7") 0 (tail Sample.burst)
                       H1 eq_refl H2 H3)) as H.
  split.
  - exact (H 1%nat (Sample.visitor "203.0.113.7") 10 eq_refl eq_refl).
  - exact (H 3%nat (Sample.visitor "203.0.113.7") 1000 eq_refl eq_refl).
Defined.

Lemma requestCounts_within_limit_witness :
  (RateLimit.serve 2 1000 Sample.burst ∅).2 !! js "203.0.113.7"
  = Some {| RateLimit.count := 2; RateLimit.resetTime := 1000 |} /\
  RateLimit.count {| RateLimit.count := 2; RateLimit.resetTime := 1000 |} <= 2.
Proof.
  assert (H : (RateLimit.serve 2 1000 Sample.burst ∅).2 !! js "203.0.113.7"
              = Some {| RateLimit.count := 2; RateLimit.resetTime := 1000 |}).
  { vm_compute. reflexivity. }
  split; [exact H|].
  exact (proj1 (requestCounts_within_limit 2 1000 Sample.burst ltac:(lia)) _ _ H).
Defined.

(** ** Numbers *)

Section NumberFacts.
Import JsNumber.

(** The sign bit of a finite number is the sign of its value. *)
Lemma finite_value_sign (s : bool) (m : positive) (e : Z) (q : Q) :
  to_Q (S754_finite s m e) = Some q ->
  if s then (q < 0)%Q else (0 < q)%Q.
Proof.
  simpl. intros [= <-].
  destruct (Z.leb_spec 0 e) as [He|He].
  - pose proof (Z.pow_pos_nonneg 2 e ltac:(lia) He) as Hp.
    destruct s; unfold Qlt; simpl; nia.
  - destruct s; unfold Qlt; simpl; lia.
Qed.

Lemma leb_zero_spec (x : JsNumber.t) :
  leb x zero = true <-> zero_or_negative x.
Proof.
  unfold zero_or_negative, leb, SFleb, zero.
  destruct x as [s|s| |s m e].
  - simpl. split; [|reflexivity]. intros _. left. exists 0%Q.
    split; [reflexivity | apply Qle_refl].
  - destruct s; simpl; split; try discriminate; auto.
    intros [(q & H & _)|H]; discriminate.
  - simpl. split; [discriminate|]. intros [(q & H & _)|H]; discriminate.
  - destruct (to_Q (S754_finite s m e)) as [q|] eqn:Hq; [|discriminate].
    pose proof (finite_value_sign _ _ _ _ Hq) as Hs.
    destruct s; cbn [SFcompare]; split; try discriminate; try reflexivity.
    + intros _. left. exists q. split; [reflexivity | apply Qlt_le_weak, Hs].
    + intros [(q' & [= <-] & Hle)|H]; [|discriminate].
      exfalso. eapply Qlt_irrefl, Qlt_le_trans; eauto.
Qed.

Lemma positive_spec (x : JsNumber.t) :
  truthy x = true /\ leb x zero = false <-> strictly_positive x.
Proof.
  unfold strictly_positive, leb, SFleb, zero.
  destruct x as [s|s| |s m e].
  - simpl. split; [intros [? _]; discriminate|].
    intros [(q & [= <-] & Hq)|H]; [|discriminate].
    exfalso. eapply Qlt_irrefl, Hq.
  - destruct s; simpl; split; auto; try (intros [_ ?]; discriminate).
    intros [(q & H & _)|H]; discriminate.
  - simpl. split; [intros [? _]; discriminate|].
    intros [(q & H & _)|H]; discriminate.
  - destruct (to_Q (S754_finite s m e)) as [q|] eqn:Hq; [|discriminate].
    pose proof (finite_value_sign _ _ _ _ Hq) as Hs.
    destruct s; cbn [SFcompare truthy]; split; auto; try (intros [_ ?]; discriminate).
    + intros [(q' & [= <-] & Hlt)|H]; [|discriminate].
      exfalso. eapply Qlt_irrefl, Qlt_trans; eauto.
    + intros _. left. exists q. split; [reflexivity | assumption].
Qed.
End NumberFacts.

(** ** The product controllers *)

(** Name the answer of the backend to the call under consideration. *)
Ltac answer :=
  match goal with
  | |- context [Supabase.run_select_by_id ?be ?c ?i ?b] =>
      destruct (Supabase.run_select_by_id be c i b) as [? ?] eqn:?
  | |- context [Supabase.run_delete ?be ?c ?i ?b] =>
      destruct (Supabase.run_delete be c i b) as [? ?] eqn:?
  | |- context [Supabase.run_insert ?be ?c ?r ?b] =>
      destruct (Supabase.run_insert be c r b) as [? ?] eqn:?
  | |- context [Supabase.run_update ?be ?c ?i ?p ?b] =>
      destruct (Supabase.run_update be c i p b) as [? ?] eqn:?
  | |- context [Supabase.getUser ?be ?c ?b] =>
      destruct (Supabase.getUser be c b) as [? ?] eqn:?
  end; simpl.

Section ControllerProofs.

Import Supabase Http Api ControllerSpec.

Variable StringToNumber : JsString.t -> JsNumber.t.

Context {B : Type} (backend : Oracle B).

(** Every path of [deleteProduct]. *)
Lemma deleteProduct_run (req : AuthenticatedRequest) (b : B) :
  let id := JsGlobal.parseInt10 (params_id req) in
  let lookup := CallSelectById (supabaseService.client_for (accessToken req)) id in
  let delete := CallDelete (Authenticated (accessToken req)) id in
  if productController.invalid_id id then
    run (productController.deleteProduct backend req) b
    = (productController.invalid_id_response, [])
  else
    match existing_row backend req b with
    | None =>
        run (productController.deleteProduct backend req) b
        = (productController.not_found_response id, [lookup])
    | Some _ =>
        (run (productController.deleteProduct backend req) b).2 = [lookup; delete]
    end.
Proof.
  cbv zeta. unfold productController.deleteProduct, existing_row.
  destruct (productController.invalid_id _); [reflexivity|].
  unfold run, bind, supabaseService.getProductById, supabaseService.deleteProduct,
    bind, issue, ret. simpl.
  answer.
  destruct (supabaseService.data (supabaseService.settle None _)); [|reflexivity].
  answer. destruct (supabaseService.error _); reflexivity.
Qed.

(** Every path of [createProduct]. *)
Lemma createProduct_run (req : AuthenticatedRequest) (b : B) :
  match body req with
  | None =>
      exists r,
        run (productController.createProduct StringToNumber backend req) b = (r, [])
        /\ status r = 500
  | Some productData =>
      match acceptable StringToNumber productData with
      | Some true =>
          let client := Authenticated (accessToken req) in
          let answer := (run_insert backend client [productData] b).1 in
          run (productController.createProduct StringToNumber backend req) b
          = (match supabaseService.error (supabaseService.settle None answer) with
             | Some error =>
                 respond 500 "Failed to create product"
                   (message_or error "Internal server error")
             | None =>
                 {| status := 201;
                    json := DataJson
                              (productController.first_row
                                 (supabaseService.data (supabaseService.settle None answer)))
                              (Text "Product created successfully") |}
             end,
             [CallInsert client [productData]])
      | Some false =>
          exists r,
            run (productController.createProduct StringToNumber backend req) b = (r, [])
            /\ status r = 400
      | None =>
          exists r,
            run (productController.createProduct StringToNumber backend req) b = (r, [])
            /\ status r = 500
      end
  end.
Proof.
  unfold productController.createProduct, acceptable.
  destruct (body req) as [productData|]; [|eexists; split; reflexivity].
  destruct (Json.truthy (title productData)); cbn [negb orb andb];
    [|eexists; split; reflexivity].
  destruct (Json.truthy (author productData)); cbn [negb orb andb];
    [|eexists; split; reflexivity].
  destruct (Json.truthy (price productData)); cbn [negb orb andb];
    [|eexists; split; reflexivity].
  destruct (Json.le_zero StringToNumber (price productData)) as [[|]|]; cbn [negb];
    try (eexists; split; reflexivity).
  unfold run, bind, supabaseService.createProduct, bind, issue, ret. simpl.
  answer. destruct (supabaseService.error _); reflexivity.
Qed.

(** What passing the tests of [createProduct] says of the body. *)
Lemma acceptable_spec (productData : CreateProductData) :
  acceptable StringToNumber productData = Some true
  <-> Json.truthy (title productData) = true
      /\ Json.truthy (author productData) = true
      /\ Json.truthy (price productData) = true
      /\ Json.le_zero StringToNumber (price productData) = Some false.
Proof.
  unfold acceptable.
  destruct (Json.truthy (title productData)), (Json.truthy (author productData)),
    (Json.truthy (price productData)); cbn [andb];
    try (split; [discriminate | intros (? & ? & ? & _); discriminate]).
  destruct (Json.le_zero StringToNumber (price productData)) as [[|]|]; cbn [negb];
    split; try discriminate; try (intros (_ & _ & _ & ?); discriminate); auto.
Qed.

(** A price that is a number passes the tests exactly when it is
    strictly greater than zero. *)
Lemma numeric_price_spec (p : JsNumber.t) :
  Json.truthy (Json.JNumber p) = true
  /\ Json.le_zero StringToNumber (Json.JNumber p) = Some false
  <-> JsNumber.strictly_positive p.
Proof.
  rewrite <- positive_spec. cbn [Json.truthy Json.le_zero Json.ToNumber].
  split; intros [Ht Hl]; (split; [exact Ht|]); congruence.
Qed.

(** A well-formed body passes the tests, whatever the conversion of
    strings. *)
Lemma well_formed_acceptable (productData : CreateProductData) :
  well_formed productData -> acceptable StringToNumber productData = Some true.
Proof.
  intros (t & a & p & Ht & Hne & Ha & Hna & Hp & Hpos).
  apply acceptable_spec. rewrite Ht, Ha, Hp.
  apply numeric_price_spec in Hpos as [Hpt Hpl].
  destruct t; [contradiction|]. destruct a; [contradiction|].
  repeat split; assumption.
Qed.

(** Every path of [updateProduct]. *)
Lemma updateProduct_run (req : AuthenticatedRequest) (b : B) :
  let id := JsGlobal.parseInt10 (params_id req) in
  let lookup := CallSelectById (supabaseService.client_for (accessToken req)) id in
  if productController.invalid_id id then
    run (productController.updateProduct StringToNumber backend req) b
    = (productController.invalid_id_response, [])
  else
    match body req with
    | None =>
        exists r,
          run (productController.updateProduct StringToNumber backend req) b = (r, [])
          /\ status r = 500
    | Some patch =>
        match productController.price_given_and_not_positive StringToNumber patch with
        | None =>
            exists r,
              run (productController.updateProduct StringToNumber backend req) b = (r, [])
              /\ status r = 500
        | Some true =>
            run (productController.updateProduct StringToNumber backend req) b
            = (productController.invalid_price_response, [])
        | Some false =>
            match existing_row backend req b with
            | None =>
                run (productController.updateProduct StringToNumber backend req) b
                = (productController.not_found_response id, [lookup])
            | Some _ =>
                exists r,
                  run (productController.updateProduct StringToNumber backend req) b
                  = (r, [lookup; CallUpdate (Authenticated (accessToken req)) id patch])
                  /\ (status r = 200 \/ status r = 500)
            end
        end
    end.
Proof.
  cbv zeta. unfold productController.updateProduct, existing_row. cbv zeta.
  destruct (productController.invalid_id _); [reflexivity|].
  destruct (body req) as [patch|]; [|eexists; split; reflexivity].
  destruct (productController.price_given_and_not_positive StringToNumber patch)
    as [[|]|]; [reflexivity | | eexists; split; reflexivity].
  unfold run, bind, supabaseService.getProductById, supabaseService.updateProduct,
    bind, issue, ret. simpl.
  answer.
  destruct (supabaseService.data (supabaseService.settle None _)); [|reflexivity].
  answer. destruct (supabaseService.error _); eexists; split; try reflexivity; auto.
Qed.

(** Every path of [updateProduct] that reaches the backend update. *)
Lemma updateProduct_calls (req : AuthenticatedRequest) (b : B) c i patch :
  List.In (CallUpdate c i patch)
    (run (productController.updateProduct StringToNumber backend req) b).2 ->
  body req = Some patch /\ i = JsGlobal.parseInt10 (params_id req) /\
  c = Authenticated (accessToken req) /\ existing_row backend req b <> None /\
  productController.invalid_id (JsGlobal.parseInt10 (params_id req)) = false /\
  productController.price_given_and_not_positive StringToNumber patch = Some false.
Proof.
  pose proof (updateProduct_run req b) as H. cbv zeta in H.
  destruct (productController.invalid_id _); [rewrite H; intros []|].
  destruct (body req) as [patch'|]; [|destruct H as (r & -> & _); intros []].
  destruct (productController.price_given_and_not_positive StringToNumber patch')
    as [[|]|] eqn:Hp;
    [rewrite H; intros [] | | destruct H as (r & -> & _); intros []].
  destruct (existing_row backend req b); [|rewrite H; intros [Hc|[]]; discriminate].
  destruct H as (r & -> & _). cbn [snd].
  intros [Hc|[Hc|[]]]; [discriminate|]. injection Hc as <- <- <-.
  repeat split; try reflexivity; [discriminate | exact Hp].
Qed.

End ControllerProofs.

(** Claim C6: for a DELETE request whose id parses to a positive number
    and whose existence check finds no row, the controller answers 404 and
    the only call it issues is the lookup; whenever a run of the controller
    issues the delete call, the id was valid and the existence check had
    found a row. *)
Theorem deleteProduct_missing_row {B : Type} (backend : Supabase.Oracle B)
    (req : Api.AuthenticatedRequest) (b : B) :
  (productController.invalid_id (JsGlobal.parseInt10 (Api.params_id req)) = false ->
   ControllerSpec.existing_row backend req b = None ->
   exists response,
     Supabase.run (productController.deleteProduct backend req) b
     = (response,
        [Supabase.CallSelectById (supabaseService.client_for (Api.accessToken req))
           (JsGlobal.parseInt10 (Api.params_id req))]) /\
     Api.status response = 404) /\
  (forall c i,
     List.In (Supabase.CallDelete c i)
       (Supabase.run (productController.deleteProduct backend req) b).2 ->
     productController.invalid_id (JsGlobal.parseInt10 (Api.params_id req)) = false /\
     ControllerSpec.existing_row backend req b <> None).
Proof.
  pose proof (deleteProduct_run backend req b) as H. cbv zeta in H.
  destruct (productController.invalid_id _).
  - rewrite H. split; [discriminate|]. intros c i [].
  - destruct (ControllerSpec.existing_row backend req b).
    + rewrite H. split; [discriminate|]. intros c i _. split; [reflexivity | discriminate].
    + rewrite H. split.
      * intros _ _. eexists. split; reflexivity.
      * intros c i [Hc|[]]. discriminate.
Qed.

Lemma deleteProduct_missing_row_witness :
  exists response,
    Supabase.run (productController.deleteProduct Sample.backend
                    (Sample.authenticated "admin-token" (Sample.account "ada" "admin") "42" None))
                 Sample.store
    = (response,
       [Supabase.CallSelectById (Supabase.Authenticated (Some (js "admin-token")))
          (JsNumber.of_Z 42)]) /\
    Api.status response = 404.
Proof.
  exact (proj1 (deleteProduct_missing_row Sample.backend
                  (Sample.authenticated "admin-token" (Sample.account "ada" "admin") "42" None)
                  Sample.store) eq_refl eq_refl).
Defined.

(** Claim C7, as written, fails for a price that is not a number: the
    body is cast to [CreateProductData] and not checked, and a price such
    as the string [abc] is truthy and is not less than or equal to zero
    (it converts to NaN), so it passes both tests although it is not
    greater than zero either. Here the insert is issued with that price and
    the answer is 201. *)
Lemma createProduct_inserts_non_numeric_price :
  Supabase.price (Sample.with_price (Json.JString (js "abc")) Sample.book)
  = Json.JString (js "abc") /\
  Json.ToNumber Sample.StringToNumber (Json.JString (js "abc")) = Some JsNumber.NaN /\
  JsNumber.gtb JsNumber.NaN JsNumber.zero = false /\
  (Supabase.run
     (productController.createProduct Sample.StringToNumber Sample.backend
        (Sample.authenticated "admin-token" (Sample.account "ada" "admin") ""
           (Some (Sample.with_price (Json.JString (js "abc")) Sample.book))))
     Sample.store).2
  = [Supabase.CallInsert (Supabase.Authenticated (Some (js "admin-token")))
       [Sample.with_price (Json.JString (js "abc")) Sample.book]] /\
  Api.status
    (Supabase.run
       (productController.createProduct Sample.StringToNumber Sample.backend
          (Sample.authenticated "admin-token" (Sample.account "ada" "admin") ""
             (Some (Sample.with_price (Json.JString (js "abc")) Sample.book))))
       Sample.store).1 = 201.
Proof. repeat split. Qed.

(** Claim C7, amended: a POST whose price is a number that is zero or
    negative is answered 400 and the controller issues no call to the
    backend. The insert call is issued, and 201 is answered, only for a
    body whose title, author and price are truthy and whose price is not
    less than or equal to zero, which for a price that is a number means
    strictly greater than zero; and for every such body the insert is
    issued, with the body as its only row. The type of the price is not
    checked. *)
Theorem createProduct_price_must_be_positive
    (StringToNumber : JsString.t -> JsNumber.t)
    {B : Type} (backend : Supabase.Oracle B)
    (req : Api.AuthenticatedRequest) (b : B) :
  (forall productData p,
     Api.body req = Some productData ->
     Supabase.price productData = Json.JNumber p -> JsNumber.zero_or_negative p ->
     exists response,
       Supabase.run (productController.createProduct StringToNumber backend req) b
       = (response, []) /\
       Api.status response = 400) /\
  ((exists c rows,
      List.In (Supabase.CallInsert c rows)
        (Supabase.run (productController.createProduct StringToNumber backend req) b).2)
   \/ Api.status (Supabase.run (productController.createProduct StringToNumber backend req)
                    b).1 = 201 ->
   exists productData,
     Api.body req = Some productData /\
     Json.truthy (Supabase.title productData) = true /\
     Json.truthy (Supabase.author productData) = true /\
     Json.truthy (Supabase.price productData) = true /\
     Json.le_zero StringToNumber (Supabase.price productData) = Some false /\
     forall p, Supabase.price productData = Json.JNumber p -> JsNumber.strictly_positive p) /\
  (forall productData,
     Api.body req = Some productData ->
     Json.truthy (Supabase.title productData) = true ->
     Json.truthy (Supabase.author productData) = true ->
     Json.truthy (Supabase.price productData) = true ->
     Json.le_zero StringToNumber (Supabase.price productData) = Some false ->
     exists response,
       Supabase.run (productController.createProduct StringToNumber backend req) b
       = (response,
          [Supabase.CallInsert (Supabase.Authenticated (Api.accessToken req)) [productData]])
       /\ (Api.status response = 201 \/ Api.status response = 500)).
Proof.
  pose proof (createProduct_run StringToNumber backend req b) as H.
  destruct (Api.body req) as [productData|].
  - destruct (ControllerSpec.acceptable StringToNumber productData) as [[|]|] eqn:Hacc.
    + pose proof (proj1 (acceptable_spec StringToNumber productData) Hacc)
        as (Ht & Ha & Hp & Hl).
      split; [|split].
      * intros d p [= <-] Hp' Hneg. exfalso.
        apply leb_zero_spec in Hneg. rewrite Hp' in Hl.
        cbn [Json.le_zero Json.ToNumber] in Hl. congruence.
      * intros _. exists productData. repeat split; try assumption.
        intros p Hp'. apply (numeric_price_spec StringToNumber).
        rewrite <- Hp'. split; assumption.
      * intros d [= <-] _ _ _ _. cbv zeta in H. rewrite H.
        eexists. split; [reflexivity|].
        destruct (supabaseService.error _); [right | left]; reflexivity.
    + destruct H as (r & Hr & Hs). rewrite Hr. split; [|split].
      * intros d p _ _ _. exists r. split; [reflexivity | assumption].
      * intros [(c & rows & [])|H201]. cbn [fst] in H201. congruence.
      * intros d [= <-] Ht Ha Hp Hl. exfalso.
        rewrite (proj2 (acceptable_spec StringToNumber productData)) in Hacc by auto.
        discriminate.
    + destruct H as (r & Hr & Hs). rewrite Hr. split; [|split].
      * intros d p [= <-] Hp' _. exfalso. unfold ControllerSpec.acceptable in Hacc.
        rewrite Hp' in Hacc. cbn [Json.le_zero Json.ToNumber] in Hacc.
        destruct (_ && _); discriminate.
      * intros [(c & rows & [])|H201]. cbn [fst] in H201. congruence.
      * intros d [= <-] Ht Ha Hp Hl. exfalso.
        rewrite (proj2 (acceptable_spec StringToNumber productData)) in Hacc by auto.
        discriminate.
  - destruct H as (r & Hr & Hs). rewrite Hr. split; [|split].
    + intros d p [=].
    + intros [(c & rows & [])|H201]. cbn [fst] in H201. congruence.
    + intros d [=].
Qed.

Lemma createProduct_price_must_be_positive_witness :
  exists response,
    Supabase.run (productController.createProduct Sample.StringToNumber Sample.backend
                    (Sample.authenticated "admin-token" (Sample.account "ada" "admin") ""
                       (Some (Sample.with_price (Json.JNumber (JsNumber.of_Z (-5)))
                                Sample.book))))
                 Sample.store
    = (response, []) /\
    Api.status response = 400.
Proof.
  refine (proj1 (createProduct_price_must_be_positive Sample.StringToNumber Sample.backend
                   (Sample.authenticated "admin-token" (Sample.account "ada" "admin") ""
                      (Some (Sample.with_price (Json.JNumber (JsNumber.of_Z (-5)))
                               Sample.book)))
                   Sample.store) _ (JsNumber.of_Z (-5)) eq_refl eq_refl _).
  left. eexists. split; [reflexivity|]. vm_compute. discriminate.
Defined.

(** Claim C9: on the write path the body of the request reaches the
    backend as it was parsed. A body that passes the tests of
    [createProduct] is inserted as the only row of the insert call, and a
    body that passes the price test of [updateProduct], for a valid id and
    an existing row, is the patch of the update call; conversely every
    insert and every update the controllers issue carries the body of the
    request itself. No sanitiser of [ValidationUtils] is applied on the
    way: a description with an event-handler attribute and a price of
    10.005 are inserted, and applied as a patch, as submitted, although
    [sanitizeHtml] would alter the former and [sanitizeNumber] would round
    the latter to 10.01. *)
Theorem controllers_forward_body_unchanged
    (StringToNumber : JsString.t -> JsNumber.t)
    {B : Type} (backend : Supabase.Oracle B)
    (req : Api.AuthenticatedRequest) (b : B) :
  (forall productData,
     Api.body req = Some productData ->
     Json.truthy (Supabase.title productData) = true ->
     Json.truthy (Supabase.author productData) = true ->
     Json.truthy (Supabase.price productData) = true ->
     Json.le_zero StringToNumber (Supabase.price productData) = Some false ->
     (Supabase.run (productController.createProduct StringToNumber backend req) b).2
     = [Supabase.CallInsert (Supabase.Authenticated (Api.accessToken req)) [productData]]) /\
  (forall patch,
     Api.body req = Some patch ->
     productController.invalid_id (JsGlobal.parseInt10 (Api.params_id req)) = false ->
     productController.price_given_and_not_positive StringToNumber patch = Some false ->
     ControllerSpec.existing_row backend req b <> None ->
     (Supabase.run (productController.updateProduct StringToNumber backend req) b).2
     = [Supabase.CallSelectById (supabaseService.client_for (Api.accessToken req))
          (JsGlobal.parseInt10 (Api.params_id req));
        Supabase.CallUpdate (Supabase.Authenticated (Api.accessToken req))
          (JsGlobal.parseInt10 (Api.params_id req)) patch]) /\
  (forall c rows,
     List.In (Supabase.CallInsert c rows)
       (Supabase.run (productController.createProduct StringToNumber backend req) b).2 ->
     exists productData, Api.body req = Some productData /\ rows = [productData]) /\
  (forall c i patch,
     List.In (Supabase.CallUpdate c i patch)
       (Supabase.run (productController.updateProduct StringToNumber backend req) b).2 ->
     Api.body req = Some patch) /\
  (Api.body req = Some Sample.book ->
   (Supabase.run (productController.createProduct StringToNumber backend req) b).2
   = [Supabase.CallInsert (Supabase.Authenticated (Api.accessToken req)) [Sample.book]]) /\
  (Api.body req = Some Sample.book ->
   productController.invalid_id (JsGlobal.parseInt10 (Api.params_id req)) = false ->
   ControllerSpec.existing_row backend req b <> None ->
   List.In (Supabase.CallUpdate (Supabase.Authenticated (Api.accessToken req))
              (JsGlobal.parseInt10 (Api.params_id req)) Sample.book)
     (Supabase.run (productController.updateProduct StringToNumber backend req) b).2) /\
  (forall parse,
     Supabase.description Sample.book = Json.JString (js "<img src=x onerror=alert(1)>") /\
     ValidationUtils.sanitizeHtml (JsValue.VString (js "<img src=x onerror=alert(1)>"))
     <> js "<img src=x onerror=alert(1)>" /\
     Supabase.price Sample.book = Json.JNumber (JsNumber.decimal 10005 3) /\
     ValidationUtils.sanitizeNumber parse (JsValue.VNumber (JsNumber.decimal 10005 3))
     = Some (JsNumber.decimal 1001 2) /\
     JsNumber.decimal 1001 2 <> JsNumber.decimal 10005 3).
Proof.
  assert (Hcreate : forall productData,
            Api.body req = Some productData ->
            ControllerSpec.acceptable StringToNumber productData = Some true ->
            (Supabase.run (productController.createProduct StringToNumber backend req) b).2
            = [Supabase.CallInsert (Supabase.Authenticated (Api.accessToken req))
                 [productData]]).
  { intros productData Hb Hacc.
    pose proof (createProduct_run StringToNumber backend req b) as H.
    rewrite Hb, Hacc in H. cbv zeta in H. rewrite H. reflexivity. }
  assert (Hupdate : forall patch,
            Api.body req = Some patch ->
            productController.invalid_id (JsGlobal.parseInt10 (Api.params_id req)) = false ->
            productController.price_given_and_not_positive StringToNumber patch = Some false ->
            ControllerSpec.existing_row backend req b <> None ->
            (Supabase.run (productController.updateProduct StringToNumber backend req) b).2
            = [Supabase.CallSelectById (supabaseService.client_for (Api.accessToken req))
                 (JsGlobal.parseInt10 (Api.params_id req));
               Supabase.CallUpdate (Supabase.Authenticated (Api.accessToken req))
                 (JsGlobal.parseInt10 (Api.params_id req)) patch]).
  { intros patch Hb Hid Hp Hrow.
    pose proof (updateProduct_run StringToNumber backend req b) as H. cbv zeta in H.
    rewrite Hid, Hb, Hp in H.
    destruct (ControllerSpec.existing_row backend req b); [|contradiction].
    destruct H as (r & -> & _). reflexivity. }
  split; [|split; [|split; [|split; [|split; [|split]]]]].
  - intros productData Hb Ht Ha Hp Hl. apply Hcreate; [exact Hb|].
    apply acceptable_spec. auto.
  - exact Hupdate.
  - pose proof (createProduct_run StringToNumber backend req b) as H. intros c rows.
    destruct (Api.body req) as [productData|].
    + destruct (ControllerSpec.acceptable StringToNumber productData) as [[|]|].
      * rewrite H. simpl. intros [[= <- <-]|[]]. eauto.
      * destruct H as (r & -> & _). intros [].
      * destruct H as (r & -> & _). intros [].
    + destruct H as (r & -> & _). intros [].
  - intros c i patch H. apply updateProduct_calls in H. tauto.
  - intros Hb. apply Hcreate; [exact Hb | reflexivity].
  - intros Hb Hid Hrow. rewrite (Hupdate Sample.book Hb Hid eq_refl Hrow).
    right. left. reflexivity.
  - intros parse. repeat split; try reflexivity; vm_compute; discriminate.
Qed.

Lemma controllers_forward_body_unchanged_witness :
  (Supabase.run
     (productController.updateProduct Sample.StringToNumber Sample.backend
        (Sample.authenticated "admin-token" (Sample.account "ada" "admin") "1"
           (Some Sample.book)))
     Sample.store).2
  = [Supabase.CallSelectById (Supabase.Authenticated (Some (js "admin-token")))
       (JsNumber.of_Z 1);
     Supabase.CallUpdate (Supabase.Authenticated (Some (js "admin-token")))
       (JsNumber.of_Z 1) Sample.book].
Proof.
  refine (proj1 (proj2 (controllers_forward_body_unchanged Sample.StringToNumber
                          Sample.backend
                          (Sample.authenticated "admin-token" (Sample.account "ada" "admin")
                             "1" (Some Sample.book))
                          Sample.store))
            Sample.book eq_refl eq_refl eq_refl _).
  vm_compute. discriminate.
Defined.

(** ** The admin gate *)

Section AdminGate.

Import Supabase Http Api AuthMiddleware.

Lemma strict_eq_string_spec (v : JsValue.t) (s : JsString.t) :
  JsValue.strict_eq_string v s = true <-> v = JsValue.VString s.
Proof.
  destruct v; simpl; try (split; [discriminate | intros [=]]).
  unfold JsString.eqb. rewrite bool_decide_eq_true. split; congruence.
Qed.

Lemma strip_prefix_app (p s : JsString.t) : JsString.strip_prefix p (p ++ s) = Some s.
Proof.
  induction p as [|a p IH]; simpl; [reflexivity|].
  rewrite N.eqb_refl. exact IH.
Qed.

Lemma requireAdmin_cases (req : AuthenticatedRequest) :
  match user req with
  | None => requireAdmin req = inl (respond 401 "Unauthorized" (Text "Authentication required"))
  | Some u =>
      (userRole u = JsValue.VString (js "admin") -> requireAdmin req = inr req) /\
      (userRole u <> JsValue.VString (js "admin") ->
       requireAdmin req = inl (respond 403 "Forbidden" (Text "Admin access required")))
  end.
Proof.
  unfold requireAdmin. destruct (user req) as [u|]; [|reflexivity].
  cbv zeta.
  destruct (JsValue.strict_eq_string (userRole u) (js "admin")) eqn:E; simpl.
  - apply strict_eq_string_spec in E. split; [reflexivity | contradiction].
  - split; [|reflexivity]. intros H. apply strict_eq_string_spec in H. congruence.
Qed.

Context {B : Type} (backend : Oracle B).

(** A bearer token that the identity service resolves to a user gets the
    request through [requireAuth], with the user and the token attached. *)
Lemma requireAuth_verified (req : AuthenticatedRequest) (token : JsString.t)
    (u : User) (w : World B) (b' : B) :
  authorization req = Some (js "Bearer " ++ token) ->
  getUser backend (Authenticated (Some token)) (backend_state w) = (Returned (Some u) None, b') ->
  requireAuth backend req w
  = (inr {| authorization := authorization req; params_id := params_id req;
            body := body req; user := Some u; accessToken := Some token |},
     {| backend_state := b';
        calls := calls w ++ [CallGetUser (Authenticated (Some token))] |}).
Proof.
  intros Ha Hu. unfold requireAuth. rewrite Ha, strip_prefix_app.
  unfold bind, supabaseService.verifyToken, bind, issue, ret. rewrite Hu. reflexivity.
Qed.

End AdminGate.

(** Claim C5: [requireAdmin] answers 401 when no user is attached to the
    request; otherwise the role is [user_metadata.role], or
    [app_metadata.role] when the former is missing or falsy, and the
    middleware answers 403 unless that role is the string [admin], in which
    case it calls [next]. On POST /products, a token the identity service
    resolves to a user who is not an admin is answered 403 before the
    controller runs (no insert is issued); with the role [admin], a body
    with title, author and a positive price, and an insert the backend
    accepts, the answer is 201 with the inserted row. *)
Theorem requireAdmin_gate (StringToNumber : JsString.t -> JsNumber.t)
    {B : Type} (backend : Supabase.Oracle B) :
  (forall req, Api.user req = None ->
     exists response, AuthMiddleware.requireAdmin req = inl response /\
                      Api.status response = 401) /\
  (forall u,
     AuthMiddleware.userRole u
     = if JsValue.truthy (AuthMiddleware.role_of (Supabase.user_metadata u))
       then AuthMiddleware.role_of (Supabase.user_metadata u)
       else AuthMiddleware.role_of (Supabase.app_metadata u)) /\
  (forall req u, Api.user req = Some u ->
     (AuthMiddleware.userRole u <> JsValue.VString (js "admin") ->
      exists response, AuthMiddleware.requireAdmin req = inl response /\
                       Api.status response = 403) /\
     (AuthMiddleware.userRole u = JsValue.VString (js "admin") ->
      AuthMiddleware.requireAdmin req = inr req)) /\
  (forall req token u (b b' : B),
     Api.authorization req = Some (js "Bearer " ++ token) ->
     Supabase.getUser backend (Supabase.Authenticated (Some token)) b
     = (Supabase.Returned (Some u) None, b') ->
     (AuthMiddleware.userRole u <> JsValue.VString (js "admin") ->
      exists response,
        Supabase.run (ProductRoutes.post_products StringToNumber backend req) b
        = (response, [Supabase.CallGetUser (Supabase.Authenticated (Some token))]) /\
        Api.status response = 403) /\
     (AuthMiddleware.userRole u = JsValue.VString (js "admin") ->
      forall productData rows (b'' : B),
        Api.body req = Some productData ->
        ControllerSpec.well_formed productData ->
        Supabase.run_insert backend (Supabase.Authenticated (Some token)) [productData] b'
        = (Supabase.Returned rows None, b'') ->
        Supabase.run (ProductRoutes.post_products StringToNumber backend req) b
        = ({| Api.status := 201;
              Api.json := Api.DataJson (productController.first_row rows)
                            (Http.Text "Product created successfully") |},
           [Supabase.CallGetUser (Supabase.Authenticated (Some token));
            Supabase.CallInsert (Supabase.Authenticated (Some token)) [productData]]))).
Proof.
  split; [|split; [|split]].
  - intros req Hu. pose proof (requireAdmin_cases req) as H. rewrite Hu in H.
    eexists. split; [exact H | reflexivity].
  - intros u. reflexivity.
  - intros req u Hu. pose proof (requireAdmin_cases req) as H. rewrite Hu in H.
    destruct H as [Hadmin Hother]. split.
    + intros Hr. eexists. split; [exact (Hother Hr) | reflexivity].
    + exact Hadmin.
  - intros req token u b b' Ha Hg.
    set (req1 := {| Api.authorization := Api.authorization req;
                    Api.params_id := Api.params_id req; Api.body := Api.body req;
                    Api.user := Some u; Api.accessToken := Some token |}).
    assert (Hauth : forall w, Supabase.backend_state w = b ->
              AuthMiddleware.requireAuth backend req w
              = (inr req1,
                 {| Supabase.backend_state := b';
                    Supabase.calls := Supabase.calls w
                      ++ [Supabase.CallGetUser (Supabase.Authenticated (Some token))] |})).
    { intros w Hw. apply requireAuth_verified; [assumption | rewrite Hw; assumption]. }
    pose proof (requireAdmin_cases req1) as Hgate. simpl in Hgate.
    destruct Hgate as [Hadmin Hother].
    unfold Supabase.run, ProductRoutes.post_products, ProductRoutes.guarded, Supabase.bind.
    rewrite Hauth by reflexivity. split.
    + intros Hr. rewrite (Hother Hr). eexists. split; reflexivity.
    + intros Hr productData rows b'' Hb Hwf Hins. rewrite (Hadmin Hr).
      apply (well_formed_acceptable StringToNumber) in Hwf.
      apply acceptable_spec in Hwf as (Ht & Hau & Hn & Hp).
      unfold productController.createProduct. simpl. rewrite Hb, Ht, Hau, Hn, Hp. simpl.
      unfold Supabase.bind, supabaseService.createProduct, Supabase.bind, Supabase.issue,
        Supabase.ret. simpl. rewrite Hins. reflexivity.
Qed.

Lemma requireAdmin_gate_witness :
  (exists response,
     Supabase.run (ProductRoutes.post_products Sample.StringToNumber Sample.backend
                     (Sample.request (Some "Bearer user-token"%string) "" (Some Sample.book)))
                  Sample.store
     = (response, [Supabase.CallGetUser (Supabase.Authenticated (Some (js "user-token")))]) /\
     Api.status response = 403) /\
  Api.status
    (Supabase.run (ProductRoutes.post_products Sample.StringToNumber Sample.backend
                     (Sample.request (Some "Bearer admin-token"%string) "" (Some Sample.book)))
                  Sample.store).1 = 201.
Proof.
  pose proof (proj2 (proj2 (proj2 (requireAdmin_gate Sample.StringToNumber
                                     Sample.backend)))) as H.
  split.
  - refine (proj1 (H (Sample.request (Some "Bearer user-token"%string) "" (Some Sample.book))
                     (js "user-token") (Sample.account "bob" "user")
                     Sample.store Sample.store eq_refl eq_refl) _).
    discriminate.
  - assert (Hwf : ControllerSpec.well_formed Sample.book).
    { exists (js "Dune"), (js "Frank Herbert"), (JsNumber.decimal 10005 3).
      repeat split; try discriminate. left. eexists. split; [reflexivity|].
      vm_compute. reflexivity. }
    rewrite (proj2 (H (Sample.request (Some "Bearer admin-token"%string) "" (Some Sample.book))
                      (js "admin-token") (Sample.account "ada" "admin")
                      Sample.store Sample.store eq_refl eq_refl)
                   eq_refl Sample.book _ _ eq_refl Hwf eq_refl).
    reflexivity.
Defined.

(** ** The numeric sanitiser *)

Section Binary64.
Import JsNumber SanitizerSpec.

(** The number of binary digits of a mantissa brackets it between two
    powers of two. *)
Lemma digits2_pos_bounds (m : positive) :
  2 ^ (Z.pos (digits2_pos m) - 1) <= Z.pos m < 2 ^ Z.pos (digits2_pos m).
Proof.
  induction m as [m IH|m IH|]; cbn [digits2_pos].
  - rewrite Pos2Z.inj_succ.
    replace (Z.succ (Z.pos (digits2_pos m)) - 1) with (Z.succ (Z.pos (digits2_pos m) - 1)) by lia.
    rewrite !Z.pow_succ_r by lia. lia.
  - rewrite Pos2Z.inj_succ.
    replace (Z.succ (Z.pos (digits2_pos m)) - 1) with (Z.succ (Z.pos (digits2_pos m) - 1)) by lia.
    rewrite !Z.pow_succ_r by lia. lia.
  - simpl. lia.
Qed.

(** What canonical form says about a finite binary64 value: the mantissa
    is below 2^53, and above the smallest exponent it has exactly 53
    digits. *)
Lemma valid_finite (s : bool) (m : positive) (e : Z) :
  valid (S754_finite s m e) ->
  Z.pos m < 2 ^ 53 /\ (-1074 < e -> 2 ^ 52 <= Z.pos m) /\ -1074 <= e.
Proof.
  unfold valid, valid_binary, bounded, canonical_mantissa, fexp, emin, prec, emax.
  intros H. apply andb_true_iff in H as [H _]. apply Z.eqb_eq in H.
  pose proof (digits2_pos_bounds m) as [Hlo Hhi].
  set (d := Z.pos (digits2_pos m)) in *.
  assert (Hd : d <= 53) by lia.
  split; [|split].
  - eapply Z.lt_le_trans; [exact Hhi|]. apply Z.pow_le_mono_r; lia.
  - intros He. assert (d = 53) as Hd53 by lia. rewrite Hd53 in Hlo. exact Hlo.
  - lia.
Qed.

Lemma of_Z_limit : of_Z limit = S754_finite false 8388607991611392 (-23).
Proof. reflexivity. Qed.

Lemma of_Z_neg_limit : of_Z (- limit) = S754_finite true 8388607991611392 (-23).
Proof. reflexivity. Qed.

(** The value of a positive finite number against the limit, by
    exponent. *)
Lemma magnitude_vs_limit (m : positive) (e : Z) :
  valid (S754_finite false m e) ->
  match Z.compare (-23) e with
  | Lt => limit * (if 0 <=? e then 1 else 2 ^ (- e)) < Z.pos m * (if 0 <=? e then 2 ^ e else 1)
  | Eq => True
  | Gt => Z.pos m * (if 0 <=? e then 2 ^ e else 1) < limit * (if 0 <=? e then 1 else 2 ^ (- e))
  end.
Proof.
  intros Hv. apply valid_finite in Hv as (Hhi & Hlo & Hmin).
  destruct (Z.compare_spec (-23) e) as [He|He|He]; [exact I| |].
  - specialize (Hlo ltac:(lia)).
    destruct (Z.leb_spec 0 e) as [H0|H0].
    + pose proof (Z.pow_pos_nonneg 2 e ltac:(lia) H0). unfold limit.
      assert (2 ^ 52 = 4503599627370496) by reflexivity. nia.
    + assert (2 ^ (- e) <= 2 ^ 22) by (apply Z.pow_le_mono_r; lia).
      assert (2 ^ 22 = 4194304) by reflexivity.
      assert (2 ^ 52 = 4503599627370496) by reflexivity.
      unfold limit. nia.
  - destruct (Z.leb_spec 0 e) as [H0|H0]; [lia|].
    assert (2 ^ 24 <= 2 ^ (- e)) by (apply Z.pow_le_mono_r; lia).
    assert (2 ^ 24 = 16777216) by reflexivity.
    assert (2 ^ 53 = 9007199254740992) by reflexivity.
    unfold limit. nia.
Qed.

Lemma to_Q_finite (s : bool) (m : positive) (e : Z) :
  to_Q (S754_finite s m e)
  = Some (if 0 <=? e then inject_Z ((if s then Z.neg m else Z.pos m) * 2 ^ e)
          else Qmake (if s then Z.neg m else Z.pos m) (Z.to_pos (2 ^ (- e)))).
Proof. reflexivity. Qed.

Lemma pow2_to_pos (k : Z) : 0 <= k -> Z.pos (Z.to_pos (2 ^ k)) = 2 ^ k.
Proof. intros Hk. apply Z2Pos.id. apply Z.pow_pos_nonneg; lia. Qed.

(** [num > 999999999] decides the comparison of the exact values. *)
Lemma gtb_limit_spec (x : JsNumber.t) (q : Q) :
  valid x -> to_Q x = Some q ->
  (gtb x (of_Z limit) = true <-> (inject_Z limit < q)%Q).
Proof.
  intros Hv Hq. rewrite of_Z_limit. unfold gtb, SFltb.
  destruct x as [s|s| |s m e]; try discriminate.
  - injection Hq as <-. simpl. split; [discriminate|]. unfold Qlt, limit. simpl. lia.
  - rewrite to_Q_finite in Hq. injection Hq as <-.
    destruct s.
    + cbn [SFcompare]. split; [discriminate|].
      destruct (Z.leb_spec 0 e) as [H0|H0]; unfold Qlt, limit; simpl.
      * pose proof (Z.pow_pos_nonneg 2 e ltac:(lia) H0). nia.
      * lia.
    + pose proof (magnitude_vs_limit m e Hv) as Hmag.
      cbn [SFcompare].
      destruct (Z.compare_spec (-23) e) as [He|He|He].
      * subst e. change (0 <=? -23) with false. cbv iota.
        rewrite Pos.compare_cont_spec. cbn [Pos.switch_Eq].
        unfold Qlt, limit. cbn [Qnum Qden inject_Z].
        change (Z.pos (Z.to_pos (2 ^ (- -23)))) with 8388608.
        clear Hv Hmag.
        destruct (Pos.compare_spec 8388607991611392 m) as [Hc|Hc|Hc]; cbn [Pos.switch_Eq].
        -- subst m. split; [discriminate|]. intros H. vm_compute in H. discriminate H.
        -- split; [intros _ | reflexivity]. rewrite Z.mul_1_r.
           change (999999999 * 8388608) with (Z.pos 8388607991611392).
           apply Pos2Z.pos_lt_pos, Hc.
        -- split; [discriminate|]. intros H. exfalso. rewrite Z.mul_1_r in H.
           change (999999999 * 8388608) with (Z.pos 8388607991611392) in H.
           apply Pos2Z.pos_lt_pos in H.
           exact (Pos.lt_irrefl _ (Pos.lt_trans _ _ _ H Hc)).
      * split; [intros _|reflexivity].
        destruct (Z.leb_spec 0 e) as [H0|H0]; unfold Qlt; cbn [Qnum Qden inject_Z].
        -- lia.
        -- rewrite pow2_to_pos by lia. lia.
      * split; [discriminate|].
        destruct (Z.leb_spec 0 e) as [H0|H0]; unfold Qlt; cbn [Qnum Qden inject_Z].
        -- lia.
        -- rewrite pow2_to_pos by lia. lia.
Qed.

Lemma valid_opp (x : JsNumber.t) : valid x -> valid (opp x).
Proof. destruct x; auto. Qed.

Lemma to_Q_opp (x : JsNumber.t) (q : Q) :
  to_Q x = Some q -> exists q', to_Q (opp x) = Some q' /\ (q' == - q)%Q.
Proof.
  destruct x as [s|s| |s m e]; try discriminate.
  - intros [= <-]. exists 0%Q. split; reflexivity.
  - rewrite to_Q_finite. intros [= <-]. unfold opp. cbn [SFopp]. rewrite to_Q_finite.
    eexists. split; [reflexivity|].
    destruct (0 <=? e), s; unfold Qeq, Qopp; cbn [Qnum Qden inject_Z negb]; lia.
Qed.

Lemma ltb_opp (x y : JsNumber.t) : ltb x y = ltb (opp y) (opp x).
Proof.
  unfold ltb, SFltb, opp.
  destruct x as [[]|[]| |[] m e], y as [[]|[]| |[] m' e']; cbn [SFcompare SFopp negb];
    try reflexivity.
  - rewrite (Z.compare_antisym e e').
    change (Pos.compare_cont Eq m m') with (Pos.compare m m').
    change (Pos.compare_cont Eq m' m) with (Pos.compare m' m).
    rewrite (Pos.compare_antisym m' m).
    destruct (e ?= e'); cbn [CompOpp]; try reflexivity;
      destruct (m' ?= m)%positive; reflexivity.
  - rewrite (Z.compare_antisym e e').
    change (Pos.compare_cont Eq m m') with (Pos.compare m m').
    change (Pos.compare_cont Eq m' m) with (Pos.compare m' m).
    rewrite (Pos.compare_antisym m' m).
    destruct (e ?= e'); cbn [CompOpp]; try reflexivity;
      destruct (m' ?= m)%positive; reflexivity.
Qed.

(** [num < -999999999] decides the comparison of the exact values. *)
Lemma ltb_neg_limit_spec (x : JsNumber.t) (q : Q) :
  valid x -> to_Q x = Some q ->
  (ltb x (of_Z (- limit)) = true <-> (q < inject_Z (- limit))%Q).
Proof.
  intros Hv Hq. rewrite ltb_opp.
  change (opp (of_Z (- limit))) with (of_Z limit).
  destruct (to_Q_opp x q Hq) as (q' & Hq' & Heq).
  change (ltb (of_Z limit) (opp x)) with (gtb (opp x) (of_Z limit)).
  rewrite (gtb_limit_spec (opp x) q' (valid_opp x Hv) Hq'), Heq.
  unfold Qlt, Qopp, limit. cbn [Qnum Qden inject_Z]. lia.
Qed.

End Binary64.

(** Claim C8: [sanitizeNumber] returns null for null, undefined and the
    empty string; for any other input it parses the input and returns null
    when the parsed number is NaN or infinite, or when its value is greater
    than 999,999,999 or less than -999,999,999; and when the parsed number
    is finite with a value inside these bounds (the bounds included), it
    returns [Math.round(num * 100) / 100], the number rounded to two decimal
    places in binary64 arithmetic. *)
Theorem sanitizeNumber_spec (parseFloat_string : JsString.t -> JsNumber.t)
    (input : JsValue.t) :
  (input = JsValue.VNull \/ input = JsValue.VUndefined \/ input = JsValue.VString [] ->
   ValidationUtils.sanitizeNumber parseFloat_string input = None) /\
  (input <> JsValue.VNull -> input <> JsValue.VUndefined -> input <> JsValue.VString [] ->
   forall num, ValidationUtils.parseFloat parseFloat_string input = num ->
     (JsNumber.isFinite num = false ->
      ValidationUtils.sanitizeNumber parseFloat_string input = None) /\
     (forall q, JsNumber.valid num -> JsNumber.to_Q num = Some q ->
        (inject_Z SanitizerSpec.limit < q \/ q < inject_Z (- SanitizerSpec.limit))%Q ->
        ValidationUtils.sanitizeNumber parseFloat_string input = None) /\
     (forall q, JsNumber.valid num -> JsNumber.to_Q num = Some q ->
        (inject_Z (- SanitizerSpec.limit) <= q)%Q -> (q <= inject_Z SanitizerSpec.limit)%Q ->
        ValidationUtils.sanitizeNumber parseFloat_string input
        = Some (SanitizerSpec.round_to_2_decimals num))).
Proof.
  unfold ValidationUtils.sanitizeNumber. split.
  - intros [-> | [-> | ->]]; reflexivity.
  - intros Hn Hu He num Hnum.
    assert (ValidationUtils.is_empty_input input = false) as ->.
    { destruct input as [| | | |[|]|]; try reflexivity; contradiction. }
    cbv zeta. rewrite Hnum. split; [|split].
    + intros Hf. rewrite Hf. simpl. rewrite orb_true_r. reflexivity.
    + intros q Hv Hq Hout.
      destruct (JsNumber.isNaN num || negb (JsNumber.isFinite num)); [reflexivity|].
      change (JsNumber.of_Z 999999999) with (JsNumber.of_Z SanitizerSpec.limit).
      change (JsNumber.of_Z (-999999999)) with (JsNumber.of_Z (- SanitizerSpec.limit)).
      destruct Hout as [Hgt|Hlt].
      * apply (gtb_limit_spec num q Hv Hq) in Hgt. rewrite Hgt. reflexivity.
      * apply (ltb_neg_limit_spec num q Hv Hq) in Hlt. rewrite Hlt, orb_true_r. reflexivity.
    + intros q Hv Hq Hlo Hhi.
      assert (JsNumber.isNaN num || negb (JsNumber.isFinite num) = false) as ->.
      { destruct num; try discriminate; reflexivity. }
      change (JsNumber.of_Z 999999999) with (JsNumber.of_Z SanitizerSpec.limit).
      change (JsNumber.of_Z (-999999999)) with (JsNumber.of_Z (- SanitizerSpec.limit)).
      destruct (JsNumber.gtb num _) eqn:Hg.
      { apply (gtb_limit_spec num q Hv Hq) in Hg. exfalso.
        eapply Qlt_irrefl, Qlt_le_trans; eauto. }
      destruct (JsNumber.ltb num _) eqn:Hl.
      { apply (ltb_neg_limit_spec num q Hv Hq) in Hl. exfalso.
        eapply Qlt_irrefl, Qlt_le_trans; eauto. }
      reflexivity.
Qed.

Lemma sanitizeNumber_spec_witness :
  ValidationUtils.sanitizeNumber (fun _ => JsNumber.NaN)
    (JsValue.VNumber (JsNumber.decimal 10005 3))
  = Some (JsNumber.decimal 1001 2).
Proof.
  refine (proj2 (proj2 (proj2 (sanitizeNumber_spec (fun _ => JsNumber.NaN)
                                 (JsValue.VNumber (JsNumber.decimal 10005 3)))
                          _ _ _ (JsNumber.decimal 10005 3) eq_refl))
            (Qmake 5632314283980227 562949953421312) eq_refl eq_refl _ _);
    try discriminate.
Defined.

(** The sanitiser on sample inputs: values just inside and just outside
    the bounds, a tie rounded towards +Infinity, and 1.115, which the
    multiplication lifts above the tie although the number itself lies
    below 1.115. *)
Example sanitizeNumber_samples :
  let sanitize x := ValidationUtils.sanitizeNumber (fun _ => JsNumber.NaN) (JsValue.VNumber x) in
  sanitize (JsNumber.of_Z 999999999) = Some (JsNumber.of_Z 999999999) /\
  sanitize (JsNumber.decimal 9999999994 1) = None /\
  sanitize (JsNumber.of_Z (-1000000000)) = None /\
  sanitize (JsNumber.decimal (-5555) 3) = Some (JsNumber.decimal (-555) 2) /\
  sanitize (JsNumber.decimal 1115 3) = Some (JsNumber.decimal 112 2) /\
  sanitize (S754_infinity false) = None /\
  sanitize JsNumber.NaN = None.
Proof. repeat split. Qed.

(* ===================================================================== *)
(** * Part III: further properties of the code                            *)
(* ===================================================================== *)

(** ** Call logs *)

Section Framing.

Import Supabase Api RouteSpec.

Context {B : Type}.

Lemma framed_ret {A : Type} (a : A) : framed (B := B) (ret a).
Proof. intros [b l]. unfold ret. simpl. rewrite app_nil_r. reflexivity. Qed.

Lemma framed_issue {D : Type} (c : Call) (run : B -> Answer D * B) :
  framed (issue c run).
Proof.
  intros [b l]. unfold issue. simpl. destruct (run b) as [a b']. reflexivity.
Qed.

Lemma framed_bind {A A' : Type} (m : Async B A) (k : A -> Async B A') :
  framed m -> (forall a, framed (k a)) -> framed (bind m k).
Proof.
  intros Hm Hk w. unfold bind.
  rewrite (Hm w).
  destruct (m {| backend_state := backend_state w; calls := [] |}) as [a w1] eqn:E1.
  cbn [fst snd].
  rewrite (Hk a {| backend_state := backend_state w1; calls := calls w ++ calls w1 |}).
  rewrite (Hk a w1). cbn [backend_state calls fst snd].
  destruct (k a {| backend_state := backend_state w1; calls := [] |}) as [a' w2].
  cbn [fst snd backend_state calls]. rewrite app_assoc. reflexivity.
Qed.

(** The calls of a sequence are the calls of its parts, in order. *)
Lemma run_bind {A A' : Type} (m : Async B A) (k : A -> Async B A') (b : B) :
  framed m -> (forall a, framed (k a)) ->
  run (bind m k) b
  = let '(a, w1) := m {| backend_state := b; calls := [] |} in
    let '(a', l2) := run (k a) (backend_state w1) in
    (a', calls w1 ++ l2).
Proof.
  intros Hm Hk. unfold run, bind.
  destruct (m {| backend_state := b; calls := [] |}) as [a w1].
  rewrite (Hk a w1).
  destruct (k a {| backend_state := backend_state w1; calls := [] |}) as [a' w2].
  reflexivity.
Qed.

End Framing.

(** Decompose a goal [framed m] along the structure of [m]. *)
Ltac framing :=
  repeat first
    [ apply framed_ret
    | apply framed_issue
    | apply framed_bind; [|intros ?]
    | match goal with
      | |- RouteSpec.framed (if ?c then _ else _) => destruct c
      | |- RouteSpec.framed (match ?x with _ => _ end) => destruct x
      | |- RouteSpec.framed (let _ := _ in _) => cbv zeta
      end ].

Section FramedHandlers.

Import Supabase Api RouteSpec.

Variable StringToNumber : JsString.t -> JsNumber.t.

Context {B : Type} (backend : Oracle B).

Lemma framed_verifyToken (t : JsString.t) : framed (supabaseService.verifyToken backend t).
Proof. unfold supabaseService.verifyToken. framing. Qed.

Lemma framed_requireAuth (req : AuthenticatedRequest) :
  framed (AuthMiddleware.requireAuth backend req).
Proof.
  unfold AuthMiddleware.requireAuth, supabaseService.verifyToken. framing.
Qed.

Lemma framed_optionalAuth (req : AuthenticatedRequest) :
  framed (OptionalAuth.optionalAuth backend req).
Proof.
  unfold OptionalAuth.optionalAuth, supabaseService.verifyToken. framing.
Qed.

Lemma framed_createProduct (req : AuthenticatedRequest) :
  framed (productController.createProduct StringToNumber backend req).
Proof.
  unfold productController.createProduct, supabaseService.createProduct. framing.
Qed.

Lemma framed_updateProduct (req : AuthenticatedRequest) :
  framed (productController.updateProduct StringToNumber backend req).
Proof.
  unfold productController.updateProduct, supabaseService.updateProduct,
    supabaseService.getProductById. framing.
Qed.

Lemma framed_deleteProduct (req : AuthenticatedRequest) :
  framed (productController.deleteProduct backend req).
Proof.
  unfold productController.deleteProduct, supabaseService.deleteProduct,
    supabaseService.getProductById. framing.
Qed.

Lemma framed_getProducts (search : JsValue.t) (req : AuthenticatedRequest) :
  framed (productReadController.getProducts backend search req).
Proof.
  unfold productReadController.getProducts, supabaseService.getProducts. framing.
Qed.

Lemma framed_getProductById (req : AuthenticatedRequest) :
  framed (productReadController.getProductById backend req).
Proof.
  unfold productReadController.getProductById, supabaseService.getProductById. framing.
Qed.

End FramedHandlers.

(** ** Authentication on the routes *)

Section Authentication.

Import Supabase Http Api RouteSpec.

Context {B : Type} (backend : Oracle B).

Lemma strip_prefix_Some (p s r : JsString.t) :
  JsString.strip_prefix p s = Some r -> s = p ++ r.
Proof.
  revert s. induction p as [|a p IH]; intros s; simpl.
  - intros [= ->]. reflexivity.
  - destruct s as [|c s]; [discriminate|].
    destruct (N.eqb_spec a c) as [->|]; [|discriminate].
    intros H. rewrite (IH _ H). reflexivity.
Qed.

(** The two ways [requireAuth] can end. *)
Lemma requireAuth_run (req : AuthenticatedRequest) (b : B) :
  (exists response l,
     AuthMiddleware.requireAuth backend req {| backend_state := b; calls := [] |}
     = (inl response, l) /\ status response = 401 /\
     (calls l = [] /\ backend_state l = b /\
      (forall token, authorization req <> Some (js "Bearer " ++ token))
      \/ exists token, authorization req = Some (js "Bearer " ++ token) /\
                       calls l = [CallGetUser (Authenticated (Some token))] /\
                       forall u, ~ verified backend token u b)) \/
  (exists token u b',
     authorization req = Some (js "Bearer " ++ token) /\
     getUser backend (Authenticated (Some token)) b = (Returned (Some u) None, b') /\
     AuthMiddleware.requireAuth backend req {| backend_state := b; calls := [] |}
     = (inr (attach req token u),
        {| backend_state := b'; calls := [CallGetUser (Authenticated (Some token))] |})).
Proof.
  unfold AuthMiddleware.requireAuth.
  destruct (authorization req) as [authHeader|] eqn:Ha.
  - destruct (JsString.strip_prefix (js "Bearer ") authHeader) as [token|] eqn:Hp.
    + apply strip_prefix_Some in Hp. subst authHeader.
      unfold bind, supabaseService.verifyToken, bind, issue, ret.
      cbn [backend_state calls app].
      destruct (getUser backend (Authenticated (Some token)) b) as [a b'] eqn:Hg.
      assert (Hno : forall u, a <> Returned (Some u) None -> ~ verified backend token u b).
      { intros u Hne [b'' Hv]. rewrite Hv in Hg. injection Hg as <- _. congruence. }
      destruct a as [[u|] [e|]|e];
        cbn [supabaseService.settle supabaseService.error supabaseService.data];
        try (left; eexists _, _; split; [reflexivity|]; split; [reflexivity|]; right;
             exists token; split; [reflexivity|]; split; [reflexivity|];
             intros u'; apply Hno; discriminate).
      right. exists token, u, b'. split; [reflexivity|]. split; [exact Hg|].
      unfold attach. rewrite Ha. reflexivity.
    + left. eexists _, _. split; [reflexivity|]. split; [reflexivity|]. left.
      split; [reflexivity|]. split; [reflexivity|].
      intros token Heq.
      assert (Hh : authHeader = js "Bearer " ++ token) by congruence.
      rewrite Hh, strip_prefix_app in Hp. discriminate.
  - left. eexists _, _. split; [reflexivity|]. split; [reflexivity|]. left.
    split; [reflexivity|]. split; [reflexivity|]. intros token. discriminate.
Qed.

End Authentication.

(** Unfold a handler run from the empty log down to the answers of the
    backend, and split on them. *)
Ltac run_handler :=
  unfold Supabase.run, productController.createProduct, productController.updateProduct,
    productController.deleteProduct, productReadController.getProducts,
    productReadController.getProductById, supabaseService.createProduct,
    supabaseService.updateProduct, supabaseService.deleteProduct,
    supabaseService.getProductById, supabaseService.getProducts,
    Supabase.bind, Supabase.issue, Supabase.ret;
  cbn beta iota delta [Supabase.backend_state Supabase.calls app];
  repeat match goal with
    | |- _ => progress cbn beta iota delta [Supabase.backend_state Supabase.calls app]
    | |- context [if ?c then _ else _] => destruct c eqn:?
    | |- context [match Api.body ?r with _ => _ end] => destruct (Api.body r) eqn:?
    | |- context [match Json.le_zero ?s ?v with _ => _ end] =>
        destruct (Json.le_zero s v) as [[|]|] eqn:?
    | |- context [match productController.price_given_and_not_positive ?s ?d with
                  | _ => _ end] =>
        destruct (productController.price_given_and_not_positive s d) as [[|]|] eqn:?
    | |- context [match supabaseService.search_term ?s with _ => _ end] =>
        destruct (supabaseService.search_term s) as [?|?] eqn:?
    | |- context [Supabase.run_select_by_id ?be ?c ?i ?b] =>
        destruct (Supabase.run_select_by_id be c i b) as [[[?|] [?|]|?] ?] eqn:?
    | |- context [Supabase.run_select ?be ?c ?q ?b] =>
        destruct (Supabase.run_select be c q b) as [[[?|] [?|]|?] ?] eqn:?
    | |- context [Supabase.run_delete ?be ?c ?i ?b] =>
        destruct (Supabase.run_delete be c i b) as [[? [?|]|?] ?] eqn:?
    | |- context [Supabase.run_insert ?be ?c ?r ?b] =>
        destruct (Supabase.run_insert be c r b) as [[? [?|]|?] ?] eqn:?
    | |- context [Supabase.run_update ?be ?c ?i ?p ?b] =>
        destruct (Supabase.run_update be c i p b) as [[? [?|]|?] ?] eqn:?
    end;
  cbn [supabaseService.settle supabaseService.error supabaseService.data
       Supabase.backend_state Supabase.calls app fst snd].

Section Handlers.

Import Supabase Http Api RouteSpec.

Variable StringToNumber : JsString.t -> JsNumber.t.

Context {B : Type} (backend : Oracle B).

(** Whatever a write controller sends to the table goes through the
    client built from the token attached to the request. *)
Lemma controller_writes (req : AuthenticatedRequest) (b : B) (call : Call) :
  List.In call (run (productController.createProduct StringToNumber backend req) b).2
  \/ List.In call (run (productController.updateProduct StringToNumber backend req) b).2
  \/ List.In call (run (productController.deleteProduct backend req) b).2 ->
  is_write call = true ->
  client_of call = Authenticated (accessToken req).
Proof.
  intros [H|[H|H]] Hw; revert H; run_handler; cbn [List.In];
    intros H; repeat (destruct H as [H|H]; [subst call|]); try contradiction;
    try discriminate Hw; reflexivity.
Qed.

End Handlers.

Section GuardedRoutes.

Import Supabase Http Api RouteSpec.

Context {B : Type} (backend : Oracle B).

(** A guarded route, step by step. *)
Lemma run_guarded (m2 : AuthenticatedRequest -> Step)
    (handler : AuthenticatedRequest -> Async B Response)
    (req : AuthenticatedRequest) (b : B) :
  (forall r, framed (handler r)) ->
  run (ProductRoutes.guarded (AuthMiddleware.requireAuth backend) m2 handler req) b
  = match AuthMiddleware.requireAuth backend req {| backend_state := b; calls := [] |} with
    | (inl response, w1) => (response, calls w1)
    | (inr req1, w1) =>
        match m2 req1 with
        | inl response => (response, calls w1)
        | inr req2 =>
            ((run (handler req2) (backend_state w1)).1,
             calls w1 ++ (run (handler req2) (backend_state w1)).2)
        end
    end.
Proof.
  intros Hh. unfold ProductRoutes.guarded. rewrite run_bind.
  - destruct (AuthMiddleware.requireAuth backend req _) as [[response|req1] w1].
    + unfold run, ret. cbn. rewrite app_nil_r. reflexivity.
    + destruct (m2 req1) as [response|req2].
      * unfold run, ret. cbn. rewrite app_nil_r. reflexivity.
      * destruct (run (handler req2) (backend_state w1)). reflexivity.
  - apply framed_requireAuth.
  - intros [response|req1]; [apply framed_ret|].
    destruct (m2 req1); [apply framed_ret | apply Hh].
Qed.

(** What a guarded route has established when its handler issues a call. *)
Lemma guarded_handler_calls (handler : AuthenticatedRequest -> Async B Response)
    (req : AuthenticatedRequest) (b : B) (call : Call) :
  (forall r, framed (handler r)) ->
  List.In call
    (run (ProductRoutes.guarded (AuthMiddleware.requireAuth backend)
            AuthMiddleware.requireAdmin handler req) b).2 ->
  is_write call = true ->
  exists token u b',
    authorization req = Some (js "Bearer " ++ token) /\
    getUser backend (Authenticated (Some token)) b = (Returned (Some u) None, b') /\
    AuthMiddleware.userRole u = JsValue.VString (js "admin") /\
    List.In call (run (handler (attach req token u)) b').2.
Proof.
  intros Hh Hin Hw. rewrite run_guarded in Hin by assumption.
  destruct (requireAuth_run backend req b)
    as [(response & l & Hr & _ & Hl) | (token & u & b' & Ha & Hg & Hr)];
    rewrite Hr in Hin; cbn [snd] in Hin.
  - exfalso. destruct Hl as [(Hl & _) | (token & _ & Hl & _)]; rewrite Hl in Hin.
    + destruct Hin.
    + destruct Hin as [<-|[]]. discriminate Hw.
  - pose proof (requireAdmin_cases (attach req token u)) as Hgate.
    cbn [user attach] in Hgate. destruct Hgate as [Hadmin Hother].
    destruct (JsValue.strict_eq_string (AuthMiddleware.userRole u) (js "admin")) eqn:E.
    + apply strict_eq_string_spec in E. rewrite (Hadmin E) in Hin.
      cbn [snd calls backend_state] in Hin.
      destruct Hin as [<-|Hin]; [discriminate Hw|].
      exists token, u, b'. auto.
    + assert (Hne : AuthMiddleware.userRole u <> JsValue.VString (js "admin")).
      { intros H. apply strict_eq_string_spec in H. congruence. }
      rewrite (Hother Hne) in Hin. cbn [snd calls] in Hin.
      destruct Hin as [<-|[]]. discriminate Hw.
Qed.

End GuardedRoutes.

(** Extra X1: on the three guarded routes (POST, PUT and DELETE on
    products) a call that changes the table is issued only after the
    identity service has resolved the bearer token of the request to a user
    whose role is [admin], and it goes through the client authenticated
    with that very token. *)
Theorem writes_require_admin (StringToNumber : JsString.t -> JsNumber.t)
    {B : Type} (backend : Supabase.Oracle B)
    (req : Api.AuthenticatedRequest) (b : B) (call : Supabase.Call) :
  List.In call (Supabase.run (ProductRoutes.post_products StringToNumber backend req) b).2
  \/ List.In call (Supabase.run (ProductRoutes.put_product StringToNumber backend req) b).2
  \/ List.In call (Supabase.run (ProductRoutes.delete_product backend req) b).2 ->
  RouteSpec.is_write call = true ->
  exists token u,
    Api.authorization req = Some (js "Bearer " ++ token) /\
    RouteSpec.verified backend token u b /\
    AuthMiddleware.userRole u = JsValue.VString (js "admin") /\
    RouteSpec.client_of call = Supabase.Authenticated (Some token).
Proof.
  intros Hin Hw.
  assert (H : exists token u b',
            Api.authorization req = Some (js "Bearer " ++ token) /\
            Supabase.getUser backend (Supabase.Authenticated (Some token)) b
            = (Supabase.Returned (Some u) None, b') /\
            AuthMiddleware.userRole u = JsValue.VString (js "admin") /\
            (List.In call (Supabase.run (productController.createProduct StringToNumber backend
                                           (RouteSpec.attach req token u)) b').2
             \/ List.In call (Supabase.run (productController.updateProduct StringToNumber backend
                                              (RouteSpec.attach req token u)) b').2
             \/ List.In call (Supabase.run (productController.deleteProduct backend
                                              (RouteSpec.attach req token u)) b').2)).
  { destruct Hin as [Hin|[Hin|Hin]];
      eapply guarded_handler_calls in Hin; try exact Hw;
      try (intros; first [apply framed_createProduct | apply framed_updateProduct
                         | apply framed_deleteProduct]);
      destruct Hin as (token & u & b' & Ha & Hg & Hr & Hc);
      exists token, u, b'; auto 10. }
  destruct H as (token & u & b' & Ha & Hg & Hr & Hc).
  exists token, u. split; [exact Ha|]. split; [exists b'; exact Hg|]. split; [exact Hr|].
  apply (controller_writes StringToNumber backend _ _ _ Hc Hw).
Qed.

Lemma writes_require_admin_witness :
  exists token u,
    Api.authorization (Sample.request (Some "Bearer admin-token"%string) "" (Some Sample.book))
    = Some (js "Bearer " ++ token) /\
    RouteSpec.verified Sample.backend token u Sample.store /\
    AuthMiddleware.userRole u = JsValue.VString (js "admin") /\
    RouteSpec.client_of
      (Supabase.CallInsert (Supabase.Authenticated (Some (js "admin-token"))) [Sample.book])
    = Supabase.Authenticated (Some token).
Proof.
  apply (writes_require_admin Sample.StringToNumber Sample.backend
           (Sample.request (Some "Bearer admin-token"%string) "" (Some Sample.book))
           Sample.store).
  - left. vm_compute. auto.
  - reflexivity.
Defined.

(** Extra X2: [requireAuth] answers 401 without calling the identity
    service when the Authorization header is missing or does not start with
    [Bearer ] (the prefix is case-sensitive), and 401 after one verification
    call when the service does not resolve the token; otherwise it passes
    the request on with the resolved user and the token (the header minus
    its prefix) attached and the rest untouched, and on such a request
    [requireAdmin] never answers 401, only 403 or next. *)
Theorem requireAuth_outcomes {B : Type} (backend : Supabase.Oracle B)
    (req : Api.AuthenticatedRequest) (b : B) :
  match Supabase.run (AuthMiddleware.requireAuth backend req) b with
  | (inl response, l) =>
      Api.status response = 401 /\
      ((l = [] /\ forall token, Api.authorization req <> Some (js "Bearer " ++ token)) \/
       (exists token,
          Api.authorization req = Some (js "Bearer " ++ token) /\
          l = [Supabase.CallGetUser (Supabase.Authenticated (Some token))] /\
          forall u, ~ RouteSpec.verified backend token u b))
  | (inr req', l) =>
      exists token u,
        Api.authorization req = Some (js "Bearer " ++ token) /\
        RouteSpec.verified backend token u b /\
        req' = RouteSpec.attach req token u /\
        l = [Supabase.CallGetUser (Supabase.Authenticated (Some token))] /\
        forall response, AuthMiddleware.requireAdmin req' = inl response ->
                         Api.status response = 403
  end.
Proof.
  unfold Supabase.run.
  destruct (requireAuth_run backend req b)
    as [(response & l & Hr & Hs & Hl) | (token & u & b' & Ha & Hg & Hr)]; rewrite Hr.
  - split; [exact Hs|].
    destruct Hl as [(Hl & _ & Hn) | (token & Ha & Hl & Hn)]; [left | right]; eauto.
  - exists token, u. split; [exact Ha|]. split; [exists b'; exact Hg|].
    split; [reflexivity|]. split; [reflexivity|].
    intros response. pose proof (requireAdmin_cases (RouteSpec.attach req token u)) as H.
    cbn [Api.user RouteSpec.attach] in H. destruct H as [Hadmin Hother].
    destruct (JsValue.strict_eq_string (AuthMiddleware.userRole u) (js "admin")) eqn:E.
    + apply strict_eq_string_spec in E. rewrite (Hadmin E). discriminate.
    + assert (Hne : AuthMiddleware.userRole u <> JsValue.VString (js "admin")).
      { intros H. apply strict_eq_string_spec in H. congruence. }
      rewrite (Hother Hne). intros [= <-]. reflexivity.
Qed.

Section ReadControllers.

Import Supabase Http Api RouteSpec.

Context {B : Type} (backend : Oracle B).

(** Every path of the listing. *)
Lemma getProducts_run (search : JsValue.t) (req : AuthenticatedRequest) (b : B) :
  exists response,
    match supabaseService.search_term search with
    | inr term =>
        run (productReadController.getProducts backend search req) b
        = (response,
           [CallSelect (supabaseService.client_for (accessToken req))
              (supabaseService.products_query term)])
        /\ (productReadController.list_status response = 200
            \/ productReadController.list_status response = 500)
    | inl _ =>
        run (productReadController.getProducts backend search req) b = (response, [])
        /\ productReadController.list_status response = 500
    end.
Proof.
  run_handler; eexists; split; try reflexivity; auto.
Qed.

(** Every path of the lookup by id. *)
Lemma getProductById_run (req : AuthenticatedRequest) (b : B) :
  exists response,
    if productController.invalid_id (JsGlobal.parseInt10 (params_id req)) then
      run (productReadController.getProductById backend req) b = (response, [])
      /\ status response = 400
    else
      run (productReadController.getProductById backend req) b
      = (response,
         [CallSelectById (supabaseService.client_for (accessToken req))
            (JsGlobal.parseInt10 (params_id req))])
      /\ List.In (status response) [200; 404; 500].
Proof.
  run_handler; eexists; (split; [reflexivity|]); cbn [status respond In
    productController.not_found_response]; tauto.
Qed.

(** What [optionalAuth] does to a request that arrives without a token
    attached: the calls it issues and the client the handler after it will
    use. *)
Lemma optionalAuth_client (req : AuthenticatedRequest) (b : B) :
  accessToken req = None ->
  forall req1 w1,
    OptionalAuth.optionalAuth backend req {| backend_state := b; calls := [] |} = (req1, w1) ->
    params_id req1 = params_id req /\
    ((forall token, authorization req <> Some (js "Bearer " ++ token))
     /\ calls w1 = [] /\ supabaseService.client_for (accessToken req1) = Anonymous
     \/ exists token,
          authorization req = Some (js "Bearer " ++ token)
          /\ calls w1 = [CallGetUser (Authenticated (Some token))]
          /\ ((exists u, verified backend token u b)
               /\ supabaseService.client_for (accessToken req1)
                  = (if JsString.truthy token then Authenticated (Some token) else Anonymous)
              \/ (forall u, ~ verified backend token u b)
                 /\ supabaseService.client_for (accessToken req1) = Anonymous)).
Proof.
  intros Hnone req1 w1. unfold OptionalAuth.optionalAuth.
  destruct (authorization req) as [authHeader|] eqn:Ha.
  - destruct (JsString.strip_prefix (js "Bearer ") authHeader) as [token|] eqn:Hp.
    + apply strip_prefix_Some in Hp. subst authHeader.
      unfold bind, supabaseService.verifyToken, bind, issue, ret.
      cbn [backend_state calls app].
      destruct (getUser backend (Authenticated (Some token)) b) as [a b'] eqn:Hg.
      assert (Hno : (forall u, a <> Returned (Some u) None) ->
                    forall u, ~ verified backend token u b).
      { intros Hne u [b'' Hv]. rewrite Hv in Hg. injection Hg as <- _.
        apply (Hne u). reflexivity. }
      destruct a as [[u|] [e|]|e];
        cbn [supabaseService.settle supabaseService.error supabaseService.data];
        intros [= <- <-]; (split; [reflexivity|]); right; exists token;
        (split; [reflexivity|]); (split; [reflexivity|]);
        try (right; split; [apply Hno; intros; discriminate | rewrite Hnone; reflexivity]).
      left. split; [exists u, b'; exact Hg|]. cbn [accessToken].
      destruct token; reflexivity.
    + intros [= <- <-]. split; [reflexivity|]. left.
      split; [|split; [reflexivity | rewrite Hnone; reflexivity]].
      intros token Heq.
      assert (Hh : authHeader = js "Bearer " ++ token) by congruence.
      rewrite Hh, strip_prefix_app in Hp. discriminate.
  - intros [= <- <-]. split; [reflexivity|]. left.
    split; [intros token; discriminate|]. split; [reflexivity|].
    rewrite Hnone. reflexivity.
Qed.

End ReadControllers.

(** Extra X3: the two public read routes never refuse a request on
    authentication grounds, and read through the client the verification
    gives them. For a request as it arrives (no token attached yet): with
    no Bearer header no verification is made and the read is anonymous;
    with a Bearer header exactly one verification is made first, and the
    read goes through the client of that token when the identity service
    resolves it to a user (the anonymous client if the token is the empty
    string) and through the anonymous client when it does not. The listing
    then issues one select and answers 200 or 500 when the search
    parameter is a string or falsy, and issues no select and answers 500
    when it is any other value (the array or object of a repeated or
    bracketed key); the lookup answers 400 with no read for an invalid id
    and issues one read and answers 200, 404 or 500 otherwise. *)
Theorem read_routes_public {B : Type} (backend : Supabase.Oracle B)
    (search : JsValue.t) (req : Api.AuthenticatedRequest) (b : B) :
  Api.accessToken req = None ->
  exists (pre : list Supabase.Call) (c : Supabase.Client),
    ((forall token : JsString.t, Api.authorization req <> Some (js "Bearer " ++ token))
     /\ pre = [] /\ c = Supabase.Anonymous
     \/ exists token : JsString.t,
          Api.authorization req = Some (js "Bearer " ++ token)
          /\ pre = [Supabase.CallGetUser (Supabase.Authenticated (Some token))]
          /\ ((exists u : Supabase.User, RouteSpec.verified backend token u b)
               /\ c = (if JsString.truthy token
                       then Supabase.Authenticated (Some token) else Supabase.Anonymous)
              \/ (forall u : Supabase.User, ~ RouteSpec.verified backend token u b)
                 /\ c = Supabase.Anonymous))
    /\ (exists response : productReadController.ListResponse,
          match search with
          | JsValue.VString s =>
              Supabase.run (ProductReadRoutes.get_products backend search req) b
              = (response,
                 pre ++ [Supabase.CallSelect c (supabaseService.products_query (Some s))])
              /\ (productReadController.list_status response = 200
                  \/ productReadController.list_status response = 500)
          | other =>
              if JsValue.truthy other then
                Supabase.run (ProductReadRoutes.get_products backend search req) b
                = (response, pre)
                /\ productReadController.list_status response = 500
              else
                Supabase.run (ProductReadRoutes.get_products backend search req) b
                = (response, pre ++ [Supabase.CallSelect c supabaseService.base_query])
                /\ (productReadController.list_status response = 200
                    \/ productReadController.list_status response = 500)
          end)
    /\ (exists response : Api.Response,
          if productController.invalid_id (JsGlobal.parseInt10 (Api.params_id req))
          then
            Supabase.run (ProductReadRoutes.get_product backend req) b = (response, pre)
            /\ Api.status response = 400
          else
            Supabase.run (ProductReadRoutes.get_product backend req) b
            = (response,
               pre ++ [Supabase.CallSelectById c (JsGlobal.parseInt10 (Api.params_id req))])
            /\ List.In (Api.status response) [200; 404; 500]).
Proof.
  intros Hnone.
  destruct (OptionalAuth.optionalAuth backend req
              {| Supabase.backend_state := b; Supabase.calls := [] |}) as [req1 w1] eqn:Ho.
  destruct (optionalAuth_client backend req b Hnone req1 w1 Ho) as (Hid & Hc).
  exists (Supabase.calls w1), (supabaseService.client_for (Api.accessToken req1)).
  split; [|split].
  - destruct Hc as [(Hn & Hl & Hc) | (token & Ha & Hl & Hc)]; [left | right]; eauto 10.
  - destruct (getProducts_run backend search req1 (Supabase.backend_state w1))
      as (response & Hr).
    exists response. unfold ProductReadRoutes.get_products.
    rewrite run_bind;
      [| apply framed_optionalAuth | intros; apply framed_getProducts].
    rewrite Ho.
    destruct search as [| |[|]|x|s|o]; cbn [supabaseService.search_term JsValue.truthy] in *;
      try (destruct (JsNumber.truthy x));
      destruct Hr as [-> Hs]; rewrite ?app_nil_r; split; (reflexivity || exact Hs).
  - destruct (getProductById_run backend req1 (Supabase.backend_state w1))
      as (response & Hr).
    exists response. unfold ProductReadRoutes.get_product.
    rewrite run_bind;
      [| apply framed_optionalAuth | intros; apply framed_getProductById].
    rewrite Ho. rewrite Hid in Hr.
    destruct (productController.invalid_id _); destruct Hr as [-> Hs];
      rewrite ?app_nil_r; split; (reflexivity || exact Hs).
Qed.

Lemma read_routes_public_witness :
  exists (pre : list Supabase.Call) (c : Supabase.Client),
    ((forall token : JsString.t, Api.authorization (Sample.request (Some "Bearer admin-token"%string) "1" None) <> Some (js "Bearer " ++ token))
     /\ pre = [] /\ c = Supabase.Anonymous
     \/ exists token : JsString.t,
          Api.authorization (Sample.request (Some "Bearer admin-token"%string) "1" None) = Some (js "Bearer " ++ token)
          /\ pre = [Supabase.CallGetUser (Supabase.Authenticated (Some token))]
          /\ ((exists u : Supabase.User, RouteSpec.verified Sample.backend token u Sample.store)
               /\ c = (if JsString.truthy token
                       then Supabase.Authenticated (Some token) else Supabase.Anonymous)
              \/ (forall u : Supabase.User, ~ RouteSpec.verified Sample.backend token u Sample.store)
                 /\ c = Supabase.Anonymous))
    /\ (exists response : productReadController.ListResponse,
          match JsValue.VUndefined with
          | JsValue.VString s =>
              Supabase.run (ProductReadRoutes.get_products Sample.backend JsValue.VUndefined (Sample.request (Some "Bearer admin-token"%string) "1" None)) Sample.store
              = (response,
                 pre ++ [Supabase.CallSelect c (supabaseService.products_query (Some s))])
              /\ (productReadController.list_status response = 200
                  \/ productReadController.list_status response = 500)
          | other =>
              if JsValue.truthy other then
                Supabase.run (ProductReadRoutes.get_products Sample.backend JsValue.VUndefined (Sample.request (Some "Bearer admin-token"%string) "1" None)) Sample.store
                = (response, pre)
                /\ productReadController.list_status response = 500
              else
                Supabase.run (ProductReadRoutes.get_products Sample.backend JsValue.VUndefined (Sample.request (Some "Bearer admin-token"%string) "1" None)) Sample.store
                = (response, pre ++ [Supabase.CallSelect c supabaseService.base_query])
                /\ (productReadController.list_status response = 200
                    \/ productReadController.list_status response = 500)
          end)
    /\ (exists response : Api.Response,
          if productController.invalid_id (JsGlobal.parseInt10 (Api.params_id (Sample.request (Some "Bearer admin-token"%string) "1" None)))
          then
            Supabase.run (ProductReadRoutes.get_product Sample.backend (Sample.request (Some "Bearer admin-token"%string) "1" None)) Sample.store = (response, pre)
            /\ Api.status response = 400
          else
            Supabase.run (ProductReadRoutes.get_product Sample.backend (Sample.request (Some "Bearer admin-token"%string) "1" None)) Sample.store
            = (response,
               pre ++ [Supabase.CallSelectById c (JsGlobal.parseInt10 (Api.params_id (Sample.request (Some "Bearer admin-token"%string) "1" None)))])
            /\ List.In (Api.status response) [200; 404; 500]).
Proof.
  exact (read_routes_public Sample.backend JsValue.VUndefined
           (Sample.request (Some "Bearer admin-token"%string) "1" None)
           Sample.store eq_refl).
Defined.

(** Extra X4: when the existence lookup comes back with an error and no
    row, the read controller and the write controllers disagree: GET
    /products/:id checks the error first and answers 500, while DELETE
    and PUT discard the error of their lookup, see no row and answer 404,
    PUT for every body that passes its price test (a price that is missing,
    or given and not less than or equal to zero); none of them issues a
    write. *)
Theorem lookup_error_500_or_404 (StringToNumber : JsString.t -> JsNumber.t)
    {B : Type} (backend : Supabase.Oracle B)
    (req : Api.AuthenticatedRequest) (b : B) (e : Supabase.JsError) :
  productController.invalid_id (JsGlobal.parseInt10 (Api.params_id req)) = false ->
  supabaseService.settle None
    (Supabase.run_select_by_id backend (supabaseService.client_for (Api.accessToken req))
       (JsGlobal.parseInt10 (Api.params_id req)) b).1
  = {| supabaseService.data := None; supabaseService.error := Some e |} ->
  let lookup := Supabase.CallSelectById (supabaseService.client_for (Api.accessToken req))
                  (JsGlobal.parseInt10 (Api.params_id req)) in
  (exists response,
     Supabase.run (productReadController.getProductById backend req) b = (response, [lookup])
     /\ Api.status response = 500) /\
  (exists response,
     Supabase.run (productController.deleteProduct backend req) b = (response, [lookup])
     /\ Api.status response = 404) /\
  (forall patch,
     Api.body req = Some patch ->
     Supabase.price patch = Json.JUndefined
     \/ Json.le_zero StringToNumber (Supabase.price patch) = Some false ->
     exists response,
       Supabase.run (productController.updateProduct StringToNumber backend req) b
       = (response, [lookup])
       /\ Api.status response = 404).
Proof.
  intros Hid Hans lookup. subst lookup. split; [|split].
  - revert Hans. run_handler; try discriminate; intros [= <-] || intros _;
      eexists; split; reflexivity.
  - revert Hans. run_handler; try discriminate; intros _; eexists; split; reflexivity.
  - intros patch Hb Hp.
    assert (Htest : productController.price_given_and_not_positive StringToNumber patch
                    = Some false).
    { unfold productController.price_given_and_not_positive.
      destruct Hp as [-> | Hp]; [reflexivity|].
      destruct (Supabase.price patch); try reflexivity; exact Hp. }
    pose proof (updateProduct_run StringToNumber backend req b) as H. cbv zeta in H.
    rewrite Hid, Hb, Htest in H. unfold ControllerSpec.existing_row in H.
    rewrite Hans in H. cbn [supabaseService.data] in H. rewrite H.
    eexists. split; reflexivity.
Qed.

Lemma lookup_error_500_or_404_witness :
  (exists response,
     Supabase.run (productReadController.getProductById Sample.backend
                     (Sample.request None "42" (Some Sample.book))) Sample.store
     = (response, [Supabase.CallSelectById Supabase.Anonymous (JsNumber.of_Z 42)])
     /\ Api.status response = 500) /\
  (exists response,
     Supabase.run (productController.deleteProduct Sample.backend
                     (Sample.request None "42" (Some Sample.book))) Sample.store
     = (response, [Supabase.CallSelectById Supabase.Anonymous (JsNumber.of_Z 42)])
     /\ Api.status response = 404) /\
  (exists response,
     Supabase.run (productController.updateProduct Sample.StringToNumber Sample.backend
                     (Sample.request None "42" (Some Sample.book))) Sample.store
     = (response, [Supabase.CallSelectById Supabase.Anonymous (JsNumber.of_Z 42)])
     /\ Api.status response = 404).
Proof.
  destruct (lookup_error_500_or_404 Sample.StringToNumber Sample.backend
              (Sample.request None "42" (Some Sample.book))
              Sample.store _ eq_refl eq_refl) as (Hget & Hdel & Hput).
  split; [exact Hget|]. split; [exact Hdel|].
  apply (Hput Sample.book eq_refl). right. reflexivity.
Defined.

(** Extra X5: the three write controllers validate before they touch the
    backend and report success only after a write: the status is one of
    200, 201, 400, 404 and 500; a 400 is answered with no call issued at
    all, a 404 with no write issued; a 200 or 201 is answered only when the
    last call issued was the write; and a run issues at most two calls. *)
Theorem write_controllers_status (StringToNumber : JsString.t -> JsNumber.t)
    {B : Type} (backend : Supabase.Oracle B)
    (req : Api.AuthenticatedRequest) (b : B) (response : Api.Response)
    (l : list Supabase.Call) :
  Supabase.run (productController.createProduct StringToNumber backend req) b = (response, l)
  \/ Supabase.run (productController.updateProduct StringToNumber backend req) b
     = (response, l)
  \/ Supabase.run (productController.deleteProduct backend req) b = (response, l) ->
  List.In (Api.status response) [200; 201; 400; 404; 500] /\
  (Api.status response = 400 -> l = []) /\
  (Api.status response = 404 -> forall call, List.In call l -> RouteSpec.is_write call = false) /\
  (Api.status response = 200 \/ Api.status response = 201 ->
   exists call, last l = Some call /\ RouteSpec.is_write call = true) /\
  (length l <= 2)%nat.
Proof.
  intros [H|[H|H]]; revert H; run_handler; intros [= <- <-];
    cbn [Api.status Api.respond productController.invalid_id_response
         productController.invalid_price_response productController.not_found_response
         productController.unexpected length];
    (split; [cbn [List.In]; tauto|]);
    (split; [try reflexivity; discriminate|]);
    (split; [try discriminate;
             intros _ call Hc; cbn [List.In] in Hc;
             repeat (destruct Hc as [<-|Hc]; [reflexivity|]); destruct Hc|]);
    (split; [try (intros [|]; discriminate); intros _; eexists; split; reflexivity | lia]).
Qed.

Lemma write_controllers_status_witness :
  List.In
    (Api.status
       (Supabase.run (productController.deleteProduct Sample.backend
                        (Sample.authenticated "admin-token" (Sample.account "ada" "admin")
                           "1" None)) Sample.store).1)
    [200; 201; 400; 404; 500].
Proof.
  refine (proj1 (write_controllers_status Sample.StringToNumber Sample.backend
                   (Sample.authenticated "admin-token" (Sample.account "ada" "admin") "1" None)
                   Sample.store _ _ _)).
  right. right. apply surjective_pairing.
Defined.

(** Extra X6: [updateProduct] asks for no field. For a valid id, a body
    whose price is missing, or given and not less than or equal to zero,
    and an existence lookup that finds a row, the controller issues the
    lookup and then the update, which carries the id and the body as
    received; title and author play no part, unlike on creation.
    Conversely an update call is issued only under these conditions. A
    price that is given, null included, and is less than or equal to zero
    once converted to a number is answered 400 with no call; for a price
    that is a number the test passes exactly when the number is not zero or
    negative. *)
Theorem updateProduct_forwards_partial (StringToNumber : JsString.t -> JsNumber.t)
    {B : Type} (backend : Supabase.Oracle B)
    (req : Api.AuthenticatedRequest) (b : B) :
  (forall patch,
     productController.invalid_id (JsGlobal.parseInt10 (Api.params_id req)) = false ->
     Api.body req = Some patch ->
     Supabase.price patch = Json.JUndefined
     \/ Json.le_zero StringToNumber (Supabase.price patch) = Some false ->
     ControllerSpec.existing_row backend req b <> None ->
     exists response,
       Supabase.run (productController.updateProduct StringToNumber backend req) b
       = (response,
          [Supabase.CallSelectById (supabaseService.client_for (Api.accessToken req))
             (JsGlobal.parseInt10 (Api.params_id req));
           Supabase.CallUpdate (Supabase.Authenticated (Api.accessToken req))
             (JsGlobal.parseInt10 (Api.params_id req)) patch])
       /\ (Api.status response = 200 \/ Api.status response = 500)) /\
  (forall c i patch,
     List.In (Supabase.CallUpdate c i patch)
       (Supabase.run (productController.updateProduct StringToNumber backend req) b).2 ->
     productController.invalid_id (JsGlobal.parseInt10 (Api.params_id req)) = false /\
     Api.body req = Some patch /\
     (Supabase.price patch = Json.JUndefined
      \/ Json.le_zero StringToNumber (Supabase.price patch) = Some false) /\
     ControllerSpec.existing_row backend req b <> None /\
     c = Supabase.Authenticated (Api.accessToken req) /\
     i = JsGlobal.parseInt10 (Api.params_id req)) /\
  (forall patch,
     productController.invalid_id (JsGlobal.parseInt10 (Api.params_id req)) = false ->
     Api.body req = Some patch ->
     Supabase.price patch <> Json.JUndefined ->
     Json.le_zero StringToNumber (Supabase.price patch) = Some true ->
     Supabase.run (productController.updateProduct StringToNumber backend req) b
     = (productController.invalid_price_response, [])) /\
  Json.le_zero StringToNumber Json.JNull = Some true /\
  (forall p, Json.le_zero StringToNumber (Json.JNumber p) = Some false
             <-> ~ JsNumber.zero_or_negative p).
Proof.
  assert (Htest : forall patch : Supabase.CreateProductData,
            productController.price_given_and_not_positive StringToNumber patch
            = (match Supabase.price patch with
               | Json.JUndefined => Some false
               | _ => Json.le_zero StringToNumber (Supabase.price patch)
               end)).
  { intros patch. unfold productController.price_given_and_not_positive.
    destruct (Supabase.price patch); reflexivity. }
  pose proof (updateProduct_run StringToNumber backend req b) as H. cbv zeta in H.
  split; [|split; [|split; [|split]]].
  - intros patch Hid Hb Hp Hrow. rewrite Hid, Hb in H.
    assert (Ht : productController.price_given_and_not_positive StringToNumber patch
                 = Some false).
    { rewrite Htest. destruct Hp as [-> | Hp]; [reflexivity|].
      destruct (Supabase.price patch); try reflexivity; exact Hp. }
    rewrite Ht in H.
    destruct (ControllerSpec.existing_row backend req b); [exact H | contradiction].
  - intros c i patch Hin.
    apply updateProduct_calls in Hin as (Hb & -> & -> & Hrow & Hid & Ht).
    repeat split; try assumption.
    rewrite Htest in Ht. destruct (Supabase.price patch); auto.
  - intros patch Hid Hb Hne Hle. rewrite Hid, Hb, Htest in H.
    destruct (Supabase.price patch); try contradiction; rewrite Hle in H; exact H.
  - reflexivity.
  - intros p. cbn [Json.le_zero Json.ToNumber]. rewrite <- leb_zero_spec.
    destruct (JsNumber.leb p JsNumber.zero); split; congruence.
Qed.

Lemma updateProduct_forwards_partial_witness :
  exists response,
    Supabase.run
      (productController.updateProduct Sample.StringToNumber Sample.backend
         (Sample.authenticated "admin-token" (Sample.account "ada" "admin") "1"
            (Some (Sample.with_price Json.JUndefined Sample.book))))
      Sample.store
    = (response,
       [Supabase.CallSelectById (Supabase.Authenticated (Some (js "admin-token")))
          (JsNumber.of_Z 1);
        Supabase.CallUpdate (Supabase.Authenticated (Some (js "admin-token")))
          (JsNumber.of_Z 1) (Sample.with_price Json.JUndefined Sample.book)])
    /\ (Api.status response = 200 \/ Api.status response = 500).
Proof.
  refine (proj1 (updateProduct_forwards_partial Sample.StringToNumber Sample.backend
                   (Sample.authenticated "admin-token" (Sample.account "ada" "admin") "1"
                      (Some (Sample.with_price Json.JUndefined Sample.book)))
                   Sample.store)
            (Sample.with_price Json.JUndefined Sample.book) eq_refl eq_refl
            (or_introl eq_refl) _).
  vm_compute. discriminate.
Defined.

(** ** The id parameter *)

Section IdParameter.

Import JsString JsGlobal.

Lemma digits_app_stop (u rest : JsString.t) :
  from_option is_digit false (head rest) = false ->
  digits (u ++ rest) = digits u.
Proof.
  intros Hr. induction u as [|c u IH]; simpl.
  - destruct rest as [|r rest]; [reflexivity|].
    change (is_digit r = false) in Hr.
    cbn [app digits]. rewrite Hr. reflexivity.
  - cbn [app digits]. rewrite IH. reflexivity.
Qed.

Lemma trimStart_app (s rest : JsString.t) :
  trimStart s <> [] -> trimStart (s ++ rest) = trimStart s ++ rest.
Proof.
  induction s as [|c s IH]; simpl; [congruence|].
  destruct (is_space c); [exact IH | reflexivity].
Qed.

Lemma parseInt10_ignores_suffix (s rest : JsString.t) :
  trimStart s <> [] ->
  from_option is_digit false (head rest) = false ->
  parseInt10 (s ++ rest) = parseInt10 s.
Proof.
  intros Hs Hr. unfold parseInt10. rewrite (trimStart_app s rest Hs).
  destruct (trimStart s) as [|c t]; [congruence|].
  change ((c :: t) ++ rest) with (c :: (t ++ rest)).
  assert (Hc : forall (A : Type) (x y z : A) (r : JsString.t),
            c <> 45%N -> c <> 43%N ->
            match c :: r with
            | 45%N :: _ => x | 43%N :: _ => y | _ => z end = z).
  { intros A x y z r H45 H43. destruct c as [|q]; [reflexivity|].
    repeat (destruct q as [q|q|]; try reflexivity; try congruence). }
  destruct (N.eq_dec c 45%N) as [->|E45].
  - rewrite (digits_app_stop t rest Hr). reflexivity.
  - destruct (N.eq_dec c 43%N) as [->|E43].
    + rewrite (digits_app_stop t rest Hr). reflexivity.
    + rewrite !Hc by assumption.
      rewrite (app_comm_cons t rest c), (digits_app_stop (c :: t) rest Hr). reflexivity.
Qed.

(** The shape of a rounded value: its sign is the sign asked for. *)
Lemma binary_round_aux_sign (sx : bool) (mx ex : Z) (lx : location) :
  let r := binary_round_aux JsNumber.prec JsNumber.emax sx mx ex lx in
  r = S754_zero sx \/ r = S754_infinity sx \/ r = S754_nan \/ exists m e, r = S754_finite sx m e.
Proof.
  cbv zeta. unfold binary_round_aux.
  destruct (shr_fexp _ _ mx ex lx) as [mrs' e'].
  destruct (shr_fexp _ _ _ e' loc_Exact) as [mrs'' e''].
  destruct (shr_m mrs'') as [|m|m]; auto.
  destruct (e'' <=? JsNumber.emax - JsNumber.prec); eauto 6.
Qed.

Lemma digits_nonneg (s : JsString.t) : Forall (fun d : Z => 0 <= d) (digits s).
Proof.
  induction s as [|c s IH]; cbn [digits]; [constructor|].
  destruct (is_digit c); constructor; [lia | exact IH].
Qed.

Lemma decimal_value_nonneg (ds : list Z) :
  Forall (fun d : Z => 0 <= d) ds -> 0 <= decimal_value ds.
Proof.
  unfold decimal_value. intros H.
  assert (G : forall acc : Z, 0 <= acc ->
            0 <= fold_left (fun acc d : Z => 10 * acc + d) ds acc);
    [|apply G; lia].
  induction H as [|d ds Hd _ IH]; intros acc Hacc; cbn [fold_left]; [exact Hacc|].
  apply IH. lia.
Qed.

Lemma parseInt10_negative (s t : JsString.t) :
  trimStart s = 45%N :: t ->
  productController.invalid_id (parseInt10 s) = true.
Proof.
  intros Hs. unfold parseInt10. rewrite Hs.
  pose proof (decimal_value_nonneg (digits t) (digits_nonneg t)) as Hn.
  destruct (digits t) as [|d ds]; [reflexivity|].
  set (n := decimal_value (d :: ds)) in *.
  unfold binary_normalize. destruct n as [|p|p]; [reflexivity| |lia].
  change (- Z.pos p) with (Z.neg p). cbv iota. unfold binary_round.
  match goal with |- context [let '(_, _) := ?x in _] => destruct x as [mz ez] end.
  destruct (binary_round_aux_sign true (Z.pos mz) ez loc_Exact)
    as [H|[H|[H|(m & e & H)]]]; cbv zeta in H; rewrite H; reflexivity.
Qed.

End IdParameter.

Section IdControllers.

Import Supabase Api JsString JsGlobal RouteSpec.

Variable StringToNumber : JsString.t -> JsNumber.t.

Context {B : Type} (backend : Oracle B).

(** Extra X7: the id parameter is read by parseInt, so whatever follows its
    digits is ignored. For a parameter [s] that is not only white space and
    a tail [rest] that does not start with a digit, the requests for
    [s ++ rest] and for [s] are handled alike by GET, PUT and DELETE on
    /products/:id: same response, same calls to the backend. *)
Theorem id_parameter_suffix_ignored
  (req : AuthenticatedRequest) (s rest : JsString.t) (b : B) :
  trimStart s <> [] ->
  from_option is_digit false (head rest) = false ->
  run (productReadController.getProductById backend (with_id req (s ++ rest))) b
  = run (productReadController.getProductById backend (with_id req s)) b
  /\ run (productController.updateProduct StringToNumber backend (with_id req (s ++ rest))) b
     = run (productController.updateProduct StringToNumber backend (with_id req s)) b
  /\ run (productController.deleteProduct backend (with_id req (s ++ rest))) b
     = run (productController.deleteProduct backend (with_id req s)) b.
Proof.
  intros Hs Hr.
  unfold productReadController.getProductById, productController.updateProduct,
    productController.deleteProduct.
  cbn [with_id params_id body accessToken].
  rewrite (parseInt10_ignores_suffix s rest Hs Hr).
  repeat split; reflexivity.
Qed.

(** Extra X8: an id parameter with a minus sign after its leading white
    space is never looked up: GET, PUT and DELETE on /products/:id answer
    400 Invalid product ID and call the backend not at all, whatever
    follows the sign. *)
Theorem negative_id_rejected
  (req : AuthenticatedRequest) (t : JsString.t) (b : B) :
  trimStart (params_id req) = 45%N :: t ->
  run (productReadController.getProductById backend req) b
  = (productController.invalid_id_response, [])
  /\ run (productController.updateProduct StringToNumber backend req) b
     = (productController.invalid_id_response, [])
  /\ run (productController.deleteProduct backend req) b
     = (productController.invalid_id_response, []).
Proof.
  intros Hs.
  unfold productReadController.getProductById, productController.updateProduct,
    productController.deleteProduct.
  cbv zeta. rewrite (parseInt10_negative (params_id req) t Hs).
  repeat split; reflexivity.
Qed.

End IdControllers.

Lemma id_parameter_suffix_ignored_witness :
  JsString.trimStart (js "7") <> []
  /\ from_option JsString.is_digit false (head (js "abc")) = false
  /\ Supabase.run (productController.deleteProduct Sample.backend
            (RouteSpec.with_id (Sample.request None "1" None) (js "7" ++ js "abc"))) Sample.store
     = Supabase.run (productController.deleteProduct Sample.backend
              (RouteSpec.with_id (Sample.request None "1" None) (js "7"))) Sample.store.
Proof.
  split; [vm_compute; congruence|]. split; [reflexivity|].
  apply (id_parameter_suffix_ignored Sample.StringToNumber Sample.backend (Sample.request None "1" None) (js "7") (js "abc")
           Sample.store); [vm_compute; congruence | reflexivity].
Defined.

Lemma negative_id_rejected_witness :
  Supabase.run (productController.deleteProduct Sample.backend
         (RouteSpec.with_id (Sample.request None "1" None) (js " -7"))) Sample.store
  = (productController.invalid_id_response, []).
Proof.
  apply (negative_id_rejected Sample.StringToNumber Sample.backend
           (RouteSpec.with_id (Sample.request None "1" None) (js " -7")) (js "7") Sample.store).
  reflexivity.
Defined.

(** ** The rate limiter, client by client *)

Section LimiterClients.

Import JsString Http RateLimit RateLimitSpec ClientView.

Variables maxRequests windowMs : Z.

(** The outcome of a request and the entry it leaves for its identifier
    depend on the store through that entry only. *)
Lemma step_local (req : Request) (now : Z) (m m' : gmap JsString.t Entry) :
  m !! identifier req = m' !! identifier req ->
  (rateLimitByOrigin maxRequests windowMs req now m).1
  = (rateLimitByOrigin maxRequests windowMs req now m').1
  /\ (rateLimitByOrigin maxRequests windowMs req now m).2 !! identifier req
     = (rateLimitByOrigin maxRequests windowMs req now m').2 !! identifier req.
Proof.
  intros H. unfold rateLimitByOrigin. rewrite <- H.
  destruct (m !! identifier req) as [e|] eqn:He; cbn [fst snd].
  - destruct (now >? resetTime e); cbn [fst snd].
    + split; [reflexivity|]. rewrite !lookup_insert_eq. reflexivity.
    + destruct (count e >=? maxRequests); cbn [fst snd].
      * split; [reflexivity|]. rewrite <- H. exact He.
      * split; [reflexivity|]. rewrite !lookup_insert_eq. reflexivity.
  - split; [reflexivity|]. rewrite !lookup_insert_eq. reflexivity.
Qed.

(** Where an entry of the final store comes from: it was in the store
    at the start and has kept its reset time, or a request of its
    identifier opened its window. *)
Lemma serve_provenance (reqs : list (Request * Z)) :
  forall (m : gmap JsString.t Entry) (id : JsString.t) (e : Entry),
    (serve maxRequests windowMs reqs m).2 !! id = Some e ->
    (exists e0, m !! id = Some e0 /\ resetTime e = resetTime e0 /\ count e0 <= count e)
    \/ (1 <= count e /\
        exists (req : Request) (now : Z),
          In (req, now) reqs /\ identifier req = id /\ resetTime e = now + windowMs).
Proof.
  induction reqs as [|[req now] reqs IH]; intros m id e He.
  - left. exists e. cbn in He. repeat split; [exact He | lia].
  - rewrite serve_cons in He. cbn [snd] in He.
    destruct (IH _ _ _ He) as [(e0 & H0 & Hr & Hc) | (Hc & r & n & Hin & Hid & Hr)].
    + destruct (decide (identifier req = id)) as [Heq|Hne].
      * subst id. revert H0. unfold rateLimitByOrigin.
        destruct (m !! identifier req) as [e1|] eqn:E1; cbn [snd].
        -- destruct (now >? resetTime e1); cbn [snd].
           ++ rewrite lookup_insert_eq. intros [= <-]. cbn [count resetTime] in *.
              right. split; [lia|]. exists req, now.
              repeat split; [left; reflexivity | exact Hr].
           ++ destruct (count e1 >=? maxRequests); cbn [snd].
              ** rewrite E1. intros [= <-]. left. exists e1. repeat split; assumption.
              ** rewrite lookup_insert_eq. intros [= <-]. cbn [count resetTime] in *.
                 left. exists e1. repeat split; [exact Hr | lia].
        -- rewrite lookup_insert_eq. intros [= <-]. cbn [count resetTime] in *.
           right. split; [lia|]. exists req, now.
           repeat split; [left; reflexivity | exact Hr].
      * rewrite (step_other maxRequests windowMs req now m id Hne) in H0.
        left. exists e0. repeat split; assumption.
    + right. split; [exact Hc|]. exists r, n. repeat split; [right; exact Hin | exact Hid | exact Hr].
Qed.

(** The limiter never forgets an identifier. *)
Lemma serve_keeps (reqs : list (Request * Z)) :
  forall (m : gmap JsString.t Entry) (id : JsString.t),
    is_Some (m !! id) \/ (exists (req : Request) (now : Z), In (req, now) reqs /\ identifier req = id) ->
    is_Some ((serve maxRequests windowMs reqs m).2 !! id).
Proof.
  induction reqs as [|[req now] reqs IH]; intros m id H.
  - destruct H as [H | (r & n & [] & _)]. exact H.
  - rewrite serve_cons. cbn [snd]. apply IH.
    assert (Hstep : is_Some (m !! id) \/ identifier req = id ->
                    is_Some ((rateLimitByOrigin maxRequests windowMs req now m).2 !! id)).
    { intros Hs. destruct (decide (identifier req = id)) as [Heq|Hne].
      - subst id. unfold rateLimitByOrigin.
        destruct (m !! identifier req) as [e1|] eqn:E1; cbn [snd].
        + destruct (now >? resetTime e1); cbn [snd]; [rewrite lookup_insert_eq; eauto|].
          destruct (count e1 >=? maxRequests); cbn [snd];
            [rewrite E1; eauto | rewrite lookup_insert_eq; eauto].
        + rewrite lookup_insert_eq; eauto.
      - rewrite (step_other maxRequests windowMs req now m id Hne).
        destruct Hs as [Hs|Hs]; [exact Hs | contradiction]. }
    destruct H as [H | (r & n & [Hin|Hin] & Hid)].
    + left. apply Hstep. left. exact H.
    + injection Hin as <- <-. left. apply Hstep. right. exact Hid.
    + right. exists r, n. split; assumption.
Qed.

End LimiterClients.

(** Extra X9: the limiter treats every client on its own. Of a run of
    requests served in order from any store, the outcomes of the requests
    of one identifier, and the entry the run leaves for it, are those of
    serving the requests of that identifier alone: the requests of other
    clients neither use up its quota nor reset its window. *)
Theorem rateLimit_clients_isolated (maxRequests windowMs : Z) (id : JsString.t)
    (reqs : list (Http.Request * Z)) (m : gmap JsString.t RateLimit.Entry) :
  ClientView.outcomes_of id reqs (RateLimit.serve maxRequests windowMs reqs m).1
  = (RateLimit.serve maxRequests windowMs (List.filter (ClientView.from_client id) reqs) m).1
  /\ (RateLimit.serve maxRequests windowMs reqs m).2 !! id
     = (RateLimit.serve maxRequests windowMs (List.filter (ClientView.from_client id) reqs) m).2
       !! id.
Proof.
  (* the two runs go through different stores that agree on the entry of [id] *)
  assert (G : forall m m' : gmap JsString.t RateLimit.Entry,
            m !! id = m' !! id ->
            ClientView.outcomes_of id reqs (RateLimit.serve maxRequests windowMs reqs m).1
            = (RateLimit.serve maxRequests windowMs
                 (List.filter (ClientView.from_client id) reqs) m').1
            /\ (RateLimit.serve maxRequests windowMs reqs m).2 !! id
               = (RateLimit.serve maxRequests windowMs
                    (List.filter (ClientView.from_client id) reqs) m').2 !! id);
    [|apply G; reflexivity].
  clear m. induction reqs as [|[req now] reqs IH]; intros m m' H;
    [split; [reflexivity | exact H]|].
  rewrite serve_cons. unfold ClientView.outcomes_of.
  cbn [List.combine List.filter fst snd].
  destruct (ClientView.from_client id (req, now)) eqn:E;
    unfold ClientView.from_client in E; cbn [fst] in E.
  - apply eqb_eq in E. subst id.
    destruct (step_local maxRequests windowMs req now m m' H) as [Ho Hm].
    rewrite serve_cons. cbn [List.map fst snd].
    destruct (IH _ _ Hm) as [IHo IHm]. unfold ClientView.outcomes_of in IHo.
    rewrite IHo, Ho. split; [reflexivity | exact IHm].
  - assert (Hne : RateLimit.identifier req <> id).
    { intros Heq. apply eqb_eq in Heq. congruence. }
    apply IH. rewrite (step_other maxRequests windowMs req now m id Hne). exact H.
Qed.

(** Extra X10: the entries of the map are exactly the identifiers seen.
    After any run of requests served from the empty store an identifier
    has an entry if and only if one of the requests came from it (no entry
    is ever removed, also not once its window has passed), and such an
    entry counts at least one request and resets one window after the
    arrival of a request of that identifier. *)
Theorem requestCounts_entries (maxRequests windowMs : Z)
    (reqs : list (Http.Request * Z)) (id : JsString.t) :
  (is_Some ((RateLimit.serve maxRequests windowMs reqs ∅).2 !! id)
   <-> exists (req : Http.Request) (now : Z),
         In (req, now) reqs /\ RateLimit.identifier req = id)
  /\ forall e : RateLimit.Entry,
       (RateLimit.serve maxRequests windowMs reqs ∅).2 !! id = Some e ->
       1 <= RateLimit.count e
       /\ exists (req : Http.Request) (now : Z),
            In (req, now) reqs /\ RateLimit.identifier req = id
            /\ RateLimit.resetTime e = now + windowMs.
Proof.
  assert (P : forall e : RateLimit.Entry,
            (RateLimit.serve maxRequests windowMs reqs ∅).2 !! id = Some e ->
            1 <= RateLimit.count e
            /\ exists (req : Http.Request) (now : Z),
                 In (req, now) reqs /\ RateLimit.identifier req = id
                 /\ RateLimit.resetTime e = now + windowMs).
  { intros e He.
    destruct (serve_provenance maxRequests windowMs reqs ∅ id e He)
      as [(e0 & H0 & _) | H]; [|exact H].
    rewrite lookup_empty in H0. discriminate. }
  split; [split|exact P].
  - intros [e He]. destruct (P e He) as (_ & req & now & Hin & Hid & _).
    exists req, now. split; assumption.
  - intros H. apply serve_keeps. right. exact H.
Qed.

(** ** The origin check, outcome by outcome *)

Section OriginCheck.

Import JsString Http Cors CorsSpec.

Variable parser : JsString.t -> JsString.t -> option JsString.t.

Lemma strip_leading_Forall (P : char16 -> Prop) (p : char16 -> bool) (s : JsString.t) :
  Forall P s -> Forall P (strip_leading p s).
Proof.
  induction 1 as [|c s Hc Hs IH]; cbn [strip_leading]; [constructor|].
  destruct (p c); [exact IH | constructor; assumption].
Qed.

Lemma rev_Forall (P : char16 -> Prop) (s : JsString.t) : Forall P s -> Forall P (rev s).
Proof.
  intros H. apply List.Forall_forall. intros x Hx. apply in_rev in Hx.
  revert x Hx. apply List.Forall_forall. exact H.
Qed.

Lemma remove_chars_Forall (P : char16 -> Prop) (p : char16 -> bool) (s : JsString.t) :
  Forall P s -> Forall P (remove_chars p s).
Proof.
  intros H. unfold remove_chars. apply List.Forall_forall. intros x Hx.
  apply filter_In in Hx as [Hx _]. revert x Hx. apply List.Forall_forall. exact H.
Qed.

Lemma URL_preprocess_Forall (P : char16 -> Prop) (s : JsString.t) :
  Forall P s -> Forall P (URL_preprocess s).
Proof.
  intros H. unfold URL_preprocess.
  apply remove_chars_Forall, rev_Forall, strip_leading_Forall, rev_Forall,
    strip_leading_Forall. exact H.
Qed.

Lemma scan_scheme_no_colon (s : JsString.t) :
  Forall (fun c : char16 => c <> 58%N) s ->
  forall acc : JsString.t, scan_scheme acc s = None.
Proof.
  induction 1 as [|c s Hc Hs IH]; intros acc; cbn [scan_scheme]; [reflexivity|].
  destruct (N.eqb_spec c 58); [contradiction|].
  destruct (is_scheme_char c); [apply IH | reflexivity].
Qed.

Lemma split_scheme_no_colon (s : JsString.t) :
  Forall (fun c : char16 => c <> 58%N) s -> split_scheme s = None.
Proof.
  intros H. destruct H as [|c s Hc Hs]; cbn [split_scheme]; [reflexivity|].
  destruct (is_alpha c); [apply scan_scheme_no_colon; exact Hs | reflexivity].
Qed.

Lemma strip_leading_snoc (p : char16 -> bool) (l : JsString.t) (c : char16) :
  p c = false -> strip_leading p (l ++ [c]) = strip_leading p l ++ [c].
Proof.
  intros Hc. induction l as [|x l IH]; cbn [strip_leading app].
  - rewrite Hc. reflexivity.
  - destruct (p x); [exact IH | reflexivity].
Qed.

Lemma URL_preprocess_head (c : char16) (s : JsString.t) :
  is_c0_or_space c = false -> is_tab_or_newline c = false ->
  exists t : JsString.t, URL_preprocess (c :: s) = c :: t.
Proof.
  intros Hc Ht. unfold URL_preprocess. cbn [strip_leading]. rewrite Hc.
  cbn [rev]. rewrite (strip_leading_snoc _ _ _ Hc), rev_app_distr. cbn [rev app].
  unfold remove_chars. cbn [List.filter]. rewrite Ht. cbn [negb]. eauto.
Qed.

Lemma new_URL_host_no_scheme (r : JsString.t) :
  split_scheme (URL_preprocess r) = None ->
  new_URL_host parser r = inl (TypeError "Invalid URL").
Proof. intros H. unfold new_URL_host. rewrite H. reflexivity. Qed.

Lemma enhancedCors_no_origin (env : Env) (req : Request) :
  truthy_opt (origin req) = false ->
  enhancedCors parser env req
  = match isFromSameDomain parser (referer req) req with
    | inl e => Threw e
    | inr true => after_origin_check (js "*") req
    | inr false => Responded 403 [] (Some forbidden_body)
    end.
Proof. intros Ho. unfold enhancedCors. rewrite Ho. reflexivity. Qed.

(** Extra X11: what an outcome of the origin check tells. When the
    middleware calls [next], the request is not a preflight and passed the
    check, and the headers assigned are Access-Control-Allow-Origin (the
    listed origin, or a star for a same-host Referer) and the three fixed
    ones; an answer is 200 to a preflight that passed the check, or 403
    with no header for a request that failed it; and the middleware throws
    only on a request without Origin whose Referer is not a URL. So no
    request with an Origin off the allow-list is ever passed on. *)
Theorem enhancedCors_outcomes (env : Env) (req : Request) :
  match enhancedCors parser env req with
  | Next h =>
      method req <> js "OPTIONS"
      /\ exists allow : JsString.t,
           origin_accepted parser env req allow
           /\ h = ("Access-Control-Allow-Origin"%string, allow) :: cors_headers
  | Responded s h body =>
      (s = 200 /\ body = None /\ method req = js "OPTIONS"
       /\ exists allow : JsString.t,
            origin_accepted parser env req allow
            /\ h = ("Access-Control-Allow-Origin"%string, allow) :: cors_headers)
      \/ (s = 403 /\ h = [] /\ body = Some forbidden_body /\ origin_rejected parser env req)
  | Threw e =>
      truthy_opt (origin req) = false /\ referer_unparseable parser req
  end.
Proof.
  assert (Tail : forall allow : JsString.t,
            origin_accepted parser env req allow ->
            (method req = js "OPTIONS"
             /\ after_origin_check allow req
                = Responded 200 (("Access-Control-Allow-Origin"%string, allow) :: cors_headers)
                    None)
            \/ (method req <> js "OPTIONS"
                /\ after_origin_check allow req
                   = Next (("Access-Control-Allow-Origin"%string, allow) :: cors_headers))).
  { intros allow Ha. unfold after_origin_check.
    destruct (JsString.eqb (method req) (js "OPTIONS")) eqn:Em.
    - left. apply eqb_eq in Em. split; [exact Em | reflexivity].
    - right. split; [|reflexivity]. intros Heq. apply eqb_eq in Heq. congruence. }
  unfold enhancedCors.
  destruct (truthy_opt (origin req)) eqn:Ho; cbn [andb negb].
  - destruct (origin req) as [o|] eqn:Eo; [|discriminate].
    change (default [] (Some o)) with o.
    cbn [truthy_opt] in Ho.
    destruct (includes (getAllowedOrigins env) o) eqn:Hi.
    + assert (Ha : origin_accepted parser env req o)
        by (apply accepted_listed; [exact Eo | apply includes_In; exact Hi]).
      destruct (Tail o Ha) as [[Hm ->] | [Hm ->]]; [left|]; repeat split; eauto.
    + cbv beta iota. right. repeat split. apply (rejected_unlisted parser env req o);
        [exact Eo | apply truthy_nonempty; exact Ho |].
      intros Hin. apply includes_In in Hin. congruence.
  - unfold isFromSameDomain.
    destruct (referer req) as [r|] eqn:Er; cbn [truthy_opt negb default].
    + destruct (truthy r) eqn:Hr; cbn [negb].
      * apply truthy_nonempty in Hr. change (id r) with r.
        destruct (new_URL_host parser r) as [e|h] eqn:Hp.
        -- cbv beta iota. split; [reflexivity|]. exists r, e. repeat split; assumption.
        -- cbv beta iota zeta. destruct (bool_decide (Some h = host req)) eqn:Hh.
           ++ apply bool_decide_eq_true in Hh.
              assert (Ha : origin_accepted parser env req (js "*"))
                by (apply (accepted_same_domain parser env req r h); auto).
              destruct (Tail (js "*") Ha) as [[Hm ->] | [Hm ->]]; [left|];
                repeat split; eauto.
           ++ apply bool_decide_eq_false in Hh. cbv beta iota. right. repeat split.
              apply (rejected_other_host parser env req r h); auto.
      * cbv beta iota. right. repeat split. apply rejected_no_referer; [exact Ho|].
        rewrite Er. cbn [truthy_opt]. exact Hr.
    + cbv beta iota. right. repeat split. apply rejected_no_referer; [exact Ho|].
      rewrite Er. reflexivity.
Qed.

(** Extra X12: the allow-list, whatever the environment. An origin is on
    the list exactly when it is one of the two local development origins
    or https:// followed by the non-empty value of VERCEL_URL or of
    CUSTOM_DOMAIN; so in every deployment a request that names a local
    development origin passes the origin check and gets that origin back
    in Access-Control-Allow-Origin. *)
Theorem local_origins_always_allowed (env : Env) :
  (forall o : JsString.t,
     In o (getAllowedOrigins env)
     <-> o = js "http://localhost:3000" \/ o = js "http://127.0.0.1:3000"
         \/ exists v : JsString.t,
              (VERCEL_URL env = Some v \/ CUSTOM_DOMAIN env = Some v)
              /\ v <> [] /\ o = js "https://" ++ v)
  /\ forall (req : Request) (o : JsString.t),
       origin req = Some o ->
       o = js "http://localhost:3000" \/ o = js "http://127.0.0.1:3000" ->
       enhancedCors parser env req = after_origin_check o req.
Proof.
  assert (L : forall o : JsString.t,
            In o (getAllowedOrigins env)
            <-> o = js "http://localhost:3000" \/ o = js "http://127.0.0.1:3000"
                \/ exists v : JsString.t,
                     (VERCEL_URL env = Some v \/ CUSTOM_DOMAIN env = Some v)
                     /\ v <> [] /\ o = js "https://" ++ v).
  { intros o. unfold getAllowedOrigins.
    destruct (VERCEL_URL env) as [v|] eqn:Ev; destruct (CUSTOM_DOMAIN env) as [d|] eqn:Ed;
      try (destruct v as [|v0 v]); try (destruct d as [|d0 d]); cbn [truthy];
      rewrite ?in_app_iff; cbn [In]; split; intros H;
      repeat match goal with
             | H : _ \/ _ |- _ => destruct H as [H|H]
             | H : False |- _ => destruct H
             | H : exists _, _ |- _ => destruct H as (? & H & ? & ?)
             | H : Some _ = Some _ |- _ => injection H as H; subst
             | H : None = Some _ |- _ => discriminate H
             end;
      subst; try congruence; eauto 10. }
  split; [exact L|].
  intros req o Ho Hl. apply enhancedCors_accepted. apply accepted_listed; [exact Ho|].
  apply L. destruct Hl as [Hl|Hl]; auto.
Qed.

(** Extra X13: a Referer without a scheme is never answered by the origin
    check. For a request without Origin whose Referer is not empty and
    either contains no colon, or starts with a character that is neither
    a letter nor a space or control character (a path, or a URL that
    starts with two slashes), the middleware throws the TypeError of the
    URL constructor, whatever the parser of the rest of a URL does. *)
Theorem referer_without_scheme_throws (env : Env) (req : Request) (r : JsString.t) :
  truthy_opt (origin req) = false ->
  referer req = Some r ->
  (r <> [] /\ ~ In 58%N r)
  \/ (exists (c : char16) (r' : JsString.t),
        r = c :: r' /\ is_alpha c = false /\ is_c0_or_space c = false
        /\ is_tab_or_newline c = false) ->
  enhancedCors parser env req = Threw (TypeError "Invalid URL").
Proof.
  intros Ho Hr Hshape.
  assert (Hne : truthy r = true).
  { destruct Hshape as [[Hne _] | (c & r' & -> & _)]; [|reflexivity].
    apply truthy_nonempty. exact Hne. }
  assert (Hs : split_scheme (URL_preprocess r) = None).
  { destruct Hshape as [[_ H58] | (c & r' & -> & Ha & Hc & Ht)].
    - apply split_scheme_no_colon, URL_preprocess_Forall.
      apply List.Forall_forall. intros x Hx Heq. subst x. contradiction.
    - destruct (URL_preprocess_head c r' Hc Ht) as [t ->].
      cbn [split_scheme]. rewrite Ha. reflexivity. }
  rewrite (enhancedCors_no_origin env req Ho). unfold isFromSameDomain.
  rewrite Hr. cbn [truthy_opt]. change (default [] (Some r)) with r.
  rewrite Hne. cbn [negb].
  rewrite (new_URL_host_no_scheme r Hs). reflexivity.
Qed.

(** Extra X24: [isValidUrl] and the origin check agree on what a URL is.
    A string without a colon is not a valid URL; and for a request without
    Origin and with a non-empty Referer, the origin check throws exactly
    when [isValidUrl] rejects the Referer, and answers or passes the
    request on exactly when it accepts it. *)
Theorem isValidUrl_decides_throw (env : Env) (req : Request) (r : JsString.t) :
  (~ In 58%N r -> Validators.isValidUrl parser r = false)
  /\ (truthy_opt (origin req) = false -> referer req = Some r -> r <> [] ->
      (Validators.isValidUrl parser r = false
       <-> enhancedCors parser env req = Threw (TypeError "Invalid URL"))
      /\ (Validators.isValidUrl parser r = true
          <-> exists h : JsString.t,
                new_URL_host parser r = inr h
                /\ enhancedCors parser env req
                   = if bool_decide (Some h = host req)
                     then after_origin_check (js "*") req
                     else Responded 403 [] (Some forbidden_body))).
Proof.
  split.
  - intros H58. unfold Validators.isValidUrl.
    rewrite new_URL_host_no_scheme; [reflexivity|].
    apply split_scheme_no_colon, URL_preprocess_Forall.
    apply List.Forall_forall. intros x Hx Heq. subst x. contradiction.
  - intros Ho Hr Hne. apply truthy_nonempty in Hne.
    rewrite (enhancedCors_no_origin env req Ho). unfold isFromSameDomain.
    rewrite Hr. cbn [truthy_opt]. change (default [] (Some r)) with r.
    rewrite Hne. cbn [negb]. unfold Validators.isValidUrl.
    destruct (new_URL_host parser r) as [e|h] eqn:Hp.
    + assert (He : e = TypeError "Invalid URL").
      { unfold new_URL_host in Hp.
        destruct (split_scheme (URL_preprocess r)) as [[scheme rest]|];
          [destruct (parser scheme rest)|]; congruence. }
      subst e. split; [split; reflexivity|].
      split; [discriminate | intros (h & Hh & _); discriminate].
    + cbv beta iota zeta. split.
      * split; [discriminate|].
        destruct (bool_decide (Some h = host req)); [|discriminate].
        unfold after_origin_check. destruct (JsString.eqb _ _); discriminate.
      * split; [|reflexivity]. intros _. exists h. split; [reflexivity|].
        destruct (bool_decide (Some h = host req)); reflexivity.
Qed.

End OriginCheck.

Lemma referer_without_scheme_throws_witness :
  Cors.enhancedCors CorsSpec.plain_http_host Sample.no_env
    (Sample.browser "GET" None (Some "//example.com/page"%string) (Some "example.com"%string))
  = Http.Threw (Http.TypeError "Invalid URL").
Proof.
  apply (referer_without_scheme_throws CorsSpec.plain_http_host Sample.no_env
           (Sample.browser "GET" None (Some "//example.com/page"%string)
              (Some "example.com"%string))
           (js "//example.com/page")); [reflexivity | reflexivity |].
  right. exists 47%N, (js "/example.com/page"). repeat split; reflexivity.
Defined.

(** ** The search filter sent to the database *)

Section SearchFilter.

Import JsString SearchTerm Supabase supabaseService.

Lemma trimStart_Forall (P : char16 -> Prop) (s : JsString.t) :
  Forall P s -> Forall P (trimStart s).
Proof.
  induction 1 as [|c s Hc Hs IH]; cbn [trimStart]; [constructor|].
  destruct (is_space c); [exact IH | constructor; assumption].
Qed.

Lemma trim_Forall (P : char16 -> Prop) (s : JsString.t) : Forall P s -> Forall P (trim s).
Proof.
  intros H. unfold trim, trimEnd.
  apply rev_Forall, trimStart_Forall, rev_Forall, trimStart_Forall. exact H.
Qed.

Lemma remove_pair_Forall (P : char16 -> Prop) (a b : char16) (s : JsString.t) :
  Forall P s -> Forall P (remove_pair a b s).
Proof.
  assert (G : forall (n : nat) (s : JsString.t),
            (length s <= n)%nat -> Forall P s -> Forall P (remove_pair a b s)).
  { clear s. induction n as [|n IH]; intros s Hn HF.
    - destruct s; [constructor | cbn in Hn; lia].
    - destruct s as [|x [|y rest]]; [constructor | exact HF |].
      change (remove_pair a b (x :: y :: rest))
        with (if N.eqb x a && N.eqb y b then remove_pair a b rest
              else x :: remove_pair a b (y :: rest)).
      apply Forall_cons in HF as [Hx HF].
      destruct (N.eqb x a && N.eqb y b).
      + apply IH; [cbn in Hn |- *; lia|]. apply Forall_cons in HF as [_ HF]. exact HF.
      + constructor; [exact Hx|]. apply IH; [cbn in Hn |- *; lia | exact HF]. }
  apply (G (length s) s). lia.
Qed.

Lemma remove_chars_clean (p : char16 -> bool) (s : JsString.t) :
  Forall (fun c : char16 => p c = false) (remove_chars p s).
Proof.
  unfold remove_chars. apply List.Forall_forall. intros x Hx.
  apply filter_In in Hx as [_ Hx]. apply negb_true_iff. exact Hx.
Qed.

Lemma cleaned_no_dangerous (term : JsString.t) :
  Forall (fun c : char16 => is_dangerous c = false) (cleaned term).
Proof.
  unfold cleaned. apply trim_Forall. do 3 apply remove_pair_Forall.
  apply remove_chars_clean.
Qed.

Lemma trimStart_head (s : JsString.t) :
  from_option is_space false (head (trimStart s)) = false.
Proof.
  induction s as [|c s IH]; cbn [trimStart]; [reflexivity|].
  destruct (is_space c) eqn:E; [exact IH | exact E].
Qed.

Lemma last_rev_head (s : JsString.t) : last (rev s) = head s.
Proof. destruct s as [|c s]; [reflexivity|]. cbn [rev head]. apply last_snoc. Qed.

Lemma trimStart_snoc (l : JsString.t) (c : char16) :
  is_space c = false -> trimStart (l ++ [c]) = trimStart l ++ [c].
Proof.
  intros Hc. induction l as [|x l IH]; cbn [trimStart app].
  - rewrite Hc. reflexivity.
  - destruct (is_space x); [exact IH | reflexivity].
Qed.

Lemma trim_ends (s : JsString.t) :
  from_option is_space false (head (trim s)) = false
  /\ from_option is_space false (last (trim s)) = false.
Proof.
  unfold trim, trimEnd. split.
  - pose proof (trimStart_head s) as H.
    destruct (trimStart s) as [|c t]; [reflexivity|]. cbn [head from_option] in H.
    cbn [rev]. rewrite (trimStart_snoc _ _ H), rev_app_distr. exact H.
  - rewrite last_rev_head. apply trimStart_head.
Qed.

(** The query built for a term that is a string, or for no term. *)
Lemma products_query_filter (search : option JsString.t) :
  from (products_query search) = "products"%string
  /\ select (products_query search) = "*"%string
  /\ limit (products_query search) = 100
  /\ order (products_query search) = "created_at"%string
  /\ ascending (products_query search) = false
  /\ match or (products_query search) with
     | Some f =>
         exists term : JsString.t,
           search = Some term /\ f = or_filter (cleaned term)
           /\ cleaned term <> []
           /\ Forall (fun c : char16 => is_dangerous c = false) (cleaned term)
           /\ from_option is_space false (head (cleaned term)) = false
           /\ from_option is_space false (last (cleaned term)) = false
           /\ ~ contains_keyword_word (cleaned term)
     | None =>
         truthy_opt search = false
         \/ exists term : JsString.t,
              search = Some term
              /\ (cleaned term = [] \/ contains_keyword_word (cleaned term))
     end.
Proof.
  unfold products_query.
  destruct search as [term|]; cbn [truthy_opt];
    [|repeat split; left; reflexivity].
  destruct (truthy term) eqn:Ht; [|repeat split; left; reflexivity].
  change (default [] (Some term)) with term.
  unfold sanitizeSearchTerm.
  destruct (sqlKeywords_test (cleaned term)) eqn:Hk.
  - repeat split. right. exists term. split; [reflexivity|]. right.
    apply sqlKeywords_test_spec. exact Hk.
  - destruct (cleaned term) as [|c t] eqn:Hc.
    + repeat split. right. exists term. split; [reflexivity|]. left. exact Hc.
    + cbn [length truthy or from select limit order ascending base_query].
      change (0 <? N.of_nat (S (length t)))%N with true. cbv iota.
      cbn [length truthy or from select limit order ascending base_query].
      repeat split. exists term.
      split; [reflexivity|]. split; [rewrite Hc; reflexivity|].
      split; [rewrite Hc; discriminate|].
      split; [apply cleaned_no_dangerous|].
      split; [apply trim_ends|]. split; [apply trim_ends|].
      intros Hw. apply sqlKeywords_test_spec in Hw. rewrite Hc in Hw. congruence.
Qed.

Context {B : Type} (backend : Oracle B).

(** Extra X14: what reaches the database of a search. When the search
    parameter is a string, the listing issues one select, which reads at
    most 100 rows of the table products, newest first; its filter, if any,
    is the title-or-author pattern built from the cleaned term, which then
    is not empty, has no semicolon, quote or backslash, neither starts nor
    ends with white space and contains no reserved keyword as a whole word;
    and the select is unfiltered exactly when the cleaned term is empty or
    contains a reserved keyword as a whole word. When the parameter is
    missing, or otherwise falsy, the select is the unfiltered one. When it
    is any other value (the array or object the query parser makes of a
    repeated or bracketed key), the sanitiser throws, no select is issued
    and the answer is 500. *)
Theorem search_filter (search : JsValue.t) (req : Api.AuthenticatedRequest) (b : B) :
  exists response : productReadController.ListResponse,
    match search with
    | JsValue.VString term =>
        exists q : Query,
          run (productReadController.getProducts backend search req) b
          = (response, [CallSelect (client_for (Api.accessToken req)) q])
          /\ from q = "products"%string
          /\ select q = "*"%string
          /\ limit q = 100
          /\ order q = "created_at"%string
          /\ ascending q = false
          /\ match or q with
             | Some f =>
                 f = or_filter (cleaned term)
                 /\ cleaned term <> []
                 /\ Forall (fun c : char16 => is_dangerous c = false) (cleaned term)
                 /\ from_option is_space false (head (cleaned term)) = false
                 /\ from_option is_space false (last (cleaned term)) = false
                 /\ ~ contains_keyword_word (cleaned term)
             | None => cleaned term = [] \/ contains_keyword_word (cleaned term)
             end
    | other =>
        if JsValue.truthy other then
          run (productReadController.getProducts backend search req) b = (response, [])
          /\ productReadController.list_status response = 500
        else
          run (productReadController.getProducts backend search req) b
          = (response, [CallSelect (client_for (Api.accessToken req)) base_query])
    end.
Proof.
  destruct (getProducts_run backend search req b) as (response & Hr).
  exists response.
  destruct search as [| |[|]|x|term|o]; cbn [search_term JsValue.truthy] in *;
    try (destruct (JsNumber.truthy x)); try exact Hr; try exact (proj1 Hr).
  exists (products_query (Some term)). split; [exact (proj1 Hr)|].
  pose proof (products_query_filter (Some term)) as (Hf & Hs & Hl & Ho & Ha & Hor).
  repeat (split; [assumption|]).
  destruct (or (products_query (Some term))) as [f|].
  - destruct Hor as (term' & [= <-] & H). exact H.
  - destruct Hor as [Ht | (term' & [= <-] & H)]; [|exact H].
    left. cbn [truthy_opt] in Ht. destruct term; [reflexivity | discriminate].
Qed.

End SearchFilter.

(** ** Roles as shown and roles as enforced *)

Section Roles.

Import Supabase Http Api RouteSpec.

(** Extra X15: the role shown is the role enforced. For a request with a
    user attached, the flag the components compute for the admin controls
    (the role of the user metadata, else of the application metadata, else
    the word user, compared with admin) is set exactly when [requireAdmin]
    lets the request through; without the flag the gate answers 403; and
    the role shown by GET /auth/user and by the set-up route is never
    falsy. *)
Theorem displayed_role_is_enforced (req : AuthenticatedRequest) (u : User) :
  user req = Some u ->
  (RoleDisplay.isAdmin u = true <-> AuthMiddleware.requireAdmin req = inr req)
  /\ (RoleDisplay.isAdmin u = false ->
      AuthMiddleware.requireAdmin req
      = inl (respond 403 "Forbidden" (Text "Admin access required")))
  /\ JsValue.truthy (RoleDisplay.displayed_role u) = true.
Proof.
  intros Hu.
  assert (Hd : RoleDisplay.isAdmin u
               = JsValue.strict_eq_string (AuthMiddleware.userRole u) (js "admin")).
  { unfold RoleDisplay.isAdmin, RoleDisplay.displayed_role.
    fold (AuthMiddleware.userRole u). unfold JsValue.or at 1.
    destruct (JsValue.truthy (AuthMiddleware.userRole u)) eqn:Ht; [reflexivity|].
    destruct (AuthMiddleware.userRole u) as [| |[|]|x|s|o]; try reflexivity; try discriminate.
    destruct s; [reflexivity | discriminate]. }
  unfold AuthMiddleware.requireAdmin. rewrite Hu. cbv zeta. rewrite <- Hd.
  split; [|split].
  - destruct (RoleDisplay.isAdmin u); cbn [negb]; split; congruence.
  - intros ->. reflexivity.
  - unfold RoleDisplay.displayed_role. unfold JsValue.or at 1.
    destruct (JsValue.truthy (JsValue.or _ _)) eqn:Ht; [exact Ht | reflexivity].
Qed.

End Roles.

Lemma displayed_role_is_enforced_witness :
  RoleDisplay.isAdmin (Sample.account "ada" "admin") = true
  <-> AuthMiddleware.requireAdmin
        (Sample.authenticated "admin-token" (Sample.account "ada" "admin") "1" None)
      = inr (Sample.authenticated "admin-token" (Sample.account "ada" "admin") "1" None).
Proof.
  apply (displayed_role_is_enforced
           (Sample.authenticated "admin-token" (Sample.account "ada" "admin") "1" None)
           (Sample.account "ada" "admin")).
  reflexivity.
Defined.

(** ** The admin set-up route *)

Section SetupRoute.

Import Supabase Http Api RouteSpec AdminSetup.

Context {B : Type} (backend : Oracle B).

(** Extra X16: the set-up route grants nothing. Whatever the request and
    the backend, POST /setup-admin answers 401 or 200, never 403 (the list
    of allowed e-mail addresses is empty, so every signed-in user is
    served); it calls the identity service at most once and the products
    table never; and it answers 200 exactly when the Authorization header
    is a Bearer token the identity service resolves to a user, then with
    the SQL statement for that user's id and the role the interface
    shows. *)
Theorem setup_admin_grants_nothing (req : AuthenticatedRequest) (b : B) :
  let '(response, l) := run (setup_admin backend req) b in
  (setup_status response = 200 \/ setup_status response = 401)
  /\ Forall (fun c : Call => is_write c = false) l
  /\ (l = [] \/ exists token : JsString.t, l = [CallGetUser (Authenticated (Some token))])
  /\ (setup_status response = 200
      <-> exists (token : JsString.t) (u : User),
            authorization req = Some (js "Bearer " ++ token) /\ verified backend token u b)
  /\ forall (token : JsString.t) (u : User),
       authorization req = Some (js "Bearer " ++ token) -> verified backend token u b ->
       setup_json response
       = SetupInstructions "Admin setup instructions" (instructions_for (user_id u))
           {| info_id := user_id u; info_email := email u;
              currentRole := RoleDisplay.displayed_role u |}.
Proof.
  unfold run, setup_admin.
  destruct (authorization req) as [authHeader|] eqn:Ha.
  - destruct (JsString.strip_prefix (js "Bearer ") authHeader) as [token|] eqn:Hp.
    + apply strip_prefix_Some in Hp. subst authHeader.
      unfold bind, supabaseService.verifyToken, bind, issue, ret.
      cbn [backend_state calls app fst snd].
      destruct (getUser backend (Authenticated (Some token)) b) as [a b'] eqn:Hg.
      assert (Hv : forall (t : JsString.t) (u : User),
                Some (js "Bearer " ++ token) = Some (js "Bearer " ++ t) ->
                verified backend t u b -> a = Returned (Some u) None).
      { intros t u Heq [b'' Hu]. injection Heq as Heq. subst t.
        rewrite Hu in Hg. injection Hg as <- _. reflexivity. }
      destruct a as [[u|] [e|]|e];
        cbn [supabaseService.settle supabaseService.error supabaseService.data
             allowedEmails length Z.of_nat Z.ltb Z.compare andb setup_status setup_json
             setup_error fst snd];
        (split; [auto|]); (split; [repeat constructor|]); (split; [right; eauto|]);
        split;
        try (split; [discriminate|]; intros (t & u' & Heq & Hu');
             specialize (Hv t u' Heq Hu'); discriminate);
        try (intros t u' Heq Hu'; specialize (Hv t u' Heq Hu'); discriminate).
      * split; [|reflexivity]. intros _. exists token, u. split; [reflexivity|].
        exists b'. exact Hg.
      * intros t u' Heq Hu'. specialize (Hv t u' Heq Hu'). injection Hv as <-. reflexivity.
    + cbn [ret fst snd calls setup_error setup_status setup_json].
      assert (Hn : forall t : JsString.t, Some authHeader <> Some (js "Bearer " ++ t)).
      { intros t Heq. assert (Hh : authHeader = js "Bearer " ++ t) by congruence.
        rewrite Hh, strip_prefix_app in Hp. discriminate. }
      split; [auto|]. split; [constructor|]. split; [left; reflexivity|].
      split; [split; [discriminate | intros (t & u & Heq & _); destruct (Hn t Heq)]|].
      intros t u Heq _. destruct (Hn t Heq).
  - cbn [ret fst snd calls setup_error setup_status setup_json].
    split; [auto|]. split; [constructor|]. split; [left; reflexivity|].
    split; [split; [discriminate | intros (t & u & Heq & _); discriminate]|].
    intros t u Heq _. discriminate.
Qed.

End SetupRoute.

(** ** The string sanitisers *)

Section StringSanitizers.

Import JsString JsValue ValidationUtils Sanitizers.

Lemma sublist_keeps_Forall (P : char16 -> Prop) (l1 l2 : JsString.t) :
  sublist l1 l2 -> Forall P l2 -> Forall P l1.
Proof.
  induction 1 as [|x l1 l2 _ IH|x l1 l2 _ IH]; intros H; [constructor| |].
  - apply Forall_cons in H as [Hx H]. constructor; [exact Hx | apply IH; exact H].
  - apply Forall_cons in H as [_ H]. apply IH; exact H.
Qed.

Lemma remove_chars_sublist (p : char16 -> bool) (s : JsString.t) :
  sublist (remove_chars p s) s.
Proof.
  unfold remove_chars. induction s as [|c s IH]; cbn [List.filter]; [constructor|].
  destruct (negb (p c)); [apply sublist_skip | apply sublist_cons]; exact IH.
Qed.

Lemma remove_matches_sublist (f : JsString.t -> option nat) (s : JsString.t) :
  forall skip : nat, sublist (remove_matches f skip s) s.
Proof.
  induction s as [|c s IH]; intros skip; cbn [remove_matches]; [constructor|].
  destruct skip as [|k]; [|apply sublist_cons, IH].
  destruct (f (c :: s)) as [[|k]|];
    [apply sublist_skip, IH | apply sublist_cons, IH | apply sublist_skip, IH].
Qed.

Lemma trimStart_suffix (s : JsString.t) : exists k : JsString.t, s = k ++ trimStart s.
Proof.
  induction s as [|c s [k IH]]; cbn [trimStart]; [exists []; reflexivity|].
  destruct (is_space c); [|exists []; reflexivity].
  exists (c :: k). cbn [app]. rewrite <- IH. reflexivity.
Qed.

Lemma trim_sublist (s : JsString.t) : sublist (trim s) s.
Proof.
  unfold trim, trimEnd.
  destruct (trimStart_suffix s) as [k Hk].
  destruct (trimStart_suffix (rev (trimStart s))) as [k' Hk'].
  assert (H : trimStart s = rev (trimStart (rev (trimStart s))) ++ rev k').
  { rewrite <- (rev_involutive (trimStart s)) at 1. rewrite Hk' at 1.
    apply rev_app_distr. }
  rewrite Hk at 2. apply sublist_inserts_l. rewrite H at 2.
  apply sublist_inserts_r. reflexivity.
Qed.

Lemma sanitizeHtml_sublist (input : JsValue.t) :
  sublist (sanitizeHtml input) (html_source input).
Proof.
  unfold sanitizeHtml, html_source.
  destruct input as [| |b|x|s|o]; try constructor.
  destruct (negb (JsString.truthy s)); [apply sublist_nil_l|].
  etransitivity; [apply trim_sublist|].
  etransitivity; [apply remove_matches_sublist|].
  etransitivity; [apply remove_matches_sublist|].
  apply remove_chars_sublist.
Qed.

Lemma sanitizeHtml_no_angle (input : JsValue.t) :
  Forall (fun c : char16 => is_angle c = false) (sanitizeHtml input).
Proof.
  unfold sanitizeHtml. destruct input as [| |b|x|s|o]; try constructor.
  destruct (negb (JsString.truthy s)); [constructor|].
  eapply sublist_keeps_Forall; [|apply (remove_chars_clean is_angle s)].
  etransitivity; [apply trim_sublist|].
  etransitivity; apply remove_matches_sublist.
Qed.

(** Extra X17: what [sanitizeHtml] returns. For an input of any type the
    result contains neither angle bracket, is made of code units of the
    input in their order (nothing is added or escaped, and an input that
    is not a string gives the empty string), and has no white space at
    either end. *)
Theorem sanitizeHtml_output (input : JsValue.t) :
  Forall (fun c : char16 => is_angle c = false) (sanitizeHtml input)
  /\ sublist (sanitizeHtml input) (html_source input)
  /\ trimmed (sanitizeHtml input).
Proof.
  split; [apply sanitizeHtml_no_angle|split; [apply sanitizeHtml_sublist|]].
  unfold sanitizeHtml. destruct input as [| |b|x|s|o]; try (split; reflexivity).
  destruct (negb (JsString.truthy s)); [split; reflexivity|].
  apply trim_ends.
Qed.

Variable Number_toString : JsNumber.t -> JsString.t.



End StringSanitizers.

(** ** The integer sanitiser and the sanitised product *)

Section ProductSanitizer.

Import JsString JsValue ValidationUtils Sanitizers.

Variable Number_toString : JsNumber.t -> JsString.t.
Variable parseFloat_string : JsString.t -> JsNumber.t.
Variable parseInt_string : JsString.t -> JsNumber.t.

(** Extra X19: what [sanitizeInteger] returns. Null, undefined and the
    empty string give null; any other input gives either null or the
    number [parseInt] reads from it, and then that number is finite with a
    value from 0 to 999,999,999, both included (negative zero is let
    through as a zero). *)
Theorem sanitizeInteger_range (input : JsValue.t) :
  (is_empty_input input = true ->
   sanitizeInteger Number_toString parseInt_string input = None)
  /\ forall num : JsNumber.t,
       sanitizeInteger Number_toString parseInt_string input = Some num ->
       num = parseInt Number_toString parseInt_string input
       /\ (JsNumber.valid num ->
           exists q : Q,
             JsNumber.to_Q num = Some q
             /\ (0 <= q)%Q /\ (q <= inject_Z SanitizerSpec.limit)%Q).
Proof.
  unfold sanitizeInteger. split; [intros ->; reflexivity|].
  intros num. destruct (is_empty_input input); [discriminate|]. cbv zeta.
  set (n := parseInt Number_toString parseInt_string input).
  destruct (JsNumber.isNaN n || negb (JsNumber.isFinite n)) eqn:Hf; [discriminate|].
  destruct (JsNumber.gtb n (JsNumber.of_Z 999999999)) eqn:Hg; [discriminate|].
  destruct (JsNumber.ltb n (JsNumber.of_Z 0)) eqn:Hl; [discriminate|].
  cbn [orb]. intros [= <-]. split; [reflexivity|]. intros Hv.
  destruct (JsNumber.to_Q n) as [q|] eqn:Hq;
    [|destruct n; try discriminate Hf; discriminate Hq].
  exists q. split; [reflexivity|]. split.
  - destruct n as [s|s| |s m e]; try discriminate Hq.
    + injection Hq as <-. apply Qle_refl.
    + pose proof (finite_value_sign s m e q Hq) as Hs.
      destruct s; [discriminate Hl | apply Qlt_le_weak; exact Hs].
  - apply Qnot_lt_le. intros Hlt.
    apply (gtb_limit_spec n q Hv Hq) in Hlt.
    change (JsNumber.of_Z SanitizerSpec.limit) with (JsNumber.of_Z 999999999) in Hlt.
    congruence.
Qed.


End ProductSanitizer.

(** ** The frontend token *)

Section FrontendTokens.

Import JsString Http FrontendToken.

Variable hmac_sha256_hex : JsString.t -> JsString.t -> JsString.t.
Variable API_SECRET : JsString.t.

Lemma uint_chars_inj (u v : Decimal.uint) : uint_chars u = uint_chars v -> u = v.
Proof.
  revert v. induction u as [|u IH|u IH|u IH|u IH|u IH|u IH|u IH|u IH|u IH|u IH];
    intros v H; destruct v; cbn [uint_chars] in H; try discriminate H;
    try reflexivity; injection H as H; f_equal; apply IH; exact H.
Qed.

Lemma integer_toString_inj (n n' : Z) :
  0 <= n -> 0 <= n' -> integer_toString n = integer_toString n' -> n = n'.
Proof.
  intros Hn Hn' H.
  assert (E : forall k : Z, 0 <= k -> integer_toString k = uint_chars (N.to_uint (Z.to_N k))).
  { intros k Hk. destruct k; [reflexivity | reflexivity | lia]. }
  rewrite (E n Hn), (E n' Hn') in H. apply uint_chars_inj in H.
  apply (f_equal N.of_uint) in H. rewrite !DecimalN.Unsigned.of_to in H.
  apply (f_equal Z.of_N) in H. rewrite !Z2N.id in H by assumption. exact H.
Qed.

Lemma frontend_gate (req : FrontendRequest) (now : Z) :
  frontendOnlyAccess (verifyFrontendToken hmac_sha256_hex API_SECRET req now) = Next []
  <-> isVerifiedFrontend req = Some true
      \/ x_frontend_token req = Some (generateFrontendToken hmac_sha256_hex API_SECRET now).
Proof.
  unfold verifyFrontendToken, frontendOnlyAccess. cbv zeta.
  destruct (bool_decide_reflect
              (x_frontend_token req
               = Some (generateFrontendToken hmac_sha256_hex API_SECRET now))) as [H|H];
    cbn [isVerifiedFrontend negb].
  - split; [right; exact H | reflexivity].
  - destruct (isVerifiedFrontend req) as [[|]|]; cbn [negb]; split;
      try discriminate; try (intros [?|?]; congruence); auto.
Qed.

(** Extra X21: the frontend token round trip. The token handed out by GET
    /health/token at time [t] has at most 16 code units and, presented in
    X-Frontend-Token at a time of the same five-minute window of the clock,
    is verified and passes the frontend-only gate; a request the verifier
    has not marked is answered 403 by the gate, and the verifier marks a
    request exactly when its header is the token of the current window. *)
Theorem frontend_token_round_trip (t now : Z) :
  t / 300000 = now / 300000 ->
  (length (token (getToken hmac_sha256_hex API_SECRET t)) <= 16)%nat
  /\ frontendOnlyAccess
       (verifyFrontendToken hmac_sha256_hex API_SECRET
          (presenting (token (getToken hmac_sha256_hex API_SECRET t))) now)
     = Next []
  /\ forall req : FrontendRequest,
       isVerifiedFrontend req = None ->
       frontendOnlyAccess req = Responded 403 [] (Some frontend_only_body)
       /\ (frontendOnlyAccess (verifyFrontendToken hmac_sha256_hex API_SECRET req now) = Next []
           <-> x_frontend_token req
               = Some (generateFrontendToken hmac_sha256_hex API_SECRET now)).
Proof.
  intros Hw. split; [|split].
  - cbn [token getToken]. unfold getFrontendToken, generateFrontendToken.
    rewrite length_firstn. lia.
  - apply frontend_gate. right. cbn [x_frontend_token presenting token getToken].
    unfold getFrontendToken, generateFrontendToken, window_message. cbv zeta.
    change (1000 * 60 * 5) with 300000. rewrite Hw. reflexivity.
  - intros req Hreq. split.
    + unfold frontendOnlyAccess. rewrite Hreq. reflexivity.
    + rewrite frontend_gate, Hreq. split; [intros [H|H]; [discriminate | exact H] | auto].
Qed.

(** Extra X22: the life of a frontend token. GET /health/token announces
    a life of 3600 seconds, but a token handed out at time [t] (not before
    the epoch) that is still accepted 300 seconds later or more owes it to
    a collision: two different messages whose keyed digests agree on their
    first 16 code units. *)
Theorem frontend_token_life (t now : Z) :
  0 <= t -> t + 300000 <= now ->
  expires_in (getToken hmac_sha256_hex API_SECRET t) = 3600
  /\ (frontendOnlyAccess
        (verifyFrontendToken hmac_sha256_hex API_SECRET
           (presenting (token (getToken hmac_sha256_hex API_SECRET t))) now)
      = Next [] ->
      exists m1 m2 : JsString.t,
        m1 <> m2
        /\ firstn 16 (hmac_sha256_hex API_SECRET m1)
           = firstn 16 (hmac_sha256_hex API_SECRET m2)).
Proof.
  intros Ht Hnow. split; [reflexivity|]. intros H.
  apply frontend_gate in H. destruct H as [H|H]; [discriminate H|].
  cbn [x_frontend_token presenting token getToken] in H. injection H as H.
  exists (window_message t), (window_message now). split; [|exact H].
  unfold window_message. cbv zeta. change (1000 * 60 * 5) with 300000.
  intros Heq. apply app_inv_head in Heq.
  apply integer_toString_inj in Heq;
    [|apply Z.div_pos; lia | apply Z.div_pos; lia].
  assert (t / 300000 < now / 300000); [|lia].
  apply Z.lt_le_trans with ((t + 300000) / 300000).
  - replace (t + 300000) with (t + 1 * 300000) by lia. rewrite Z.div_add by lia. lia.
  - apply Z.div_le_mono; lia.
Qed.

End FrontendTokens.

Lemma frontend_token_round_trip_witness :
  FrontendToken.frontendOnlyAccess
    (FrontendToken.verifyFrontendToken (fun key message : JsString.t => key ++ message)
       (js "secret")
       (FrontendToken.presenting
          (FrontendToken.token
             (FrontendToken.getToken (fun key message : JsString.t => key ++ message)
                (js "secret") 600001)))
       899999)
  = Http.Next [].
Proof.
  refine (proj1 (proj2 (frontend_token_round_trip
                          (fun key message : JsString.t => key ++ message)
                          (js "secret") 600001 899999 _))).
  reflexivity.
Defined.

Lemma frontend_token_life_witness :
  exists m1 m2 : JsString.t,
    m1 <> m2
    /\ firstn 16 ((fun key message : JsString.t => key) (js "secret") m1)
       = firstn 16 ((fun key message : JsString.t => key) (js "secret") m2).
Proof.
  refine (proj2 (frontend_token_life (fun key message : JsString.t => key)
                   (js "secret") 0 300000 _ _) _); [lia | lia | reflexivity].
Defined.

(** ** The e-mail validator *)

Section EmailValidator.

Import JsString Validators.

Lemma plain_run_split (s : JsString.t) :
  Forall (fun x : char16 => is_plain x = true) (firstn (plain_run s) s)
  /\ from_option is_plain false (head (skipn (plain_run s) s)) = false.
Proof.
  induction s as [|c s [IH1 IH2]]; cbn [plain_run]; [split; [constructor | reflexivity]|].
  destruct (is_plain c) eqn:E; cbn [firstn skipn].
  - split; [constructor; assumption | exact IH2].
  - split; [constructor | exact E].
Qed.

Lemma plain_run_app (a rest : JsString.t) :
  Forall (fun x : char16 => is_plain x = true) a ->
  from_option is_plain false (head rest) = false ->
  plain_run (a ++ rest) = length a.
Proof.
  intros Ha Hr. induction Ha as [|c a Hc _ IH]; cbn [app plain_run length].
  - destruct rest as [|r rest]; [reflexivity|]. cbn [plain_run]. cbn in Hr.
    rewrite Hr. reflexivity.
  - rewrite Hc, IH. reflexivity.
Qed.

Lemma has_inner_dot_spec (s : JsString.t) :
  forall seen : bool,
    has_inner_dot seen s = true
    <-> exists b c : JsString.t,
          s = b ++ 46%N :: c /\ c <> [] /\ (seen = true \/ b <> []).
Proof.
  induction s as [|x s IH]; intros seen.
  - cbn [has_inner_dot]. split; [discriminate|].
    intros (b & c & H & _). destruct b; discriminate H.
  - destruct s as [|y s'].
    + cbn [has_inner_dot]. split; [discriminate|].
      intros (b & c & H & Hc & _). destruct b as [|b0 b]; cbn in H.
      * injection H as _ H. congruence.
      * injection H as _ H. destruct b; discriminate H.
    + change (has_inner_dot seen (x :: y :: s'))
        with ((seen && N.eqb x 46) || has_inner_dot true (y :: s')).
      rewrite orb_true_iff, andb_true_iff, (IH true). split.
      * intros [[Hs Hx] | (b & c & H & Hc & _)].
        -- apply N.eqb_eq in Hx. subst x. exists [], (y :: s').
           split; [reflexivity|]. split; [discriminate | left; exact Hs].
        -- exists (x :: b), c. rewrite H. split; [reflexivity|].
           split; [exact Hc | right; discriminate].
      * intros (b & c & H & Hc & Hb). destruct b as [|b0 b]; cbn [app] in H.
        -- injection H as Hx Hrest. left. destruct Hb as [Hb|Hb]; [|congruence].
           split; [exact Hb | apply N.eqb_eq; exact Hx].
        -- injection H as _ Hrest. right. exists b, c. split; [exact Hrest|].
           split; [exact Hc | left; reflexivity].
Qed.

Lemma isValidEmail_shaped (email : JsString.t) :
  isValidEmail email = true <-> email_shaped email.
Proof.
  unfold isValidEmail, email_shaped. cbv zeta. split.
  - destruct (plain_run_split email) as [Hrun _].
    pose proof (firstn_skipn (plain_run email) email) as Hsplit.
    destruct (plain_run email) as [|k] eqn:Hk; [discriminate|].
    destruct (skipn (S k) email) as [|c domain] eqn:Hd; [discriminate|].
    intros H. apply andb_true_iff in H as [H Hdot].
    apply andb_true_iff in H as [Hat Hdom]. apply N.eqb_eq in Hat. subst c.
    apply (has_inner_dot_spec domain false) in Hdot as (b & c & -> & Hc & [Hb|Hb]);
      [discriminate|].
    exists (firstn (S k) email), b, c. split; [symmetry; exact Hsplit|].
    split; [destruct email; [discriminate Hk | discriminate]|].
    split; [exact Hb|]. split; [exact Hc|].
    apply Forall_app. split; [exact Hrun|].
    pose proof (proj1 (forallb_forall is_plain (b ++ 46%N :: c)) Hdom) as Hin.
    apply Forall_app. split;
      apply List.Forall_forall; intros x Hx; apply Hin, in_or_app;
      [left | right; right]; exact Hx.
  - intros (a & b & c & -> & Ha & Hb & Hc & Hall).
    apply Forall_app in Hall as [Hpa Hall]. apply Forall_app in Hall as [Hpb Hpc].
    rewrite (plain_run_app a (64%N :: b ++ 46%N :: c) Hpa eq_refl).
    destruct a as [|a0 a]; [congruence|]. cbn [length].
    change (skipn (S (length a)) ((a0 :: a) ++ 64%N :: b ++ 46%N :: c))
      with (skipn (length a) (a ++ 64%N :: b ++ 46%N :: c)).
    rewrite skipn_app, skipn_all, Nat.sub_diag. cbn [app skipn].
    rewrite N.eqb_refl. cbn [andb]. apply andb_true_iff. split.
    + apply forallb_forall. intros x Hx. apply in_app_or in Hx as [Hx|[Hx|Hx]].
      * revert x Hx. apply List.Forall_forall. exact Hpb.
      * subst x. reflexivity.
      * revert x Hx. apply List.Forall_forall. exact Hpc.
    + apply has_inner_dot_spec. exists b, c. split; [reflexivity|].
      split; [exact Hc | right; exact Hb].
Qed.

Lemma plain_no_at (s : JsString.t) :
  Forall (fun x : char16 => is_plain x = true) s ->
  List.filter (N.eqb 64) s = [] /\ Forall (fun x : char16 => is_space x = false) s.
Proof.
  induction 1 as [|x s Hx _ [IH1 IH2]]; [split; constructor|].
  unfold is_plain in Hx. apply andb_true_iff in Hx as [Hs Ha].
  apply negb_true_iff in Hs. apply negb_true_iff in Ha.
  cbn [List.filter]. rewrite N.eqb_sym, Ha. split; [exact IH1 | constructor; assumption].
Qed.

(** Extra X23: what [isValidEmail] accepts. A string is accepted exactly
    when it is a local part, an at sign and a domain that splits around a
    dot, with each of the three parts non-empty and free of white space and
    of at signs. An accepted string therefore has exactly one at sign, no
    white space and at least five code units; nothing else is checked. *)
Theorem isValidEmail_accepts (email : JsString.t) :
  (isValidEmail email = true <-> email_shaped email)
  /\ (isValidEmail email = true ->
      length (List.filter (N.eqb 64) email) = 1%nat
      /\ Forall (fun x : char16 => is_space x = false) email
      /\ (5 <= length email)%nat).
Proof.
  split; [apply isValidEmail_shaped|].
  intros H. apply isValidEmail_shaped in H as (a & b & c & -> & Ha & Hb & Hc & Hall).
  apply Forall_app in Hall as [Hpa Hall]. apply Forall_app in Hall as [Hpb Hpc].
  destruct (plain_no_at a Hpa) as [Fa Sa], (plain_no_at b Hpb) as [Fb Sb],
    (plain_no_at c Hpc) as [Fc Sc].
  split; [|split].
  - unfold char16 in *.
    assert (Hcons : forall (x : N) (l : list N),
              List.filter (N.eqb 64) (x :: l)
              = if N.eqb 64 x then x :: List.filter (N.eqb 64) l
                else List.filter (N.eqb 64) l) by reflexivity.
    rewrite List.filter_app, Fa, Hcons, List.filter_app, Fb, Hcons, Fc. reflexivity.
  - apply Forall_app. split; [exact Sa|]. constructor; [reflexivity|].
    apply Forall_app. split; [exact Sb|]. constructor; [reflexivity | exact Sc].
  - rewrite length_app. cbn [length]. rewrite length_app. cbn [length].
    destruct a; [congruence|]. destruct b; [congruence|]. destruct c; [congruence|].
    cbn [length]. lia.
Qed.

End EmailValidator.

(** ** Required and optional authentication *)

Section AuthAgreement.

Import Supabase Http Api RouteSpec.

Context {B : Type} (backend : Oracle B).

(** Extra X25: the two authentication middlewares agree on who is signed
    in. On any request and backend state they make the same calls to the
    identity service; when [requireAuth] passes the request on,
    [optionalAuth] passes on the same request, with the same user and
    token attached; and when [requireAuth] answers 401, [optionalAuth]
    passes the request on as it came, with no user attached by it. *)
Theorem optionalAuth_agrees_with_requireAuth (req : AuthenticatedRequest) (b : B) :
  match run (AuthMiddleware.requireAuth backend req) b with
  | (inr req', l) => run (OptionalAuth.optionalAuth backend req) b = (req', l)
  | (inl response, l) =>
      status response = 401 /\ run (OptionalAuth.optionalAuth backend req) b = (req, l)
  end.
Proof.
  unfold run, AuthMiddleware.requireAuth, OptionalAuth.optionalAuth.
  destruct (authorization req) as [authHeader|]; [|split; reflexivity].
  destruct (JsString.strip_prefix (js "Bearer ") authHeader) as [token|];
    [|split; reflexivity].
  unfold bind, supabaseService.verifyToken, bind, issue, ret.
  cbn [backend_state calls app fst snd].
  destruct (getUser backend (Authenticated (Some token)) b) as [a b'].
  destruct a as [[u|] [e|]|e];
    cbn [supabaseService.settle supabaseService.error supabaseService.data fst snd calls];
    first [reflexivity | split; reflexivity].
Qed.

End AuthAgreement.
